(** * item-scribe-export: item types, items, projects, search and export

    A shallow embedding of the data model and of the pure logic inside the
    React components of the repository:

    - [validateForm], [handleSave], [handleInputChange]  (ItemCreator)
    - [addField], [removeField], [handleSave]            (ItemTypeCreator)
    - [validateForm], [handleSave]                       (ProjectCreator)
    - [filteredItems], [exportToExcel], the selection and the cards
                                                         (ItemList)
    - [filteredProjectItems], [addItemsToProject],
      [removeSelectedItems], [exportProject], the table rows and the
      add dialog                                         (ProjectView)
    - [filteredProjects], [getProjectItemCount]          (ProjectList)
    - [handleDeleteItems] and the other handlers         (pages/Index)

    Conventions of the embedding.

    - JavaScript strings are byte strings, and the string primitives
      are those of ASCII text: [toLowerCase] lowers the letters A-Z,
      [trim] strips the ASCII white space, [length] and [slice] count
      bytes.  The general properties use of them only what holds of the
      JavaScript primitives on every string ([toLowerCase] maps the
      empty text to itself, [trim] removes characters at both ends and
      nowhere else and is idempotent); the ASCII definitions serve to
      evaluate the sample runs.
    - A value stored in an item's [data] is a primitive JavaScript value
      ([jsval]); numbers are the integral ones plus NaN, and [String]
      prints an integer in full, as JavaScript does below 1e21.
    - Field ids are produced by [addField] as [field_<ms>], so a lookup
      [data[field.id]] is an own-property lookup ([js_get]).  Type names
      are typed by the user: the object that groups items by type name is
      modelled with its inherited properties and with the enumeration
      order of own keys that JavaScript prescribes ([js_entries]).
    - Clock readings ([Date.now()], [new Date().toISOString()]) are
      arguments; the locale rendering of a date is a section variable.
    - The workbook is the sequence of sheets handed to
      [XLSX.utils.book_append_sheet] and accepted by it.  The xlsx
      library is outside the repository: whether [book_append_sheet]
      and [writeFile] return or throw is a parameter of the export, and
      the export throws when one of them does. *)

From Stdlib Require Import ZArith Ascii String.
From stdpp Require Import base gmap strings list pretty.


(** ** JavaScript values and string primitives *)

Inductive jsval : Type :=
  | JUndefined
  | JNull
  | JBool (b : bool)
  | JNum (n : Z)
  | JNaN
  | JStr (s : string).

#[global] Instance jsval_eq_dec : EqDecision jsval.
Proof. solve_decision. Defined.

(** [ToBoolean]: the falsy values are undefined, null, false, 0, NaN
    and the empty string. *)
Definition ToBoolean (v : jsval) : bool :=
  match v with
  | JUndefined | JNull | JNaN => false
  | JBool b => b
  | JNum n => negb (n =? 0)%Z
  | JStr s => negb (String.eqb s "")
  end.

(** [a || b] *)
Definition js_or (a b : jsval) : jsval := if ToBoolean a then a else b.

(** [a === b] on primitives *)
Definition js_strict_eq (a b : jsval) : bool :=
  match a, b with
  | JNaN, _ | _, JNaN => false
  | _, _ => bool_decide (a = b)
  end.

(** [String(v)]; an integer is printed in full *)
Definition js_String (v : jsval) : string :=
  match v with
  | JUndefined => "undefined"
  | JNull => "null"
  | JBool true => "true"
  | JBool false => "false"
  | JNum n => pretty n
  | JNaN => "NaN"
  | JStr s => s
  end.

(** [obj[k]] for an own property of a plain data object *)
Definition js_get (obj : gmap string jsval) (k : string) : jsval :=
  default JUndefined (obj !! k).

(** [Object.values(obj)] *)
Definition js_values (obj : gmap string jsval) : list jsval :=
  (map_to_list obj).*2.

Definition lower_ascii (c : ascii) : ascii :=
  let n := nat_of_ascii c in
  if (65 <=? n)%nat && (n <=? 90)%nat then ascii_of_nat (n + 32) else c.

(** [s.toLowerCase()] on ASCII text *)
Fixpoint toLowerCase (s : string) : string :=
  match s with
  | EmptyString => EmptyString
  | String c r => String (lower_ascii c) (toLowerCase r)
  end.

(** [s.includes(sub)] *)
Fixpoint includes (s sub : string) : bool :=
  String.prefix sub s ||
  match s with
  | EmptyString => false
  | String _ r => includes r sub
  end.

(** [s.trim()] on ASCII text *)
Fixpoint trimStart (s : string) : string :=
  match s with
  | EmptyString => EmptyString
  | String c r => if Ascii.is_space c then trimStart r else s
  end.

Definition trimEnd (s : string) : string :=
  String.rev (trimStart (String.rev s)).

Definition trim (s : string) : string := trimEnd (trimStart s).

(** [s.split(c)] for a one-character separator: the pieces between
    separators, always at least one piece. *)
Fixpoint split_go (c : ascii) (cur : string) (s : string) : list string :=
  match s with
  | EmptyString => [String.rev cur]
  | String a r =>
      if Ascii.eqb a c then String.rev cur :: split_go c EmptyString r
      else split_go c (String a cur) r
  end.

Definition split (c : ascii) (s : string) : list string :=
  split_go c EmptyString s.

(** [s.slice(0, n)] *)
Definition slice0 (n : nat) (s : string) : string := String.substring 0 n s.

(** ** Data model (types/ItemType.ts, types/Project.ts) *)

Inductive FieldType : Type := text | number | date | select.

#[global] Instance FieldType_eq_dec : EqDecision FieldType.
Proof. solve_decision. Defined.

Record FieldDefinition : Type := mkField {
  field_id : string;
  field_name : string;
  field_type : FieldType;
  field_required : bool;
  field_options : option (list string)
}.

Record ItemType : Type := mkItemType {
  type_id : string;
  type_name : string;
  type_fields : list FieldDefinition;
  type_createdAt : string
}.

Record ItemInstance : Type := mkItem {
  item_id : string;
  item_typeId : string;
  item_typeName : string;
  item_data : gmap string jsval;
  item_createdAt : string
}.

Record Project : Type := mkProject {
  project_id : string;
  project_name : string;
  project_description : string;
  project_location : string;
  project_itemIds : list string;
  project_createdAt : string;
  project_updatedAt : string
}.

(** ** ItemCreator: validateForm and handleSave *)

(** The test of the [forEach] body:
    [field.required && (!formData[field.id] || formData[field.id] === '')] *)
Definition field_violation (formData : gmap string jsval)
    (field : FieldDefinition) : bool :=
  field_required field &&
  (negb (ToBoolean (js_get formData (field_id field)))
   || js_strict_eq (js_get formData (field_id field)) (JStr "")).

Definition validate_step (formData : gmap string jsval)
    (newErrors : gmap string string) (field : FieldDefinition)
    : gmap string string :=
  if field_violation formData field
  then <[field_id field := field_name field +:+ " is required"]> newErrors
  else newErrors.

(** Returns the error record handed to [setErrors] and the boolean
    [Object.keys(newErrors).length === 0]. *)
Definition validateForm (itemType : ItemType) (formData : gmap string jsval)
    : gmap string string * bool :=
  let newErrors := foldl (validate_step formData) ∅ (type_fields itemType) in
  (newErrors, bool_decide (size newErrors = 0)).

(** [handleSave]: [None] when validation fails (nothing is handed to
    [onSave]), otherwise the new item.  [nowMs] is [Date.now()] and
    [nowIso] is [new Date().toISOString()]. *)
Definition handleSave (itemType : ItemType) (formData : gmap string jsval)
    (nowMs : Z) (nowIso : string) : option ItemInstance :=
  if (validateForm itemType formData).2
  then Some (mkItem ("item_" +:+ pretty nowMs) (type_id itemType)
                    (type_name itemType) formData nowIso)
  else None.

(** ** ItemTypeCreator: addField, removeField *)

(** [Partial<FieldDefinition>]: every property may be absent. *)
Record FieldDraft : Type := mkDraft {
  draft_name : option string;
  draft_type : option FieldType;
  draft_required : option bool;
  draft_options : option (list string)
}.

Record CreatorState : Type := mkCreator {
  st_fields : list FieldDefinition;
  st_currentField : FieldDraft;
  st_selectOptions : string
}.

Definition initialDraft : FieldDraft :=
  mkDraft (Some "") (Some text) (Some false) (Some []).

Definition initialCreator : CreatorState := mkCreator [] initialDraft "".

(** [selectOptions.split(',').map(opt => opt.trim()).filter(Boolean)] *)
Definition parseOptions (selectOptions : string) : list string :=
  List.filter (fun opt => negb (String.eqb opt ""))
              (List.map trim (split "," selectOptions)).

Definition addField (st : CreatorState) (nowMs : Z) : CreatorState :=
  match draft_name (st_currentField st) with
  | None | Some EmptyString => st
  | Some name =>
      let type := default text (draft_type (st_currentField st)) in
      let newField :=
        mkField ("field_" +:+ pretty nowMs) name type
          (default false (draft_required (st_currentField st)))
          (if bool_decide (draft_type (st_currentField st) = Some select)
              && negb (String.eqb (st_selectOptions st) "")
           then Some (parseOptions (st_selectOptions st))
           else None) in
      mkCreator (st_fields st ++ [newField]) initialDraft ""
  end.

Definition removeField (st : CreatorState) (id : string) : CreatorState :=
  mkCreator (List.filter (fun field => negb (String.eqb (field_id field) id))
                         (st_fields st))
            (st_currentField st) (st_selectOptions st).

(** The user actions of the type creator form. *)
Inductive CreatorAction : Type :=
  | SetCurrentField (d : FieldDraft)
  | SetSelectOptions (s : string)
  | AddField (nowMs : Z)
  | RemoveField (id : string).

Definition creator_step (st : CreatorState) (a : CreatorAction) : CreatorState :=
  match a with
  | SetCurrentField d => mkCreator (st_fields st) d (st_selectOptions st)
  | SetSelectOptions s => mkCreator (st_fields st) (st_currentField st) s
  | AddField nowMs => addField st nowMs
  | RemoveField id => removeField st id
  end.

Definition creator_run (actions : list CreatorAction) : CreatorState :=
  foldl creator_step initialCreator actions.

(** ** ItemList and ProjectView: free-text search *)

(** ItemList, [filteredItems] *)
Definition filteredItems (items : list ItemInstance) (searchTerm : string)
    : list ItemInstance :=
  if String.eqb searchTerm "" then items
  else
    List.filter (fun item =>
      let searchString := toLowerCase searchTerm in
      if includes (toLowerCase (item_typeName item)) searchString then true
      else existsb (fun value =>
                      includes (toLowerCase (js_String value)) searchString)
                   (js_values (item_data item))) items.

(** ProjectView, [projectItems] and [availableItems] *)
Definition projectItems (project : Project) (allItems : list ItemInstance)
    : list ItemInstance :=
  List.filter (fun item =>
    bool_decide (item_id item ∈ project_itemIds project)) allItems.

Definition availableItems (project : Project) (allItems : list ItemInstance)
    : list ItemInstance :=
  List.filter (fun item =>
    negb (bool_decide (item_id item ∈ project_itemIds project))) allItems.

(** ProjectView, [filteredProjectItems] *)
Definition filteredProjectItems (project : Project)
    (allItems : list ItemInstance) (searchTerm : string) : list ItemInstance :=
  if String.eqb searchTerm "" then projectItems project allItems
  else
    List.filter (fun item =>
      let searchString := toLowerCase searchTerm in
      if includes (toLowerCase (item_typeName item)) searchString then true
      else existsb (fun value =>
                      includes (toLowerCase (js_String value)) searchString)
                   (js_values (item_data item)))
      (projectItems project allItems).

(** ** ProjectView: membership updates *)

Definition addItemsToProject (project : Project) (itemIds : list string)
    (nowIso : string) : Project :=
  mkProject (project_id project) (project_name project)
            (project_description project) (project_location project)
            (project_itemIds project ++ itemIds)
            (project_createdAt project) nowIso.

(** [removeSelectedItems]: nothing happens ([None]) when nothing is
    selected or when the user declines the [confirm] dialog. *)
Definition removeSelectedItems (project : Project)
    (selectedItems : gset string) (confirmed : bool) (nowIso : string)
    : option Project :=
  if bool_decide (size selectedItems = 0) then None
  else if confirmed then
    Some (mkProject (project_id project) (project_name project)
            (project_description project) (project_location project)
            (List.filter (fun id => negb (bool_decide (id ∈ selectedItems)))
                         (project_itemIds project))
            (project_createdAt project) nowIso)
  else None.

(** ** Index: handleDeleteItems *)

(** The [map] callback reads the clock once per project: [clock i] is the
    reading [new Date().toISOString()] taken for the project at index [i]. *)
Definition handleDeleteItems (items : list ItemInstance)
    (projects : list Project) (itemIds : list string) (clock : nat → string)
    : list ItemInstance * list Project :=
  (List.filter (fun item => negb (bool_decide (item_id item ∈ itemIds))) items,
   imap (fun i project =>
           mkProject (project_id project) (project_name project)
             (project_description project) (project_location project)
             (List.filter (fun id => negb (bool_decide (id ∈ itemIds)))
                          (project_itemIds project))
             (project_createdAt project) (clock i)) projects).

(** ** Export: grouping by type name *)

(** The property names every plain object inherits from
    [Object.prototype]. *)
Definition object_prototype_keys : list string :=
  [ "constructor"; "__defineGetter__"; "__defineSetter__"; "hasOwnProperty";
    "__lookupGetter__"; "__lookupSetter__"; "isPrototypeOf";
    "propertyIsEnumerable"; "toString"; "valueOf"; "__proto__";
    "toLocaleString" ].

(** The own properties of the accumulator [acc], in creation order. *)
Definition Groups : Type := list (string * list ItemInstance).

Fixpoint own_lookup (k : string) (acc : Groups) : option (list ItemInstance) :=
  match acc with
  | [] => None
  | (k', v) :: rest => if String.eqb k' k then Some v else own_lookup k rest
  end.

(** [acc[k].push(item)] for an own property [k] *)
Fixpoint own_push (k : string) (item : ItemInstance) (acc : Groups) : Groups :=
  match acc with
  | [] => []
  | (k', v) :: rest =>
      if String.eqb k' k then (k', v ++ [item]) :: rest
      else (k', v) :: own_push k item rest
  end.

(** The [reduce] callback.  [None] is the [TypeError] raised by
    [acc[item.typeName].push] when the name is not an own property but is
    inherited: the inherited value is truthy, so no array is stored, and
    it has no [push]. *)
Definition group_step (acc : Groups) (item : ItemInstance) : option Groups :=
  match own_lookup (item_typeName item) acc with
  | Some _ => Some (own_push (item_typeName item) item acc)
  | None =>
      if bool_decide (item_typeName item ∈ object_prototype_keys) then None
      else Some (acc ++ [(item_typeName item, [item])])
  end.

Fixpoint reduce_groups (acc : Groups) (items : list ItemInstance)
    : option Groups :=
  match items with
  | [] => Some acc
  | item :: rest =>
      match group_step acc item with
      | Some acc' => reduce_groups acc' rest
      | None => None
      end
  end.

Definition groupedByType (items : list ItemInstance) : option Groups :=
  reduce_groups [] items.

(** A property key is an array index when it is the canonical decimal
    form of an integer below 2^32 - 1. *)
Fixpoint parse_digits (acc : N) (s : string) : option N :=
  match s with
  | EmptyString => Some acc
  | String c r =>
      match Ascii.is_nat c with
      | Some d => parse_digits (acc * 10 + N.of_nat d)%N r
      | None => None
      end
  end.

Definition array_index (k : string) : option N :=
  match k with
  | EmptyString => None
  | _ =>
      match parse_digits 0%N k with
      | Some n =>
          if bool_decide (pretty n = k) && (n <? 4294967295)%N
          then Some n else None
      | None => None
      end
  end.

Fixpoint insert_index {V : Type} (n : N) (e : string * V)
    (l : list (N * (string * V))) : list (N * (string * V)) :=
  match l with
  | [] => [(n, e)]
  | (m, e') :: rest =>
      if (n <? m)%N then (n, e) :: l else (m, e') :: insert_index n e rest
  end.

Fixpoint index_entries {V : Type} (l : list (string * V))
    : list (N * (string * V)) :=
  match l with
  | [] => []
  | e :: rest =>
      match array_index e.1 with
      | Some n => insert_index n e (index_entries rest)
      | None => index_entries rest
      end
  end.

(** [Object.entries(obj)]: array-index keys in ascending numeric order,
    then the other keys in creation order. *)
Definition js_entries {V : Type} (own : list (string * V))
    : list (string * V) :=
  (index_entries own).*2 ++
  List.filter (fun e => negb (bool_decide (is_Some (array_index e.1)))) own.

(** ** Export: sheets and workbooks *)

Record Sheet : Type := mkSheet {
  sheet_name : string;
  sheet_data : list (list jsval);
  sheet_cols : option (list nat)
}.

Inductive ExportOutcome : Type :=
  | NoDocument
  | Thrown
  | Written (filename : string) (workbook : list Sheet).

(** [Math.max(x, ...xs)] on lengths *)
Definition max_list (x : nat) (xs : list nat) : nat := foldl Nat.max x xs.

(** [new Date().toISOString().split('T')[0]] *)
Definition isoDay (nowIso : string) : string :=
  match split "T" nowIso with
  | day :: _ => day
  | [] => "undefined"
  end.

Definition is_alnum (c : ascii) : bool :=
  let n := nat_of_ascii c in
  ((48 <=? n)%nat && (n <=? 57)%nat) ||
  ((65 <=? n)%nat && (n <=? 90)%nat) ||
  ((97 <=? n)%nat && (n <=? 122)%nat).

(** [s.replace(/[^a-zA-Z0-9]/g, '_')] *)
Fixpoint slugify (s : string) : string :=
  match s with
  | EmptyString => EmptyString
  | String c r => String (if is_alnum c then c else "_"%char) (slugify r)
  end.

Section ExportModel.

(** [toLocaleDateString s] stands for
    [new Date(s).toLocaleDateString()] in the locale and time zone of
    the browser. *)
Variable toLocaleDateString : string → string.

(** The xlsx library is not part of the repository; its two calls that
    can refuse their arguments are variables of the model.
    [book_append_sheet workbook worksheet] tells whether
    [XLSX.utils.book_append_sheet(workbook, worksheet, name)] returns
    (rather than throws) when the sheets [workbook] have been appended
    before; [worksheet] comes with the [name] it is handed over under.
    [writeFile workbook filename] tells whether [XLSX.writeFile]
    returns. *)
Variable book_append_sheet : list Sheet → Sheet → bool.
Variable writeFile : list Sheet → string → bool.

(** [headers] of a sheet *)
Definition sheetHeaders (itemType : ItemType) : list string :=
  "ID" :: "Created At" :: List.map field_name (type_fields itemType).

(** One element of [rows] *)
Definition sheetRow (itemType : ItemType) (item : ItemInstance)
    : list jsval :=
  JStr (item_id item) ::
  JStr (toLocaleDateString (item_createdAt item)) ::
  List.map (fun field =>
              js_or (js_get (item_data item) (field_id field)) (JStr ""))
           (type_fields itemType).

(** [colWidths] *)
Definition colWidths (headers : list string) (rows : list (list jsval))
    : list nat :=
  imap (fun i header =>
          let maxLength :=
            max_list (String.length header)
              (List.map (fun row =>
                 String.length
                   (js_String (js_or (default JUndefined (row !! i))
                                     (JStr "")))) rows) in
          Nat.min (maxLength + 2) 50) headers.

(** The body of the [forEach] over [Object.entries(groupedByType)], up
    to the call of [book_append_sheet]: the worksheet built for one
    entry, with its column widths and the name it is handed over under;
    nothing when the callback returns at [if (!itemType) return]. *)
Definition typeSheet (itemTypes : list ItemType)
    (entry : string * list ItemInstance) : option Sheet :=
  let '(typeName, typeItems) := entry in
  match List.find (fun type => String.eqb (type_name type) typeName)
                  itemTypes with
  | None => None
  | Some itemType =>
      let headers := sheetHeaders itemType in
      let rows := List.map (sheetRow itemType) typeItems in
      let worksheetData := List.map JStr headers :: rows in
      Some (mkSheet (slice0 31 typeName) worksheetData
                    (Some (colWidths headers rows)))
  end.

(** The callback on one entry: the workbook afterwards, [None] when
    [book_append_sheet] throws. *)
Definition appendTypeSheet (itemTypes : list ItemType)
    (workbook : list Sheet) (entry : string * list ItemInstance)
    : option (list Sheet) :=
  match typeSheet itemTypes entry with
  | None => Some workbook
  | Some worksheet =>
      if book_append_sheet workbook worksheet
      then Some (workbook ++ [worksheet])
      else None
  end.

(** [Object.entries(groupedByType).forEach(...)]: the callback runs on
    the entries in turn; a throw ends the loop and the export. *)
Fixpoint forEachEntry (itemTypes : list ItemType) (workbook : list Sheet)
    (entries : list (string * list ItemInstance)) : option (list Sheet) :=
  match entries with
  | [] => Some workbook
  | entry :: rest =>
      match appendTypeSheet itemTypes workbook entry with
      | None => None
      | Some workbook' => forEachEntry itemTypes workbook' rest
      end
  end.

(** ItemList, [exportToExcel] *)
Definition exportToExcel (items : list ItemInstance)
    (itemTypes : list ItemType) (selectedItems : gset string)
    (nowIso : string) : ExportOutcome :=
  if bool_decide (size selectedItems = 0) then NoDocument
  else
    let selectedItemsData :=
      List.filter (fun item => bool_decide (item_id item ∈ selectedItems))
                  items in
    match groupedByType selectedItemsData with
    | None => Thrown
    | Some groups =>
        match forEachEntry itemTypes [] (js_entries groups) with
        | None => Thrown
        | Some workbook =>
            let filename := "items_export_" +:+ isoDay nowIso +:+ ".xlsx" in
            if writeFile workbook filename then Written filename workbook
            else Thrown
        end
    end.

(** ProjectView, the [projectInfo] sheet *)
Definition projectInfoSheet (project : Project)
    (projectItems : list ItemInstance) : Sheet :=
  mkSheet "Project Info"
    [ [JStr "Project Name"; JStr (project_name project)];
      [JStr "Description"; JStr (project_description project)];
      [JStr "Location"; JStr (project_location project)];
      [JStr "Created At";
       JStr (toLocaleDateString (project_createdAt project))];
      [JStr "Updated At";
       JStr (toLocaleDateString (project_updatedAt project))];
      [JStr "Total Items"; JNum (Z.of_nat (length projectItems))] ]
    None.

(** ProjectView, [exportProject] *)
Definition exportProject (project : Project) (allItems : list ItemInstance)
    (itemTypes : list ItemType) (nowIso : string) : ExportOutcome :=
  let projectItems := projectItems project allItems in
  if bool_decide (length projectItems = 0) then NoDocument
  else
    match groupedByType projectItems with
    | None => Thrown
    | Some groups =>
        let projectSheet := projectInfoSheet project projectItems in
        if book_append_sheet [] projectSheet then
          match forEachEntry itemTypes [projectSheet] (js_entries groups) with
          | None => Thrown
          | Some workbook =>
              let filename :=
                slugify (project_name project) +:+ "_export_" +:+
                isoDay nowIso +:+ ".xlsx" in
              if writeFile workbook filename then Written filename workbook
              else Thrown
          end
        else Thrown
    end.

End ExportModel.

(** An instance of the locale rendering, used to evaluate the export on
    concrete inputs: the en-US form [M/D/YYYY] of a date whose text
    starts with [YYYY-MM-DD], read in UTC; any other text is not a date. *)
Definition two_digits (a b : ascii) : option nat :=
  match Ascii.is_nat a, Ascii.is_nat b with
  | Some x, Some y => Some (10 * x + y)
  | _, _ => None
  end.

Definition toLocaleDateString_enUS (s : string) : string :=
  match s with
  | String y1 (String y2 (String y3 (String y4 (String "-" (String m1
      (String m2 (String "-" (String d1 (String d2 _))))))))) =>
      match two_digits y1 y2, two_digits y3 y4,
            two_digits m1 m2, two_digits d1 d2 with
      | Some _, Some _, Some m, Some d =>
          pretty m +:+ "/" +:+ pretty d +:+ "/" +:+
          String y1 (String y2 (String y3 (String y4 EmptyString)))
      | _, _, _, _ => "Invalid Date"
      end
  | _ => "Invalid Date"
  end.

(** An instance of the library calls, used to evaluate the export on
    concrete inputs: the checks that the xlsx library (SheetJS) makes on
    sheet names and on the workbook.  [book_append_sheet] stores a sheet
    handed over under an empty name as the first free ["Sheet<i>"]; it
    throws when the workbook holds 65535 sheets, when the name has more
    than 31 characters or holds a square bracket, a star, a question
    mark, a slash or a backslash, and when the name is already stored.
    [writeFile] throws for a workbook without sheets. *)
Definition check_ws_name (n : string) : bool :=
  (String.length n <=? 31)%nat &&
  forallb (fun c => negb (includes n (String c EmptyString)))
          (list_ascii_of_string "][*?\/").

Definition xlsx_sheet_name (SheetNames : list string) (name : string)
    : option string :=
  if String.eqb name "" then
    List.find (fun n => negb (bool_decide (n ∈ SheetNames)))
              ((fun i : Z => "Sheet" +:+ pretty i) <$> seqZ 1 65535)
  else Some name.

(** [wb.SheetNames] after the call, [None] when it throws. *)
Definition xlsx_append (SheetNames : list string) (name : string)
    : option (list string) :=
  match xlsx_sheet_name SheetNames name with
  | None => None
  | Some name =>
      if (65535 <=? Z.of_nat (length SheetNames))%Z then None
      else if negb (check_ws_name name) then None
      else if bool_decide (name ∈ SheetNames) then None
      else Some (SheetNames ++ [name])
  end.

(** [wb.SheetNames] once the sheets have been appended in turn. *)
Definition xlsx_SheetNames (workbook : list Sheet) : option (list string) :=
  foldl (fun names worksheet =>
           match names with
           | None => None
           | Some names => xlsx_append names (sheet_name worksheet)
           end)
        (Some []) workbook.

Definition xlsx_book_append_sheet (workbook : list Sheet)
    (worksheet : Sheet) : bool :=
  match xlsx_SheetNames workbook with
  | None => false
  | Some names =>
      match xlsx_append names (sheet_name worksheet) with
      | None => false
      | Some _ => true
      end
  end.

Definition xlsx_writeFile (workbook : list Sheet) (filename : string)
    : bool :=
  match workbook with
  | [] => false
  | _ :: _ => true
  end.

(** ** ItemCreator: handleInputChange *)

(** The form state is the pair of [formData] and [errors].  The value
    is stored under the field id; an error shown for the field is
    replaced by the empty text. *)
Definition handleInputChange
    (st : gmap string jsval * gmap string string)
    (fieldId : string) (value : jsval)
    : gmap string jsval * gmap string string :=
  (<[fieldId := value]> st.1,
   match st.2 !! fieldId with
   | Some msg =>
       if negb (String.eqb msg "") then <[fieldId := ""]> st.2 else st.2
   | None => st.2
   end).

(** ** ItemTypeCreator: handleSave *)

Module ItemTypeCreator.

(** [None] when the save is refused (empty type name or no field). *)
Definition handleSave (typeName : string) (fields : list FieldDefinition)
    (nowMs : Z) (nowIso : string) : option ItemType :=
  if String.eqb typeName "" || bool_decide (length fields = 0) then None
  else Some (mkItemType ("type_" +:+ pretty nowMs) typeName fields nowIso).

End ItemTypeCreator.

(** ** ProjectCreator: validateForm and handleSave *)

Module ProjectCreator.

Record FormData : Type := mkForm {
  name : string;
  description : string;
  location : string
}.

Definition validateForm (formData : FormData) : gmap string string * bool :=
  let newErrors : gmap string string := ∅ in
  let newErrors :=
    if String.eqb (trim (name formData)) ""
    then <["name" := "Project name is required"]> newErrors
    else newErrors in
  let newErrors :=
    if String.eqb (trim (location formData)) ""
    then <["location" := "Location is required"]> newErrors
    else newErrors in
  (newErrors, bool_decide (size newErrors = 0)).

(** [nowMs] is [Date.now()]; [createdIso] and [updatedIso] are the two
    readings [new Date().toISOString()] taken for [createdAt] and
    [updatedAt]. *)
Definition handleSave (formData : FormData) (nowMs : Z)
    (createdIso updatedIso : string) : option Project :=
  if (validateForm formData).2
  then Some (mkProject ("project_" +:+ pretty nowMs)
               (trim (name formData)) (trim (description formData))
               (trim (location formData)) [] createdIso updatedIso)
  else None.

End ProjectCreator.

(** ** ProjectList: filteredProjects and getProjectItemCount *)

Module ProjectList.

Definition filteredProjects (projects : list Project) (searchTerm : string)
    : list Project :=
  List.filter (fun project =>
    let searchString := toLowerCase searchTerm in
    includes (toLowerCase (project_name project)) searchString
    || includes (toLowerCase (project_description project)) searchString
    || includes (toLowerCase (project_location project)) searchString)
    projects.

Definition getProjectItemCount (project : Project) : nat :=
  length (project_itemIds project).

End ProjectList.

(** ** ItemList and ProjectView: selection *)

(** [toggleItemSelection] on the selection of the item list and of the
    project table. *)
Definition toggleItemSelection (selectedItems : gset string)
    (itemId : string) : gset string :=
  if bool_decide (itemId ∈ selectedItems)
  then selectedItems ∖ {[itemId]}
  else selectedItems ∪ {[itemId]}.

(** [toggleSelectAll]; [filtered] is [filteredItems] in the item list and
    [filteredProjectItems] in the project view. *)
Definition toggleSelectAll (selectedItems : gset string)
    (filtered : list ItemInstance) : gset string :=
  if bool_decide (size selectedItems = length filtered) then ∅
  else list_to_set (List.map item_id filtered).

(** ItemList, [getItemTypeById] *)
Definition getItemTypeById (itemTypes : list ItemType) (typeId : string)
    : option ItemType :=
  List.find (fun type => String.eqb (type_id type) typeId) itemTypes.

(** The negation of [!value && value !== 0], the test on which the
    cards, the table rows and the dialog entries leave a field out. *)
Definition fieldShown (value : jsval) : bool :=
  negb (negb (ToBoolean value) && negb (js_strict_eq value (JNum 0))).

Section Display.

(** [localeDateOf v] stands for [new Date(v).toLocaleDateString()]. *)
Variable localeDateOf : jsval → string.

(** ItemList and ProjectView, [formatFieldValue] *)
Definition formatFieldValue (value : jsval) (field : FieldDefinition)
    : string :=
  if bool_decide (field_type field = date) && ToBoolean value
  then localeDateOf value
  else js_String (js_or value (JStr "")).

(** ItemList, the body of a card: [None] for an item whose type is not
    found (no card is rendered), otherwise the labelled texts of
    [itemType.fields.slice(0, 6).map(...)] that are not [null], each the
    field name with the formatted value. *)
Definition cardFields (itemTypes : list ItemType) (item : ItemInstance)
    : option (list (string * string)) :=
  match getItemTypeById itemTypes (item_typeId item) with
  | None => None
  | Some itemType =>
      Some (omap (fun field =>
                    let value := js_get (item_data item) (field_id field) in
                    if fieldShown value
                    then Some (field_name field, formatFieldValue value field)
                    else None)
                 (take 6 (type_fields itemType)))
  end.

(** ProjectView, the "Data" cell of a table row: the same over
    [itemType.fields.slice(0, 3)]. *)
Definition rowFields (itemTypes : list ItemType) (item : ItemInstance)
    : option (list (string * string)) :=
  match getItemTypeById itemTypes (item_typeId item) with
  | None => None
  | Some itemType =>
      Some (omap (fun field =>
                    let value := js_get (item_data item) (field_id field) in
                    if fieldShown value
                    then Some (field_name field, formatFieldValue value field)
                    else None)
                 (take 3 (type_fields itemType)))
  end.

End Display.

(** AddItemsDialog, an entry of the list: over
    [itemType.fields.slice(0, 4)], with [String(value)] as the text. *)
Definition dialogFields (itemTypes : list ItemType) (item : ItemInstance)
    : option (list (string * string)) :=
  match getItemTypeById itemTypes (item_typeId item) with
  | None => None
  | Some itemType =>
      Some (omap (fun field =>
                    let value := js_get (item_data item) (field_id field) in
                    if fieldShown value
                    then Some (field_name field, js_String value)
                    else None)
                 (take 4 (type_fields itemType)))
  end.

(** ** ProjectView: the add dialog *)

Module AddItemsDialog.

(** The dialog keeps its selection in a [Set]: the ids in the order in
    which they were added, each once. *)
Definition set_has (s : list string) (x : string) : bool :=
  bool_decide (x ∈ s).

Definition set_add (s : list string) (x : string) : list string :=
  if set_has s x then s else s ++ [x].

Definition set_delete (s : list string) (x : string) : list string :=
  List.filter (fun y => negb (String.eqb y x)) s.

Definition filteredItems (availableItems : list ItemInstance)
    (searchTerm : string) : list ItemInstance :=
  List.filter (fun item =>
    let searchString := toLowerCase searchTerm in
    includes (toLowerCase (item_typeName item)) searchString
    || existsb (fun value =>
                  includes (toLowerCase (js_String value)) searchString)
               (js_values (item_data item))) availableItems.

Definition toggleItemSelection (selectedItems : list string)
    (itemId : string) : list string :=
  if set_has selectedItems itemId then set_delete selectedItems itemId
  else set_add selectedItems itemId.

(** [handleAddItems]: the project handed to [onUpdateProject] by
    [addItemsToProject] and the emptied selection. *)
Definition handleAddItems (project : Project) (selectedItems : list string)
    (nowIso : string) : Project * list string :=
  (addItemsToProject project selectedItems nowIso, []).

End AddItemsDialog.

(** ** Index: the collections *)

Definition handleSaveItemType (itemTypes : list ItemType)
    (newType : ItemType) : list ItemType := itemTypes ++ [newType].

Definition handleSaveItem (items : list ItemInstance)
    (newItem : ItemInstance) : list ItemInstance := items ++ [newItem].

Definition handleSaveProject (projects : list Project)
    (newProject : Project) : list Project := projects ++ [newProject].

Definition handleUpdateProject (projects : list Project)
    (updatedProject : Project) : list Project :=
  List.map (fun p =>
    if String.eqb (project_id p) (project_id updatedProject)
    then updatedProject else p) projects.

Definition handleDeleteProject (projects : list Project)
    (projectId : string) : list Project :=
  List.filter (fun p => negb (String.eqb (project_id p) projectId)) projects.

(** [selectedItemType] *)
Definition selectedItemType (itemTypes : list ItemType)
    (selectedTypeId : string) : option ItemType :=
  List.find (fun type => String.eqb (type_id type) selectedTypeId) itemTypes.

(** The "create-item" view: without a selected type the view falls back
    to the home page ([None]); otherwise the item creator runs on that
    type and its save is handed to [handleSaveItem]. *)
Definition createItem (itemTypes : list ItemType)
    (items : list ItemInstance) (selectedTypeId : string)
    (formData : gmap string jsval) (nowMs : Z) (nowIso : string)
    : option (list ItemInstance) :=
  match selectedItemType itemTypes selectedTypeId with
  | None => None
  | Some itemType =>
      match handleSave itemType formData nowMs nowIso with
      | None => None
      | Some newItem => Some (handleSaveItem items newItem)
      end
  end.

(** ItemList, [handleDeleteSelected] followed by [handleDeleteItems]:
    nothing happens ([None]) when nothing is selected or the user
    declines; otherwise the selected ids are deleted and the selection
    is emptied.  [Array.from(selectedItems)] is the list of the elements
    of the set; [handleDeleteItems] only tests membership in it. *)
Definition handleDeleteSelected (items : list ItemInstance)
    (projects : list Project) (selectedItems : gset string)
    (confirmed : bool) (clock : nat → string)
    : option (list ItemInstance * list Project * gset string) :=
  if bool_decide (size selectedItems = 0) then None
  else if confirmed then
    Some (handleDeleteItems items projects (elements selectedItems) clock, ∅)
  else None.

(** ** Index: the application state and its transitions *)

(** The three collections kept by [Index] ([useLocalStorage], each
    empty at first). *)
Record AppState : Type := mkApp {
  app_itemTypes : list ItemType;
  app_items : list ItemInstance;
  app_projects : list Project
}.

Definition initialApp : AppState := mkApp [] [] [].

(** One user action that changes a collection.  A project view works on
    a project of the list ([handleViewProject]); the add dialog can only
    be clicked on available items; deletions are the confirmed ones. *)
Inductive app_step : AppState → AppState → Prop :=
  | step_save_type st actions typeName nowMs nowIso newType :
      ItemTypeCreator.handleSave typeName (st_fields (creator_run actions))
                                 nowMs nowIso = Some newType →
      app_step st
        (mkApp (handleSaveItemType (app_itemTypes st) newType)
               (app_items st) (app_projects st))
  | step_create_item st selectedTypeId formData nowMs nowIso items' :
      createItem (app_itemTypes st) (app_items st) selectedTypeId formData
                 nowMs nowIso = Some items' →
      app_step st (mkApp (app_itemTypes st) items' (app_projects st))
  | step_delete_items st selectedItems clock items' projects' selection' :
      handleDeleteSelected (app_items st) (app_projects st) selectedItems
                           true clock = Some (items', projects', selection') →
      app_step st (mkApp (app_itemTypes st) items' projects')
  | step_save_project st formData nowMs createdIso updatedIso newProject :
      ProjectCreator.handleSave formData nowMs createdIso updatedIso =
        Some newProject →
      app_step st
        (mkApp (app_itemTypes st) (app_items st)
               (handleSaveProject (app_projects st) newProject))
  | step_delete_project st projectId :
      app_step st
        (mkApp (app_itemTypes st) (app_items st)
               (handleDeleteProject (app_projects st) projectId))
  | step_add_items st project clicks nowIso :
      project ∈ app_projects st →
      (∀ id, id ∈ clicks →
         ∃ item, item ∈ availableItems project (app_items st) ∧
                 item_id item = id) →
      app_step st
        (mkApp (app_itemTypes st) (app_items st)
           (handleUpdateProject (app_projects st)
              (AddItemsDialog.handleAddItems project
                 (foldl AddItemsDialog.toggleItemSelection [] clicks)
                 nowIso).1))
  | step_remove_items st project selectedItems nowIso project' :
      project ∈ app_projects st →
      removeSelectedItems project selectedItems true nowIso =
        Some project' →
      app_step st
        (mkApp (app_itemTypes st) (app_items st)
               (handleUpdateProject (app_projects st) project')).

(** The states the application can be in, starting from empty
    collections. *)
Definition reachable (st : AppState) : Prop := rtc app_step initialApp st.

(** ** Specification-side definitions

    The definitions below are not translated from the source: they
    follow the wording of the specification, or name the properties that
    the theorems state about the source. *)

(** "not coercible" to a number: [Number(v)] is NaN.  For strings the
    decimal literals without exponent are recognised: optional sign,
    digits, optional fraction; the empty string coerces to 0. *)
Fixpoint all_digits (s : string) : bool :=
  match s with
  | EmptyString => true
  | String c r => bool_decide (is_Some (Ascii.is_nat c)) && all_digits r
  end.

Fixpoint decimal_body (seen : bool) (s : string) : bool :=
  match s with
  | EmptyString => seen
  | String "."%char r => (seen || negb (String.eqb r "")) && all_digits r
  | String c r =>
      bool_decide (is_Some (Ascii.is_nat c)) && decimal_body true r
  end.

Definition spec_coercible_number (v : jsval) : bool :=
  match v with
  | JUndefined | JNaN => false
  | JNull | JBool _ | JNum _ => true
  | JStr s =>
      match trim s with
      | EmptyString => true
      | String "+"%char r | String "-"%char r => decimal_body false r
      | t => decimal_body false t
      end
  end.

(** A violation as the specification words it: the field is required
    and its value is missing, the empty string or, for a number field,
    not coercible. *)
Definition spec_violation (formData : gmap string jsval)
    (field : FieldDefinition) : bool :=
  field_required field &&
  match formData !! field_id field with
  | None | Some JUndefined | Some JNull => true
  | Some v =>
      js_strict_eq v (JStr "") ||
      (bool_decide (field_type field = number) &&
       negb (spec_coercible_number v))
  end.

(** [sub] occurs inside [s]. *)
Definition substring_of (sub s : string) : Prop :=
  ∃ pre post, s = pre +:+ sub +:+ post.

(** The search predicate of the specification. *)
Definition spec_matches (query : string) (item : ItemInstance) : Prop :=
  substring_of (toLowerCase query) (toLowerCase (item_typeName item)) ∨
  ∃ k value, item_data item !! k = Some value ∧
             substring_of (toLowerCase query) (toLowerCase (js_String value)).

(** The distinct names of a sequence, in order of first occurrence. *)
Fixpoint firstSeen (names : list string) : list string :=
  match names with
  | [] => []
  | n :: rest =>
      n :: List.filter (fun m => negb (String.eqb m n)) (firstSeen rest)
  end.

(** The records of one type name, in input order. *)
Definition groupOf (typeName : string) (items : list ItemInstance)
    : list ItemInstance :=
  List.filter (fun item => String.eqb (item_typeName item) typeName) items.

(** A type name that is neither an array index nor inherited from
    [Object.prototype]. *)
Definition ordinary_key (k : string) : Prop :=
  array_index k = None ∧ k ∉ object_prototype_keys.

#[global] Instance ordinary_key_dec k : Decision (ordinary_key k).
Proof. unfold ordinary_key. apply _. Defined.

(** The grouping of the specification: one group per distinct type
    name, in order of first occurrence, each with its records in input
    order. *)
Definition spec_groups (items : list ItemInstance) : Groups :=
  List.map (fun n => (n, groupOf n items))
           (firstSeen (List.map item_typeName items)).

(** The sheet of the specification for one type name: header
    ["ID", "Created At", field names in declared order], then one row
    per record of the group; no sheet when no registered type has the
    name, the first such type otherwise. *)
Definition spec_sheet (toLocaleDateString : string → string)
    (itemTypes : list ItemType) (items : list ItemInstance)
    (typeName : string) : option Sheet :=
  match List.find (fun type => String.eqb (type_name type) typeName)
                  itemTypes with
  | None => None
  | Some itemType =>
      let headers :=
        "ID" :: "Created At" :: List.map field_name (type_fields itemType) in
      let rows :=
        List.map (sheetRow toLocaleDateString itemType)
                 (groupOf typeName items) in
      Some (mkSheet (slice0 31 typeName) (List.map JStr headers :: rows)
                    (Some (colWidths headers rows)))
  end.

(** The library accepts the sheets when they are appended in turn to a
    workbook that holds [workbook]. *)
Fixpoint accepted_in_turn (book_append_sheet : list Sheet → Sheet → bool)
    (workbook sheets : list Sheet) : bool :=
  match sheets with
  | [] => true
  | worksheet :: rest =>
      book_append_sheet workbook worksheet &&
      accepted_in_turn book_append_sheet (workbook ++ [worksheet]) rest
  end.

(** The outcome of an export that hands [sheets] to the library and
    writes them to [filename]: the document when the library accepts
    every sheet and the workbook, a throw otherwise. *)
Definition outcome_of_sheets (book_append_sheet : list Sheet → Sheet → bool)
    (writeFile : list Sheet → string → bool)
    (sheets : list Sheet) (filename : string) : ExportOutcome :=
  if accepted_in_turn book_append_sheet [] sheets && writeFile sheets filename
  then Written filename sheets
  else Thrown.

(** What holds of a field stored by the type creator. *)
Definition field_options_inv (field : FieldDefinition) : Prop :=
  ∀ opts, field_options field = Some opts →
    field_type field = select ∧ ∃ raw, raw ≠ "" ∧ opts = parseOptions raw.

(** The field cells of an exported row hold the stored values as they
    are, whatever the kind of the field. *)
Definition stored_cells (itemType : ItemType) (item : ItemInstance)
    (row : list jsval) : Prop :=
  ∀ i field, type_fields itemType !! i = Some field →
    (ToBoolean (js_get (item_data item) (field_id field)) = true →
     row !! (2 + i) = Some (js_get (item_data item) (field_id field))) ∧
    (item_data item !! field_id field = None →
     row !! (2 + i) = Some (JStr "")).

(** The field cells of an exported row are empty where the stored value
    is falsy. *)
Definition falsy_cells_empty (itemType : ItemType) (item : ItemInstance)
    (row : list jsval) : Prop :=
  ∀ i field, type_fields itemType !! i = Some field →
    ToBoolean (js_get (item_data item) (field_id field)) = false →
    row !! (2 + i) = Some (JStr "").

(** The rows that the export owes to one record: its row laid out
    with the first registered type bearing its type name, none when no
    type bears it. *)
Definition rowsOwed (toLocaleDateString : string → string)
    (itemTypes : list ItemType) (item : ItemInstance) : list (list jsval) :=
  match List.find (fun type => String.eqb (type_name type)
                                          (item_typeName item))
                  itemTypes with
  | Some itemType => [sheetRow toLocaleDateString itemType item]
  | None => []
  end.

(** All data rows of a list of sheets, sheet after sheet. *)
Definition dataRows (sheets : list Sheet) : list (list jsval) :=
  flat_map (fun sheet => tail (sheet_data sheet)) sheets.

(** The column widths fit a sheet: one width per cell of every row,
    each between 2 and 50 and, up to the cap of 50, two more than the
    text of every cell of its column. *)
Definition columns_fit (sheet : Sheet) (cols : list nat) : Prop :=
  (∀ row, row ∈ sheet_data sheet → length row = length cols) ∧
  ∀ i w, cols !! i = Some w →
    2 ≤ w ≤ 50 ∧
    ∀ row cell, row ∈ sheet_data sheet → row !! i = Some cell →
      Nat.min (String.length (js_String (js_or cell (JStr ""))) + 2) 50 ≤ w.

(** [label] is shown for [item]: it is the name and the rendered value
    of one of the first [n] fields of [itemType] whose value in the
    item's data is truthy or the number 0. *)
Definition labelled (n : nat) (render : jsval → FieldDefinition → string)
    (itemType : ItemType) (item : ItemInstance) (label : string * string)
    : Prop :=
  ∃ i field,
    i < n ∧ type_fields itemType !! i = Some field ∧
    (ToBoolean (js_get (item_data item) (field_id field)) = true ∨
     js_get (item_data item) (field_id field) = JNum 0) ∧
    label = (field_name field,
             render (js_get (item_data item) (field_id field)) field).

(** A project lists no id twice and no id without an item. *)
Definition project_wf (items : list ItemInstance) (project : Project)
    : Prop :=
  NoDup (project_itemIds project) ∧
  ∀ id, id ∈ project_itemIds project →
        ∃ item, item ∈ items ∧ item_id item = id.

(** An item conforms to the registry: the type found under its [typeId]
    bears its [typeName], and every required field of that type has a
    truthy value in its data. *)
Definition item_conforms (itemTypes : list ItemType) (item : ItemInstance)
    : Prop :=
  ∃ itemType,
    selectedItemType itemTypes (item_typeId item) = Some itemType ∧
    item_typeName item = type_name itemType ∧
    ∀ field, field ∈ type_fields itemType → field_required field = true →
      ToBoolean (js_get (item_data item) (field_id field)) = true.

(** An item type is usable: it has a name, at least one field, every
    field has a name, and options are carried by select fields only. *)
Definition type_wf (itemType : ItemType) : Prop :=
  type_name itemType ≠ "" ∧
  type_fields itemType ≠ [] ∧
  ∀ field, field ∈ type_fields itemType →
    field_name field ≠ "" ∧ field_options_inv field.

(** The clock readings of the "Add Field" presses among the actions of
    the type creator. *)
Definition add_times (actions : list CreatorAction) : list Z :=
  flat_map (fun a => match a with AddField nowMs => [nowMs] | _ => [] end)
           actions.

(** The invariant of the application state: every project is well
    formed with respect to the items, every item conforms to the
    registry, every registered type is usable. *)
Definition app_wf (st : AppState) : Prop :=
  Forall (project_wf (app_items st)) (app_projects st) ∧
  Forall (item_conforms (app_itemTypes st)) (app_items st) ∧
  Forall type_wf (app_itemTypes st).

(** ** Sample data *)

Definition price_field : FieldDefinition :=
  mkField "field_1" "Price" number true None.

Definition name_field : FieldDefinition :=
  mkField "field_2" "Name" text true None.

Definition due_field : FieldDefinition :=
  mkField "field_3" "Due" date false None.

Definition priced_type : ItemType :=
  mkItemType "type_1" "Products" [price_field] "2024-01-01T00:00:00.000Z".

Definition abc_form : gmap string jsval := {["field_1" := JStr "abc"]}.

Definition empty_project : Project :=
  mkProject "project_1" "Site A" "" "Lyon" []
            "2024-01-01T00:00:00.000Z" "2024-01-01T00:00:00.000Z".

Definition project_a : Project :=
  mkProject "project_2" "Site B" "" "Paris" ["a"]
            "2024-01-01T00:00:00.000Z" "2024-01-01T00:00:00.000Z".

Definition item_x : ItemInstance :=
  mkItem "x" "type_1" "Products" {["field_1" := JStr "12"]}
         "2024-03-05T10:00:00.000Z".

Definition color_draft : FieldDraft :=
  mkDraft (Some "Color") (Some select) (Some false) (Some []).



(** The same with " red, green ,,blue" typed in the options input. *)
Definition select_with_colors : list CreatorAction :=
  [SetCurrentField color_draft; SetSelectOptions " red, green ,,blue";
   AddField 1700000000000].

Definition products_type : ItemType :=
  mkItemType "type_2" "Products" [name_field; price_field]
             "2024-01-01T00:00:00.000Z".

Definition product_1 : ItemInstance :=
  mkItem "item_1" "type_2" "Products"
         (<["field_2" := JStr "Lamp"]> {["field_1" := JStr "12"]})
         "2024-03-05T10:00:00.000Z".

Definition product_2 : ItemInstance :=
  mkItem "item_2" "type_2" "Products"
         (<["field_2" := JStr "Desk"]> {["field_1" := JNum 0]})
         "2024-03-06T10:00:00.000Z".

Definition products_project : Project :=
  mkProject "project_3" "Site C" "Offices" "Lille" ["item_1"; "item_2"]
            "2024-02-01T00:00:00.000Z" "2024-03-07T00:00:00.000Z".

(** Two item types named by years, and one record of each, the later
    year first. *)
Definition type_2023 : ItemType :=
  mkItemType "type_3" "2023" [name_field] "2024-01-01T00:00:00.000Z".

Definition type_2024 : ItemType :=
  mkItemType "type_4" "2024" [name_field] "2024-01-01T00:00:00.000Z".

Definition record_2024 : ItemInstance :=
  mkItem "item_3" "type_4" "2024" {["field_2" := JStr "new"]}
         "2024-03-05T10:00:00.000Z".

Definition record_2023 : ItemInstance :=
  mkItem "item_4" "type_3" "2023" {["field_2" := JStr "old"]}
         "2024-03-06T10:00:00.000Z".

(** A record whose type name no registered item type bears. *)
Definition orphan_item : ItemInstance :=
  mkItem "item_5" "type_9" "Gone" ∅ "2024-03-05T10:00:00.000Z".

(** A type with a date field and a record holding a date. *)
Definition events_type : ItemType :=
  mkItemType "type_5" "Events" [due_field] "2024-01-01T00:00:00.000Z".

Definition event_1 : ItemInstance :=
  mkItem "item_6" "type_5" "Events" {["field_3" := JStr "2024-01-15"]}
         "2024-03-05T10:00:00.000Z".

(** A second type named "Products", registered after the first. *)
Definition products_type_v2 : ItemType :=
  mkItemType "type_6" "Products" [price_field] "2024-02-01T00:00:00.000Z".

Definition products_sheet : Sheet :=
  mkSheet "Products"
    [ [JStr "ID"; JStr "Created At"; JStr "Name"; JStr "Price"];
      [JStr "item_1"; JStr "3/5/2024"; JStr "Lamp"; JStr "12"];
      [JStr "item_2"; JStr "3/6/2024"; JStr "Desk"; JStr ""] ]
    (Some [8; 12; 6; 7]).

Definition products_info_sheet : Sheet :=
  mkSheet "Project Info"
    [ [JStr "Project Name"; JStr "Site C"];
      [JStr "Description"; JStr "Offices"];
      [JStr "Location"; JStr "Lille"];
      [JStr "Created At"; JStr "2/1/2024"];
      [JStr "Updated At"; JStr "3/7/2024"];
      [JStr "Total Items"; JNum 2] ]
    None.

Definition export_time : string := "2024-11-03T10:00:00.000Z".

Definition events_sheet : Sheet :=
  mkSheet "Events"
    [ [JStr "ID"; JStr "Created At"; JStr "Due"];
      [JStr "item_6"; JStr "3/5/2024"; JStr "2024-01-15"] ]
    (Some [8; 12; 12]).

(** A project of an event and two products; the registry lists the
    products type before the events type. *)
Definition mixed_project : Project :=
  mkProject "project_5" "Site E" "" "Metz" ["item_1"; "item_2"; "item_6"]
            "2024-02-01T00:00:00.000Z" "2024-03-07T00:00:00.000Z".

Definition mixed_info_sheet : Sheet :=
  mkSheet "Project Info"
    [ [JStr "Project Name"; JStr "Site E"];
      [JStr "Description"; JStr ""];
      [JStr "Location"; JStr "Metz"];
      [JStr "Created At"; JStr "2/1/2024"];
      [JStr "Updated At"; JStr "3/7/2024"];
      [JStr "Total Items"; JNum 3] ]
    None.

(** Two item types whose names differ after their 31st character only,
    and one record of each. *)
Definition inspections_2023 : ItemType :=
  mkItemType "type_10" "Quarterly maintenance inspections 2023"
             [name_field] "2024-01-01T00:00:00.000Z".

Definition inspections_2024 : ItemType :=
  mkItemType "type_11" "Quarterly maintenance inspections 2024"
             [name_field] "2024-01-01T00:00:00.000Z".

Definition inspection_2023 : ItemInstance :=
  mkItem "item_10" "type_10" "Quarterly maintenance inspections 2023"
         {["field_2" := JStr "pump"]} "2024-03-05T10:00:00.000Z".

Definition inspection_2024 : ItemInstance :=
  mkItem "item_11" "type_11" "Quarterly maintenance inspections 2024"
         {["field_2" := JStr "valve"]} "2024-03-06T10:00:00.000Z".

(** A record whose type name is a property that plain objects inherit. *)
Definition inherited_item : ItemInstance :=
  mkItem "item_8" "type_8" "constructor" ∅ "2024-03-05T10:00:00.000Z".

(** A project that lists an id no item bears. *)
Definition dangling_project : Project :=
  mkProject "project_4" "Site D" "" "Nice" ["item_1"; "ghost"]
            "2024-02-01T00:00:00.000Z" "2024-03-07T00:00:00.000Z".

(** Two fields added at different clock readings, the first one then
    looked at again. *)
Definition two_fields : list CreatorAction :=
  [SetCurrentField (mkDraft (Some "Name") (Some text) (Some true) (Some []));
   AddField 1700000000000;
   SetCurrentField color_draft; SetSelectOptions "red,green";
   AddField 1700000000005].

(** A run of the application: a type "Paints" with a select field is
    saved, an item of it is created, a project is saved and the item is
    added to it. *)
Definition color_field : FieldDefinition :=
  mkField "field_1700000000000" "Color" select false
          (Some ["red"; "green"; "blue"]).

Definition paints_type : ItemType :=
  mkItemType "type_1700000000001" "Paints" [color_field] export_time.

Definition red_form : gmap string jsval :=
  {["field_1700000000000" := JStr "red"]}.

Definition paint_1 : ItemInstance :=
  mkItem "item_1700000000002" "type_1700000000001" "Paints" red_form
         export_time.

Definition shed_form : ProjectCreator.FormData :=
  ProjectCreator.mkForm " Shed " "" "Garden".

Definition shed : Project :=
  mkProject "project_1700000000003" "Shed" "" "Garden" []
            export_time export_time.

Definition shed_with_paint : Project :=
  mkProject "project_1700000000003" "Shed" "" "Garden"
            ["item_1700000000002"] export_time "2024-11-04T09:00:00.000Z".

Definition app_1 : AppState := mkApp [paints_type] [] [].
Definition app_2 : AppState := mkApp [paints_type] [paint_1] [].
Definition app_3 : AppState := mkApp [paints_type] [paint_1] [shed].
Definition sample_app : AppState :=
  mkApp [paints_type] [paint_1] [shed_with_paint].

(** * Properties *)

(** ** Validation on item creation (ItemCreator) *)

Lemma js_strict_eq_empty_falsy v :
  js_strict_eq v (JStr "") = true → ToBoolean v = false.
Proof.
  destruct v; simpl; try done.
  intros H. apply bool_decide_eq_true in H. by simplify_eq.
Qed.

(** The test in [validateForm] is the falsiness of the stored value:
    the comparison with [''] adds nothing and the field kind is not
    read. *)
Lemma field_violation_falsy formData field :
  field_violation formData field = true ↔
  field_required field = true ∧
  ToBoolean (js_get formData (field_id field)) = false.
Proof.
  unfold field_violation. rewrite andb_true_iff, orb_true_iff, negb_true_iff.
  split.
  - intros [Hr [H|H]]; split; auto using js_strict_eq_empty_falsy.
  - intros [Hr H]; auto.
Qed.

Lemma validate_fold_lookup formData fields acc k :
  is_Some (foldl (validate_step formData) acc fields !! k) ↔
  is_Some (acc !! k) ∨
  ∃ field, field ∈ fields ∧ field_id field = k ∧
           field_violation formData field = true.
Proof.
  revert acc. induction fields as [|f fields IH]; intros acc; simpl.
  - split; [by left|]. intros [?|(? & Hin & _)]; [done|].
    by apply elem_of_nil in Hin.
  - rewrite IH. unfold validate_step.
    destruct (field_violation formData f) eqn:Hv.
    + rewrite lookup_insert_is_Some'. split.
      * intros [[Hk|Hk]|(g & Hg & Hid & Hgv)]; [right|by left|right].
        -- exists f. split_and!; [apply elem_of_cons; by left|done..].
        -- exists g. split_and!; [apply elem_of_cons; by right|done..].
      * intros [Hk|(g & Hg & Hid & Hgv)]; [left; by right|].
        apply elem_of_cons in Hg as [->|Hg]; [left; by left|].
        right. by exists g.
    + split.
      * intros [Hk|(g & Hg & Hid & Hgv)]; [by left|right].
        exists g. split_and!; [apply elem_of_cons; by right|done..].
      * intros [Hk|(g & Hg & Hid & Hgv)]; [by left|].
        apply elem_of_cons in Hg as [->|Hg]; [congruence|].
        right. by exists g.
Qed.

Lemma validateForm_errors itemType formData k :
  is_Some ((validateForm itemType formData).1 !! k) ↔
  ∃ field, field ∈ type_fields itemType ∧ field_id field = k ∧
           field_violation formData field = true.
Proof.
  unfold validateForm; simpl. rewrite validate_fold_lookup, lookup_empty.
  split; [intros [[? ?]|?]; done | by right].
Qed.

Lemma validateForm_ok itemType formData :
  (validateForm itemType formData).2 = false ↔
  ∃ field, field ∈ type_fields itemType ∧
           field_violation formData field = true.
Proof.
  unfold validateForm; simpl. rewrite bool_decide_eq_false.
  set (errs := foldl _ _ _). rewrite map_size_empty_iff. split.
  - intros Hne. apply map_choose in Hne as (k & msg & Hk).
    assert (is_Some (errs !! k)) as Hs by eauto.
    apply (validateForm_errors itemType formData k) in Hs
      as (g & Hg & _ & Hv).
    by exists g.
  - intros (g & Hg & Hv) Hempty.
    assert (is_Some (errs !! field_id g)) as [msg Hs].
    { apply (validateForm_errors itemType formData). by exists g. }
    rewrite Hempty, lookup_empty in Hs. done.
Qed.

(** C1 (as amended).  Item creation fails exactly when some required
    field holds a falsy value (missing, empty string, null, false, 0 or
    NaN); the field kind is not consulted.  The error record then has an
    entry, carrying the message "<name> is required", under the id of
    every such field and under no other key. *)
Theorem validateForm_collects_all_falsy_required
    (itemType : ItemType) (formData : gmap string jsval)
    (nowMs : Z) (nowIso : string) :
  (handleSave itemType formData nowMs nowIso = None ↔
   ∃ field, field ∈ type_fields itemType ∧ field_required field = true ∧
            ToBoolean (js_get formData (field_id field)) = false) ∧
  (∀ k, is_Some ((validateForm itemType formData).1 !! k) ↔
        ∃ field, field ∈ type_fields itemType ∧ field_id field = k ∧
                 field_required field = true ∧
                 ToBoolean (js_get formData (field_id field)) = false) ∧
  (∀ k msg, (validateForm itemType formData).1 !! k = Some msg →
        ∃ field, field ∈ type_fields itemType ∧ field_id field = k ∧
                 msg = field_name field +:+ " is required").
Proof.
  split_and!.
  - unfold handleSave.
    destruct ((validateForm itemType formData).2) eqn:Hok.
    + split; [done|]. intros (g & Hg & Hr & Hf).
      assert ((validateForm itemType formData).2 = false) as Hno.
      { apply validateForm_ok. exists g. split; [done|].
        by apply field_violation_falsy. }
      congruence.
    + split; [|done]. intros _.
      apply validateForm_ok in Hok as (g & Hg & Hv).
      apply field_violation_falsy in Hv as [? ?]. by exists g.
  - intros k. rewrite validateForm_errors.
    split; intros (g & Hg & Hid & Hv); exists g.
    + apply field_violation_falsy in Hv as [? ?]. done.
    + destruct Hv as [? ?]. split_and!; [done..|].
      by apply field_violation_falsy.
  - intros k msg. unfold validateForm; simpl.
    assert (∀ fields acc,
      foldl (validate_step formData) acc fields !! k = Some msg →
      acc !! k = Some msg ∨
      ∃ field, field ∈ fields ∧ field_id field = k ∧
               msg = field_name field +:+ " is required") as Hgen.
    { induction fields as [|f fields IH]; intros acc; simpl; [by left|].
      intros H. apply IH in H as [H|(g & Hg & ? & ?)].
      - unfold validate_step in H.
        destruct (field_violation formData f); [|by left].
        apply lookup_insert_Some in H as [[? ?]|[? ?]]; [|by left].
        right. exists f. split_and!; [apply elem_of_cons; by left|done..].
      - right. exists g. split_and!; [apply elem_of_cons; by right|done..]. }
    intros H. apply Hgen in H as [H|H]; [|done].
    by rewrite lookup_empty in H.
Qed.

(** C1 (as stated) fails: a required number field holding the text
    "abc" is a violation in the words of the specification, yet the item
    is created. *)
Lemma required_number_not_checked :
  existsb (spec_violation abc_form) (type_fields priced_type) = true ∧
  handleSave priced_type abc_form 1700000000000 "2024-01-02T00:00:00.000Z" =
    Some (mkItem "item_1700000000000" "type_1" "Products" abc_form
                 "2024-01-02T00:00:00.000Z").
Proof. split; vm_compute; reflexivity. Qed.

(** With two required fields and no value supplied, creation fails and
    the error record names both fields. *)
Example nothing_supplied_names_both :
  handleSave products_type ∅ 1700000000000 "2024-01-02T00:00:00.000Z" = None ∧
  map_to_list (validateForm products_type ∅).1 =
    [("field_1", "Price is required"); ("field_2", "Name is required")].
Proof. split; vm_compute; reflexivity. Qed.

(** ** Free-text search (ItemList, ProjectView) *)

Lemma append_nil_l s : "" +:+ s = s.
Proof. reflexivity. Qed.

Lemma append_cons_l c s t : String c s +:+ t = String c (s +:+ t).
Proof. reflexivity. Qed.

Lemma prefix_spec sub s :
  String.prefix sub s = true ↔ ∃ post, s = sub +:+ post.
Proof.
  revert s. induction sub as [|c sub IH]; intros s.
  - split; [|by destruct s]. intros _. by exists s.
  - destruct s as [|d s]; simpl.
    + split; [done|]. intros [post H]. by rewrite append_cons_l in H.
    + destruct (ascii_dec c d) as [->|Hne].
      * rewrite IH. split; intros [post H]; exists post.
        -- by rewrite append_cons_l, H.
        -- rewrite append_cons_l in H. by simplify_eq.
      * split; [done|]. intros [post H].
        rewrite append_cons_l in H. by simplify_eq.
Qed.

Lemma includes_spec s sub :
  includes s sub = true ↔ substring_of sub s.
Proof.
  unfold substring_of. induction s as [|c s IH].
  - destruct sub as [|d sub]; simpl.
    + split; [|done]. intros _. by exists "", "".
    + split; [done|]. intros (pre & post & H). destruct pre; [done|].
      by rewrite append_cons_l in H.
  - cbn [includes]. rewrite orb_true_iff, prefix_spec, IH. split.
    + intros [[post H]|(pre & post & H)].
      * by exists "", post.
      * exists (String c pre), post. by rewrite append_cons_l, H.
    + intros (pre & post & H). destruct pre as [|d pre].
      * left. by exists post.
      * right. exists pre, post. rewrite append_cons_l in H. by simplify_eq.
Qed.

Lemma includes_empty s : includes s "" = true.
Proof. by destruct s. Qed.

(** What the properties on searching use of [toLowerCase]. *)
Lemma toLowerCase_empty : toLowerCase "" = "".
Proof. reflexivity. Qed.

Lemma includes_lower_empty s : includes s (toLowerCase "") = true.
Proof. rewrite toLowerCase_empty. apply includes_empty. Qed.

Lemma js_values_spec (obj : gmap string jsval) (v : jsval) :
  In v (js_values obj) ↔ ∃ k, obj !! k = Some v.
Proof.
  unfold js_values. rewrite <- list_elem_of_In, list_elem_of_fmap. split.
  - intros ([k w] & -> & H). exists k. by apply elem_of_map_to_list in H.
  - intros [k H]. exists (k, v). split; [done|].
    by apply elem_of_map_to_list.
Qed.

(** The test that both filters apply to a record. *)
Lemma search_test_spec query item :
  (if includes (toLowerCase (item_typeName item)) (toLowerCase query)
   then true
   else existsb (fun value =>
                   includes (toLowerCase (js_String value))
                            (toLowerCase query))
                (js_values (item_data item))) = true ↔
  spec_matches query item.
Proof.
  unfold spec_matches.
  destruct (includes (toLowerCase (item_typeName item)) _) eqn:Hn.
  - apply includes_spec in Hn. split; [by left|done].
  - rewrite existsb_exists. split.
    + intros (v & Hv & Hi). right.
      apply js_values_spec in Hv as [k Hk]. exists k, v.
      split; [done|]. by apply includes_spec.
    + intros [H|(k & v & Hk & Hi)].
      * apply includes_spec in H. congruence.
      * exists v. split; [apply js_values_spec; by exists k|].
        by apply includes_spec.
Qed.

Lemma filter_all_true {A : Type} (f : A → bool) (l : list A) :
  (∀ x, f x = true) → List.filter f l = l.
Proof.
  intros Hf. induction l as [|x l IH]; simpl; [done|].
  by rewrite Hf, IH.
Qed.

(** C3.  One predicate, equivalent to the search predicate of the
    specification (the lowercased query occurs in the lowercased type
    name or in the lowercased string form of some value of the data),
    is what both the flat item list and the project-scoped search
    filter their candidates with; the empty query matches every record
    and leaves the list as it is. *)
Theorem search_predicate_shared :
  ∃ matches : string → ItemInstance → bool,
    (∀ query item, matches query item = true ↔ spec_matches query item) ∧
    (∀ items query,
       filteredItems items query = List.filter (matches query) items) ∧
    (∀ project allItems query,
       filteredProjectItems project allItems query =
       List.filter (matches query) (projectItems project allItems)) ∧
    (∀ item, spec_matches "" item) ∧
    (∀ items, filteredItems items "" = items).
Proof.
  exists (fun query item =>
    if includes (toLowerCase (item_typeName item)) (toLowerCase query)
    then true
    else existsb (fun value =>
                    includes (toLowerCase (js_String value))
                             (toLowerCase query))
                 (js_values (item_data item))).
  assert (∀ item, spec_matches "" item) as Hempty.
  { intros item. apply search_test_spec.
    by rewrite includes_lower_empty. }
  split_and!; [apply search_test_spec| | |done|done].
  - intros items query. unfold filteredItems.
    destruct (String.eqb query "") eqn:Hq; [|done].
    apply String.eqb_eq in Hq as ->. symmetry. apply filter_all_true.
    intros item. by apply search_test_spec.
  - intros project allItems query. unfold filteredProjectItems.
    destruct (String.eqb query "") eqn:Hq; [|done].
    apply String.eqb_eq in Hq as ->. symmetry. apply filter_all_true.
    intros item. by apply search_test_spec.
Qed.

(** The record of the specification's example: data
    [{field1: "Acme Corp"}] matches "acme" and "CORP" but not
    "acme widget". *)
Example search_acme :
  List.map (fun query =>
              List.map item_id
                (filteredItems
                   [mkItem "item_7" "type_7" "Clients"
                           {["field1" := JStr "Acme Corp"]}
                           "2024-03-05T10:00:00.000Z"] query))
           ["acme"; "CORP"; "acme widget"; ""] =
  [["item_7"]; ["item_7"]; []; ["item_7"]].
Proof. vm_compute. reflexivity. Qed.

(** ** Project membership (ProjectView) *)

Lemma elem_of_filter_bool {A : Type} (f : A → bool) (l : list A) (x : A) :
  x ∈ List.filter f l ↔ x ∈ l ∧ f x = true.
Proof. rewrite !list_elem_of_In. apply filter_In. Qed.

Lemma availableItems_spec project allItems item :
  item ∈ availableItems project allItems ↔
  item ∈ allItems ∧ item_id item ∉ project_itemIds project.
Proof.
  unfold availableItems.
  by rewrite elem_of_filter_bool, negb_true_iff, bool_decide_eq_false.
Qed.




(** ** Deletion cascade (Index) *)

(** C5 (as amended).  The cascade keeps every project in place, removes
    each deleted id from its [itemIds] (keeping the order of the others),
    leaves its descriptive fields and [createdAt] alone, and sets
    [updatedAt] of every project to the clock reading taken for it,
    whether or not its [itemIds] changed. *)
Theorem handleDeleteItems_refreshes_every_project
    (items : list ItemInstance) (projects : list Project)
    (itemIds : list string) (clock : nat → string)
    (i : nat) (project : Project) :
  projects !! i = Some project →
  ∃ project',
    (handleDeleteItems items projects itemIds clock).2 !! i = Some project' ∧
    length (handleDeleteItems items projects itemIds clock).2 =
      length projects ∧
    project_itemIds project' =
      List.filter (fun id => negb (bool_decide (id ∈ itemIds)))
                  (project_itemIds project) ∧
    (∀ id, id ∈ project_itemIds project' ↔
           id ∈ project_itemIds project ∧ id ∉ itemIds) ∧
    project_updatedAt project' = clock i ∧
    project_id project' = project_id project ∧
    project_name project' = project_name project ∧
    project_description project' = project_description project ∧
    project_location project' = project_location project ∧
    project_createdAt project' = project_createdAt project.
Proof.
  intros Hi. unfold handleDeleteItems; simpl.
  rewrite list_lookup_imap, Hi; simpl.
  eexists. split; [reflexivity|]. simpl.
  split_and!; try reflexivity.
  - apply length_imap.
  - intros id.
    by rewrite elem_of_filter_bool, negb_true_iff, bool_decide_eq_false.
Qed.

(** An instance on the sample data. *)
Lemma handleDeleteItems_refreshes_every_project_witness :
  ∃ project',
    (handleDeleteItems [] [project_a] ["z"] (fun _ => "2024-06-01")).2 !! 0
      = Some project' ∧
    length (handleDeleteItems [] [project_a] ["z"] (fun _ => "2024-06-01")).2
      = length [project_a] ∧
    project_itemIds project' =
      List.filter (fun id => negb (bool_decide (id ∈ ["z"])))
                  (project_itemIds project_a) ∧
    (∀ id, id ∈ project_itemIds project' ↔
           id ∈ project_itemIds project_a ∧ id ∉ ["z"]) ∧
    project_updatedAt project' = "2024-06-01" ∧
    project_id project' = project_id project_a ∧
    project_name project' = project_name project_a ∧
    project_description project' = project_description project_a ∧
    project_location project' = project_location project_a ∧
    project_createdAt project' = project_createdAt project_a.
Proof.
  apply (handleDeleteItems_refreshes_every_project
           [] [project_a] ["z"] (fun _ => "2024-06-01") 0 project_a).
  reflexivity.
Defined.

(** C5 (as stated) fails: deleting item [z] changes a project that holds
    only [a]; its [itemIds] are the same and its [updatedAt] is new. *)
Lemma handleDeleteItems_touches_unrelated_project :
  (handleDeleteItems [] [project_a] ["z"] (fun _ => "2024-06-01")).2 =
    [mkProject "project_2" "Site B" "" "Paris" ["a"]
               "2024-01-01T00:00:00.000Z" "2024-06-01"] ∧
  (handleDeleteItems [] [project_a] ["z"] (fun _ => "2024-06-01")).2 ≠
    [project_a].
Proof. split; [reflexivity|]. vm_compute. intros H. discriminate H. Qed.

(** ** Field options (ItemTypeCreator) *)

Lemma parseOptions_spec raw opt :
  opt ∈ parseOptions raw ↔
  opt ≠ "" ∧ ∃ tok, tok ∈ split "," raw ∧ opt = trim tok.
Proof.
  unfold parseOptions.
  rewrite elem_of_filter_bool, negb_true_iff, String.eqb_neq.
  rewrite list_elem_of_In, in_map_iff. split.
  - intros [(tok & <- & Htok) Hne]. split; [done|].
    exists tok. by rewrite list_elem_of_In.
  - intros [Hne (tok & Htok & ->)]. split; [|done].
    exists tok. by rewrite <- list_elem_of_In.
Qed.

Lemma creator_step_inv st a :
  Forall field_options_inv (st_fields st) →
  Forall field_options_inv (st_fields (creator_step st a)).
Proof.
  intros Hinv. destruct a as [d|s|nowMs|id]; simpl; try done.
  - unfold addField.
    destruct (draft_name (st_currentField st)) as [[|c name]|]; try done.
    simpl. apply Forall_app. split; [done|].
    apply Forall_singleton. intros opts; simpl.
    destruct (bool_decide _) eqn:Hsel; simpl; [|done].
    destruct (String.eqb (st_selectOptions st) "") eqn:Hraw; simpl; [done|].
    intros [= <-]. apply bool_decide_eq_true in Hsel. rewrite Hsel; simpl.
    split; [done|]. exists (st_selectOptions st).
    split; [by apply String.eqb_neq|done].
  - apply Forall_forall. intros field Hin.
    apply elem_of_filter_bool in Hin as [Hin _].
    by eapply Forall_forall in Hinv.
Qed.

Lemma creator_run_inv actions :
  Forall field_options_inv (st_fields (creator_run actions)).
Proof.
  unfold creator_run.
  assert (∀ st, Forall field_options_inv (st_fields st) →
    Forall field_options_inv (st_fields (foldl creator_step st actions)))
    as Hgen.
  { induction actions as [|a actions IH]; intros st Hst; simpl; [done|].
    by apply IH, creator_step_inv. }
  apply Hgen. simpl. apply Forall_nil_2.
Qed.





(** ** Grouping by type name (ItemList, ProjectView) *)

Lemma reduce_groups_snoc acc items x :
  reduce_groups acc (items ++ [x]) =
  match reduce_groups acc items with
  | Some acc' => group_step acc' x
  | None => None
  end.
Proof.
  revert acc. induction items as [|y items IH]; intros acc; simpl.
  - by destruct (group_step acc x).
  - destruct (group_step acc y); [apply IH|done].
Qed.

Lemma firstSeen_elem_of names n : n ∈ firstSeen names ↔ n ∈ names.
Proof.
  induction names as [|m names IH]; simpl; [done|].
  rewrite !elem_of_cons, elem_of_filter_bool, IH, negb_true_iff,
    String.eqb_neq.
  destruct (decide (n = m)) as [->|Hne]; [split; auto|].
  split; [intros [?|[? ?]]; auto | intros [?|?]; auto].
Qed.

Lemma NoDup_filter_bool {A : Type} (f : A → bool) (l : list A) :
  NoDup l → NoDup (List.filter f l).
Proof.
  induction 1 as [|x l Hx Hl IH]; simpl; [constructor|].
  destruct (f x); [|done]. constructor; [|done].
  rewrite elem_of_filter_bool. by intros [? _].
Qed.

Lemma firstSeen_NoDup names : NoDup (firstSeen names).
Proof.
  induction names as [|m names IH]; simpl; [constructor|].
  constructor; [|by apply NoDup_filter_bool].
  rewrite elem_of_filter_bool, String.eqb_refl. by intros [_ ?].
Qed.

Lemma firstSeen_snoc names n :
  firstSeen (names ++ [n]) =
  if decide (n ∈ names) then firstSeen names else firstSeen names ++ [n].
Proof.
  induction names as [|m names IH]; simpl; [done|].
  rewrite IH. destruct (decide (n ∈ names)) as [Hin|Hin].
  - case_decide as Hin'; [done|].
    exfalso. apply Hin', elem_of_cons. by right.
  - rewrite List.filter_app; simpl.
    destruct (String.eqb n m) eqn:Hnm; simpl.
    + apply String.eqb_eq in Hnm as ->.
      case_decide as Hin'; [by rewrite app_nil_r|].
      exfalso. apply Hin', elem_of_cons. by left.
    + apply String.eqb_neq in Hnm.
      case_decide as Hin'; [|done].
      apply elem_of_cons in Hin' as [?|?]; done.
Qed.

Lemma groupOf_snoc n items x :
  groupOf n (items ++ [x]) =
  groupOf n items ++ (if String.eqb (item_typeName x) n then [x] else []).
Proof. unfold groupOf. by rewrite List.filter_app. Qed.

Lemma groupOf_absent n items :
  n ∉ List.map item_typeName items → groupOf n items = [].
Proof.
  induction items as [|y items IH]; simpl; [done|].
  rewrite not_elem_of_cons. intros [Hne Hn].
  destruct (String.eqb (item_typeName y) n) eqn:Hy; [|by apply IH].
  apply String.eqb_eq in Hy. congruence.
Qed.

Lemma groupOf_spec n items item :
  item ∈ groupOf n items ↔ item ∈ items ∧ item_typeName item = n.
Proof. unfold groupOf. by rewrite elem_of_filter_bool, String.eqb_eq. Qed.

Lemma own_lookup_map (f : string → list ItemInstance) names k :
  own_lookup k (List.map (fun n => (n, f n)) names) =
  if decide (k ∈ names) then Some (f k) else None.
Proof.
  induction names as [|m names IH]; simpl; [done|].
  destruct (String.eqb m k) eqn:Hmk.
  - apply String.eqb_eq in Hmk as ->.
    destruct (decide (k ∈ k :: names)) as [Hin|Hin]; [done|].
    exfalso. apply Hin, elem_of_cons. by left.
  - apply String.eqb_neq in Hmk. rewrite IH.
    destruct (decide (k ∈ names)) as [Hin|Hin];
      destruct (decide (k ∈ m :: names)) as [Hin'|Hin']; try done.
    + exfalso. apply Hin', elem_of_cons. by right.
    + apply elem_of_cons in Hin' as [?|?]; done.
Qed.

Lemma own_push_map (f : string → list ItemInstance) names k x :
  NoDup names →
  own_push k x (List.map (fun n => (n, f n)) names) =
  List.map (fun n => (n, f n ++ (if String.eqb k n then [x] else []))) names.
Proof.
  induction 1 as [|m names Hm Hnames IH]; simpl; [done|].
  rewrite (String.eqb_sym k m).
  destruct (String.eqb m k) eqn:Hmk.
  - apply String.eqb_eq in Hmk as ->. f_equal.
    clear IH. induction names as [|n names IH]; simpl; [done|].
    apply not_elem_of_cons in Hm as [Hne Hm].
    apply NoDup_cons in Hnames as [_ Hnames].
    rewrite <- IH by done.
    destruct (String.eqb k n) eqn:Hkn.
    + apply String.eqb_eq in Hkn. congruence.
    + by rewrite app_nil_r.
  - by rewrite IH, app_nil_r.
Qed.

Lemma spec_groups_snoc_seen items x :
  item_typeName x ∈ List.map item_typeName items →
  spec_groups (items ++ [x]) =
  own_push (item_typeName x) x (spec_groups items).
Proof.
  intros Hin. unfold spec_groups.
  rewrite List.map_app; simpl. rewrite firstSeen_snoc.
  destruct (decide (item_typeName x ∈ List.map item_typeName items))
    as [Hd|Hd]; [|done].
  rewrite own_push_map by apply firstSeen_NoDup.
  apply List.map_ext. intros n. by rewrite groupOf_snoc.
Qed.

Lemma spec_groups_snoc_new items x :
  item_typeName x ∉ List.map item_typeName items →
  spec_groups (items ++ [x]) = spec_groups items ++ [(item_typeName x, [x])].
Proof.
  intros Hin. unfold spec_groups.
  rewrite List.map_app; simpl. rewrite firstSeen_snoc.
  destruct (decide (item_typeName x ∈ List.map item_typeName items))
    as [Hd|Hd]; [done|].
  rewrite List.map_app; simpl. f_equal.
  - apply List.map_ext_in. intros n Hn.
    rewrite <- list_elem_of_In, firstSeen_elem_of in Hn.
    rewrite groupOf_snoc.
    destruct (String.eqb (item_typeName x) n) eqn:Hxn.
    + apply String.eqb_eq in Hxn. congruence.
    + by rewrite app_nil_r.
  - by rewrite groupOf_snoc, groupOf_absent, String.eqb_refl.
Qed.

Lemma own_lookup_spec_groups items k :
  own_lookup k (spec_groups items) =
  if decide (k ∈ List.map item_typeName items)
  then Some (groupOf k items) else None.
Proof.
  unfold spec_groups. rewrite own_lookup_map.
  destruct (decide (k ∈ firstSeen (List.map item_typeName items)))
    as [Hs|Hs]; rewrite firstSeen_elem_of in Hs;
    destruct (decide (k ∈ List.map item_typeName items)); done.
Qed.

(** The [reduce] succeeds exactly when no type name is inherited from
    [Object.prototype], and then builds the grouping of the
    specification. *)
Lemma groupedByType_spec items groups :
  groupedByType items = Some groups ↔
  (∀ item, item ∈ items → item_typeName item ∉ object_prototype_keys) ∧
  groups = spec_groups items.
Proof.
  unfold groupedByType. revert groups.
  induction items as [|x items IH] using rev_ind; intros groups.
  - simpl. split.
    + intros [= <-]. split; [|done]. intros item Hin.
      by apply elem_of_nil in Hin.
    + by intros [_ ->].
  - rewrite reduce_groups_snoc.
    destruct (reduce_groups [] items) as [acc|] eqn:Hred.
    + destruct (proj1 (IH acc) eq_refl) as [Hok ->].
      unfold group_step. rewrite own_lookup_spec_groups.
      destruct (decide (item_typeName x ∈ List.map item_typeName items))
        as [Hseen|Hseen].
      * rewrite <- spec_groups_snoc_seen by done. split.
        -- intros [= <-]. split; [|done]. intros item Hin.
           apply elem_of_app in Hin as [Hin|Hin]; [by apply Hok|].
           apply list_elem_of_singleton in Hin as ->.
           apply list_elem_of_fmap in Hseen as (y & -> & Hy). by apply Hok.
        -- by intros [_ ->].
      * rewrite <- spec_groups_snoc_new by done.
        case_bool_decide as Hproto; split.
        -- done.
        -- intros [Hall _]. exfalso. eapply Hall; [|exact Hproto].
           apply elem_of_app. right. apply list_elem_of_here.
        -- intros [= <-]. split; [|done]. intros item Hin.
           apply elem_of_app in Hin as [Hin|Hin]; [by apply Hok|].
           by apply list_elem_of_singleton in Hin as ->.
        -- by intros [_ ->].
    + split; [done|]. intros [Hall _].
      assert (None = Some (spec_groups items)) as Hs; [|done].
      apply IH. split; [|done]. intros item Hin.
      apply Hall, elem_of_app. by left.
Qed.

(** ** Enumeration order of the groups *)

Lemma index_entries_ordinary {V : Type} (own : list (string * V)) :
  (∀ e, e ∈ own → array_index e.1 = None) → index_entries own = [].
Proof.
  induction own as [|e own IH]; intros Hall; simpl; [done|].
  rewrite (Hall e) by apply list_elem_of_here.
  apply IH. intros e' He'. apply Hall, elem_of_cons. by right.
Qed.

Lemma js_entries_ordinary {V : Type} (own : list (string * V)) :
  (∀ e, e ∈ own → array_index e.1 = None) → js_entries own = own.
Proof.
  intros Hall. unfold js_entries. rewrite index_entries_ordinary by done.
  simpl. induction own as [|e own IH]; simpl; [done|].
  rewrite (Hall e) by apply list_elem_of_here. simpl.
  f_equal. apply IH. intros e' He'. apply Hall, elem_of_cons. by right.
Qed.

Lemma insert_index_elem_of {V : Type} n (e : string * V) l x :
  x ∈ insert_index n e l ↔ x = (n, e) ∨ x ∈ l.
Proof.
  induction l as [|[m e'] l IH]; simpl.
  - rewrite list_elem_of_singleton, elem_of_nil. tauto.
  - destruct (n <? m)%N.
    + by rewrite elem_of_cons.
    + rewrite !elem_of_cons, IH. tauto.
Qed.

Lemma index_entries_elem_of {V : Type} (own : list (string * V)) n e :
  (n, e) ∈ index_entries own ↔ e ∈ own ∧ array_index e.1 = Some n.
Proof.
  induction own as [|e' own IH]; simpl.
  - rewrite !elem_of_nil. tauto.
  - destruct (array_index e'.1) as [m|] eqn:Hm.
    + rewrite insert_index_elem_of, IH, elem_of_cons. split.
      * intros [[= -> ->]|[? ?]]; auto.
      * intros [[->|?] Hn]; [left; congruence|auto].
    + rewrite IH, elem_of_cons. split.
      * intros [? ?]; auto.
      * intros [[->|?] Hn]; [congruence|auto].
Qed.

(** [Object.entries] enumerates exactly the own properties. *)
Lemma js_entries_elem_of {V : Type} (own : list (string * V)) e :
  e ∈ js_entries own ↔ e ∈ own.
Proof.
  unfold js_entries.
  rewrite elem_of_app, elem_of_filter_bool, negb_true_iff,
    bool_decide_eq_false, list_elem_of_fmap.
  split.
  - intros [([n e'] & -> & Hin)|[Hin _]]; [|done].
    by apply index_entries_elem_of in Hin as [? _].
  - intros Hin. destruct (array_index e.1) as [n|] eqn:Hn.
    + left. exists (n, e). split; [done|].
      by apply index_entries_elem_of.
    + right. split; [done|]. by intros [? ?].
Qed.

(** ** Export (ItemList, ProjectView) *)

Section ExportFacts.

Variable toLocaleDateString : string → string.
Variable book_append_sheet : list Sheet → Sheet → bool.
Variable writeFile : list Sheet → string → bool.

(** The [forEach] hands to the library, group after group, the sheet of
    each group that has one; it completes when the library accepts them
    all. *)
Lemma forEachEntry_spec itemTypes workbook entries :
  forEachEntry toLocaleDateString book_append_sheet itemTypes workbook
               entries =
  if accepted_in_turn book_append_sheet workbook
       (omap (typeSheet toLocaleDateString itemTypes) entries)
  then Some (workbook ++ omap (typeSheet toLocaleDateString itemTypes) entries)
  else None.
Proof.
  revert workbook. induction entries as [|e entries IH]; intros workbook.
  - simpl. by rewrite app_nil_r.
  - cbn [forEachEntry omap list_omap]. unfold appendTypeSheet.
    destruct (typeSheet toLocaleDateString itemTypes e) as [sheet|].
    + cbn [accepted_in_turn].
      destruct (book_append_sheet workbook sheet); [|done].
      rewrite IH. simpl. by rewrite <- app_assoc.
    + apply IH.
Qed.

(** The item export, once the records are grouped. *)
Lemma exportToExcel_grouped items itemTypes (selectedItems : gset string)
    nowIso groups :
  size selectedItems ≠ 0 →
  groupedByType
    (List.filter (fun item => bool_decide (item_id item ∈ selectedItems))
                 items) = Some groups →
  exportToExcel toLocaleDateString book_append_sheet writeFile
                items itemTypes selectedItems nowIso =
  outcome_of_sheets book_append_sheet writeFile
    (omap (typeSheet toLocaleDateString itemTypes) (js_entries groups))
    ("items_export_" +:+ isoDay nowIso +:+ ".xlsx").
Proof.
  intros Hsel Hgroups. unfold exportToExcel, outcome_of_sheets.
  rewrite bool_decide_eq_false_2 by done.
  rewrite Hgroups, forEachEntry_spec. simpl.
  by destruct (accepted_in_turn _ _ _).
Qed.

(** The project export, once the members are grouped. *)
Lemma exportProject_grouped project allItems itemTypes nowIso groups :
  projectItems project allItems ≠ [] →
  groupedByType (projectItems project allItems) = Some groups →
  exportProject toLocaleDateString book_append_sheet writeFile
                project allItems itemTypes nowIso =
  outcome_of_sheets book_append_sheet writeFile
    (projectInfoSheet toLocaleDateString project
                      (projectItems project allItems) ::
     omap (typeSheet toLocaleDateString itemTypes) (js_entries groups))
    (slugify (project_name project) +:+ "_export_" +:+
     isoDay nowIso +:+ ".xlsx").
Proof.
  intros Hne Hgroups. unfold exportProject, outcome_of_sheets.
  rewrite bool_decide_eq_false_2.
  2: { by destruct (projectItems project allItems). }
  rewrite Hgroups, forEachEntry_spec. cbn [accepted_in_turn app].
  destruct (book_append_sheet [] _); [|done]. simpl.
  by destruct (accepted_in_turn _ _ _).
Qed.

Lemma outcome_of_sheets_Written sheets filename fn wb :
  outcome_of_sheets book_append_sheet writeFile sheets filename =
    Written fn wb →
  fn = filename ∧ wb = sheets.
Proof.
  unfold outcome_of_sheets. destruct (_ && _); [|done].
  by intros [= <- <-].
Qed.

(** A written item export holds the sheets of the groups that have
    one, in the enumeration order of the groups. *)
Lemma exportToExcel_Written items itemTypes (selectedItems : gset string)
    nowIso fn wb :
  exportToExcel toLocaleDateString book_append_sheet writeFile
                items itemTypes selectedItems nowIso = Written fn wb →
  size selectedItems ≠ 0 ∧
  ∃ groups,
    groupedByType
      (List.filter (fun item => bool_decide (item_id item ∈ selectedItems))
                   items) = Some groups ∧
    fn = "items_export_" +:+ isoDay nowIso +:+ ".xlsx" ∧
    wb = omap (typeSheet toLocaleDateString itemTypes) (js_entries groups).
Proof.
  intros Hw.
  assert (size selectedItems ≠ 0) as Hsel.
  { intros Hz. unfold exportToExcel in Hw.
    by rewrite bool_decide_eq_true_2 in Hw. }
  split; [done|].
  destruct (groupedByType (List.filter _ items)) as [groups|] eqn:Hgroups.
  - exists groups. split; [done|].
    rewrite (exportToExcel_grouped _ _ _ _ _ Hsel Hgroups) in Hw.
    by apply outcome_of_sheets_Written in Hw.
  - unfold exportToExcel in Hw.
    rewrite bool_decide_eq_false_2 in Hw by done. by rewrite Hgroups in Hw.
Qed.

(** A written project export holds the "Project Info" sheet and then the
    sheets of the groups that have one. *)
Lemma exportProject_Written project allItems itemTypes nowIso fn wb :
  exportProject toLocaleDateString book_append_sheet writeFile
                project allItems itemTypes nowIso = Written fn wb →
  projectItems project allItems ≠ [] ∧
  ∃ groups,
    groupedByType (projectItems project allItems) = Some groups ∧
    fn = slugify (project_name project) +:+ "_export_" +:+
         isoDay nowIso +:+ ".xlsx" ∧
    wb = projectInfoSheet toLocaleDateString project
                          (projectItems project allItems) ::
         omap (typeSheet toLocaleDateString itemTypes) (js_entries groups).
Proof.
  intros Hw.
  assert (projectItems project allItems ≠ []) as Hne.
  { intros Hz. unfold exportProject in Hw. by rewrite Hz in Hw. }
  split; [done|].
  destruct (groupedByType (projectItems project allItems))
    as [groups|] eqn:Hgroups.
  - exists groups. split; [done|].
    rewrite (exportProject_grouped _ _ _ _ _ Hne Hgroups) in Hw.
    by apply outcome_of_sheets_Written in Hw.
  - unfold exportProject in Hw.
    rewrite bool_decide_eq_false_2 in Hw.
    2: { by destruct (projectItems project allItems). }
    by rewrite Hgroups in Hw.
Qed.

Lemma typeSheet_spec_sheet itemTypes items n :
  typeSheet toLocaleDateString itemTypes (n, groupOf n items) =
  spec_sheet toLocaleDateString itemTypes items n.
Proof.
  unfold typeSheet, spec_sheet.
  by destruct (List.find _ itemTypes).
Qed.

Lemma omap_typeSheet_spec_groups itemTypes items :
  omap (typeSheet toLocaleDateString itemTypes) (spec_groups items) =
  omap (spec_sheet toLocaleDateString itemTypes items)
       (firstSeen (List.map item_typeName items)).
Proof.
  unfold spec_groups.
  induction (firstSeen (List.map item_typeName items)) as [|n names IH].
  - done.
  - cbn [List.map omap list_omap]. by rewrite IH, typeSheet_spec_sheet.
Qed.

Lemma spec_groups_ordinary items :
  (∀ item, item ∈ items → ordinary_key (item_typeName item)) →
  js_entries (spec_groups items) = spec_groups items.
Proof.
  intros Hall. apply js_entries_ordinary. intros [n v] Hin; simpl.
  unfold spec_groups in Hin.
  apply list_elem_of_fmap in Hin as (m & [= -> ->] & Hm).
  apply firstSeen_elem_of, list_elem_of_fmap in Hm as (item & -> & Hitem).
  by destruct (Hall item Hitem).
Qed.

(** C2 (as amended).  When the selection is not empty and no type name
    in it is an array index or a property name inherited from
    [Object.prototype], the export hands to the xlsx library one sheet
    per distinct type name that some registered item type bears, in the
    order in which the names are first met in the input; a sheet is
    headed ["ID", "Created At", field names in declared order] and has
    one row per record of its group, in input order.  The project export
    puts these sheets after its "Project Info" sheet.  The document
    with these sheets is written when the library accepts each sheet in
    turn and the workbook; the export throws when it does not. *)
Theorem export_sheets_in_first_seen_order :
  (∀ items itemTypes (selectedItems : gset string) nowIso,
     size selectedItems ≠ 0 →
     (∀ item, item ∈ items → item_id item ∈ selectedItems →
              ordinary_key (item_typeName item)) →
     exportToExcel toLocaleDateString book_append_sheet writeFile
                   items itemTypes selectedItems nowIso =
     outcome_of_sheets book_append_sheet writeFile
       (omap (spec_sheet toLocaleDateString itemTypes
                (List.filter (fun item =>
                   bool_decide (item_id item ∈ selectedItems)) items))
             (firstSeen (List.map item_typeName
                (List.filter (fun item =>
                   bool_decide (item_id item ∈ selectedItems)) items))))
       ("items_export_" +:+ isoDay nowIso +:+ ".xlsx")) ∧
  (∀ project allItems itemTypes nowIso,
     projectItems project allItems ≠ [] →
     (∀ item, item ∈ projectItems project allItems →
              ordinary_key (item_typeName item)) →
     exportProject toLocaleDateString book_append_sheet writeFile
                   project allItems itemTypes nowIso =
     outcome_of_sheets book_append_sheet writeFile
       (projectInfoSheet toLocaleDateString project
                         (projectItems project allItems) ::
        omap (spec_sheet toLocaleDateString itemTypes
                         (projectItems project allItems))
             (firstSeen (List.map item_typeName
                                  (projectItems project allItems))))
       (slugify (project_name project) +:+ "_export_" +:+
        isoDay nowIso +:+ ".xlsx")).
Proof.
  split.
  - intros items itemTypes selectedItems nowIso Hsel Hall.
    set (selected := List.filter _ items).
    assert (∀ item, item ∈ selected → ordinary_key (item_typeName item))
      as Hord.
    { intros item Hin. apply elem_of_filter_bool in Hin as [Hin Hs].
      apply bool_decide_eq_true in Hs. by apply Hall. }
    assert (groupedByType selected = Some (spec_groups selected)) as Hg.
    { apply groupedByType_spec. split; [|done].
      intros item Hin. by destruct (Hord item Hin). }
    rewrite (exportToExcel_grouped _ _ _ _ _ Hsel Hg).
    by rewrite spec_groups_ordinary, omap_typeSheet_spec_groups.
  - intros project allItems itemTypes nowIso Hne Hord.
    assert (groupedByType (projectItems project allItems) =
            Some (spec_groups (projectItems project allItems))) as Hg.
    { apply groupedByType_spec. split; [|done].
      intros item Hin. by destruct (Hord item Hin). }
    rewrite (exportProject_grouped _ _ _ _ _ Hne Hg).
    by rewrite spec_groups_ordinary, omap_typeSheet_spec_groups.
Qed.

End ExportFacts.

Section ExportRows.

Variable toLocaleDateString : string → string.
Variable book_append_sheet : list Sheet → Sheet → bool.
Variable writeFile : list Sheet → string → bool.

Lemma find_first_match (itemTypes before after : list ItemType)
    (itemType : ItemType) (typeName : string) :
  itemTypes = before ++ itemType :: after →
  type_name itemType = typeName →
  (∀ type, type ∈ before → type_name type ≠ typeName) →
  List.find (fun type => String.eqb (type_name type) typeName) itemTypes =
  Some itemType.
Proof.
  intros -> Hname Hbefore.
  induction before as [|b before IH]; simpl.
  - by rewrite Hname, String.eqb_refl.
  - destruct (String.eqb (type_name b) typeName) eqn:Hb.
    + apply String.eqb_eq in Hb. exfalso.
      eapply Hbefore; [apply list_elem_of_here|done].
    + apply IH. intros type Hin. apply Hbefore, elem_of_cons. by right.
Qed.

Lemma find_no_match (itemTypes : list ItemType) (typeName : string) :
  (∀ type, type ∈ itemTypes → type_name type ≠ typeName) →
  List.find (fun type => String.eqb (type_name type) typeName) itemTypes =
  None.
Proof.
  induction itemTypes as [|b itemTypes IH]; intros Hall; simpl; [done|].
  destruct (String.eqb (type_name b) typeName) eqn:Hb.
  - apply String.eqb_eq in Hb. exfalso.
    eapply Hall; [apply list_elem_of_here|done].
  - apply IH. intros type Hin. apply Hall, elem_of_cons. by right.
Qed.

Lemma omap_typeSheet_unresolved itemTypes
    (entries : list (string * list ItemInstance)) :
  (∀ entry type, entry ∈ entries → type ∈ itemTypes →
                 type_name type ≠ entry.1) →
  omap (typeSheet toLocaleDateString itemTypes) entries = [].
Proof.
  induction entries as [|[n v] entries IH]; intros Hall; [done|].
  cbn [omap list_omap]. unfold typeSheet at 1.
  rewrite find_no_match.
  2: { intros type Hin. by apply (Hall (n, v) type (list_elem_of_here _ _)). }
  apply IH. intros entry type Hentry. apply Hall, elem_of_cons. by right.
Qed.

(** C8 (as amended).  On a group whose type name no registered item
    type bears the callback of the export builds no sheet, calls the
    library not at all and throws nothing: the workbook is left as it
    was.  On a group whose name several types bear it lays the sheet out
    with the fields of the first of them in registry order.  Once the
    records are grouped, the outcome of the export is that of handing
    the sheets of the resolved groups to the library, in enumeration
    order; when no group of an item export is resolved, no sheet is
    handed over and [writeFile] is called on the empty workbook. *)
Theorem unresolved_group_skipped_first_match_used :
  (∀ itemTypes workbook typeName typeItems,
     (∀ type, type ∈ itemTypes → type_name type ≠ typeName) →
     typeSheet toLocaleDateString itemTypes (typeName, typeItems) = None ∧
     appendTypeSheet toLocaleDateString book_append_sheet itemTypes
                     workbook (typeName, typeItems) = Some workbook) ∧
  (∀ before itemType after workbook typeItems,
     (∀ type, type ∈ before → type_name type ≠ type_name itemType) →
     ∃ worksheet,
       worksheet =
         mkSheet (slice0 31 (type_name itemType))
           (List.map JStr
              ("ID" :: "Created At" ::
               List.map field_name (type_fields itemType)) ::
            List.map (sheetRow toLocaleDateString itemType) typeItems)
           (Some (colWidths
              ("ID" :: "Created At" ::
               List.map field_name (type_fields itemType))
              (List.map (sheetRow toLocaleDateString itemType) typeItems))) ∧
       typeSheet toLocaleDateString (before ++ itemType :: after)
                 (type_name itemType, typeItems) = Some worksheet ∧
       appendTypeSheet toLocaleDateString book_append_sheet
                       (before ++ itemType :: after) workbook
                       (type_name itemType, typeItems) =
         if book_append_sheet workbook worksheet
         then Some (workbook ++ [worksheet]) else None) ∧
  (∀ items itemTypes (selectedItems : gset string) nowIso groups,
     size selectedItems ≠ 0 →
     groupedByType
       (List.filter (fun item => bool_decide (item_id item ∈ selectedItems))
                    items) = Some groups →
     exportToExcel toLocaleDateString book_append_sheet writeFile
                   items itemTypes selectedItems nowIso =
       outcome_of_sheets book_append_sheet writeFile
         (omap (typeSheet toLocaleDateString itemTypes) (js_entries groups))
         ("items_export_" +:+ isoDay nowIso +:+ ".xlsx") ∧
     ((∀ entry type, entry ∈ groups → type ∈ itemTypes →
                     type_name type ≠ entry.1) →
      exportToExcel toLocaleDateString book_append_sheet writeFile
                    items itemTypes selectedItems nowIso =
        if writeFile [] ("items_export_" +:+ isoDay nowIso +:+ ".xlsx")
        then Written ("items_export_" +:+ isoDay nowIso +:+ ".xlsx") []
        else Thrown)) ∧
  (∀ project allItems itemTypes nowIso groups,
     projectItems project allItems ≠ [] →
     groupedByType (projectItems project allItems) = Some groups →
     exportProject toLocaleDateString book_append_sheet writeFile
                   project allItems itemTypes nowIso =
       outcome_of_sheets book_append_sheet writeFile
         (projectInfoSheet toLocaleDateString project
                           (projectItems project allItems) ::
          omap (typeSheet toLocaleDateString itemTypes) (js_entries groups))
         (slugify (project_name project) +:+ "_export_" +:+
          isoDay nowIso +:+ ".xlsx")).
Proof.
  split_and!.
  - intros itemTypes workbook typeName typeItems Hnone.
    assert (typeSheet toLocaleDateString itemTypes (typeName, typeItems) =
            None) as Hsheet.
    { unfold typeSheet. by rewrite find_no_match. }
    split; [done|]. unfold appendTypeSheet. by rewrite Hsheet.
  - intros before itemType after workbook typeItems Hbefore.
    eexists. split; [reflexivity|].
    match goal with
    | |- typeSheet _ _ _ = Some ?sheet ∧ _ =>
        assert (typeSheet toLocaleDateString (before ++ itemType :: after)
                          (type_name itemType, typeItems) = Some sheet)
          as Hsheet
    end.
    { unfold typeSheet.
      by rewrite (find_first_match _ before after itemType). }
    split; [exact Hsheet|]. unfold appendTypeSheet. by rewrite Hsheet.
  - intros items itemTypes selectedItems nowIso groups Hsel Hgroups.
    pose proof (exportToExcel_grouped toLocaleDateString book_append_sheet
                  writeFile _ itemTypes _ nowIso _ Hsel Hgroups) as Hout.
    split; [done|]. intros Hnone. rewrite Hout.
    rewrite omap_typeSheet_unresolved; [done|].
    intros entry type Hentry. apply Hnone.
    by rewrite js_entries_elem_of in Hentry.
  - intros project allItems itemTypes nowIso groups Hne Hgroups.
    by apply exportProject_grouped.
Qed.

(** C9.  With no selected item the item export, and with no resolved
    member the project export, returns at once: no document is written
    and nothing is thrown. *)
Theorem export_of_nothing_is_noop :
  (∀ items itemTypes (selectedItems : gset string) nowIso,
     size selectedItems = 0 →
     exportToExcel toLocaleDateString book_append_sheet writeFile
                   items itemTypes selectedItems nowIso =
     NoDocument) ∧
  (∀ project allItems itemTypes nowIso,
     projectItems project allItems = [] →
     exportProject toLocaleDateString book_append_sheet writeFile
                   project allItems itemTypes nowIso =
     NoDocument).
Proof.
  split.
  - intros items itemTypes selectedItems nowIso Hsize.
    unfold exportToExcel. by rewrite bool_decide_eq_true_2.
  - intros project allItems itemTypes nowIso Hnil.
    unfold exportProject. by rewrite Hnil.
Qed.

(** Every data row of a type sheet is the row of one grouped record,
    laid out with an item type that bears the record's type name. *)
Lemma type_sheet_rows itemTypes items groups sheet row :
  groupedByType items = Some groups →
  sheet ∈ omap (typeSheet toLocaleDateString itemTypes)
               (js_entries groups) →
  row ∈ tail (sheet_data sheet) →
  ∃ itemType item,
    itemType ∈ itemTypes ∧ item ∈ items ∧
    type_name itemType = item_typeName item ∧
    row = sheetRow toLocaleDateString itemType item.
Proof.
  intros Hgroups Hsheet Hrow.
  apply groupedByType_spec in Hgroups as [_ ->].
  apply list_elem_of_omap in Hsheet as ([n v] & Hentry & Hsheet).
  rewrite js_entries_elem_of in Hentry.
  unfold spec_groups in Hentry.
  apply list_elem_of_fmap in Hentry as (m & [= -> ->] & _).
  unfold typeSheet in Hsheet.
  destruct (List.find _ itemTypes) as [itemType|] eqn:Hfind; [|done].
  apply find_some in Hfind as [Hin Hname].
  apply String.eqb_eq in Hname.
  injection Hsheet as <-. simpl in Hrow.
  apply list_elem_of_fmap in Hrow as (item & -> & Hitem).
  apply groupOf_spec in Hitem as [Hitem Hn].
  exists itemType, item. split_and!; [by apply list_elem_of_In|done|congruence|done].
Qed.

Lemma exportToExcel_rows items itemTypes (selectedItems : gset string)
    nowIso fn wb sheet row :
  exportToExcel toLocaleDateString book_append_sheet writeFile
                items itemTypes selectedItems nowIso = Written fn wb →
  sheet ∈ wb → row ∈ tail (sheet_data sheet) →
  ∃ itemType item,
    itemType ∈ itemTypes ∧ item ∈ items ∧
    type_name itemType = item_typeName item ∧
    row = sheetRow toLocaleDateString itemType item.
Proof.
  intros (_ & groups & Hgroups & _ & ->)%exportToExcel_Written Hsheet Hrow.
  destruct (type_sheet_rows _ _ _ _ _ Hgroups Hsheet Hrow)
    as (itemType & item & ? & Hitem & ? & ?).
  apply elem_of_filter_bool in Hitem as [Hitem _].
  by exists itemType, item.
Qed.

Lemma exportProject_rows project allItems itemTypes nowIso fn wb sheet row :
  exportProject toLocaleDateString book_append_sheet writeFile
                project allItems itemTypes nowIso = Written fn wb →
  sheet ∈ tail wb → row ∈ tail (sheet_data sheet) →
  ∃ itemType item,
    itemType ∈ itemTypes ∧ item ∈ allItems ∧
    type_name itemType = item_typeName item ∧
    row = sheetRow toLocaleDateString itemType item.
Proof.
  intros (_ & groups & Hgroups & _ & ->)%exportProject_Written Hsheet Hrow.
  simpl in Hsheet.
  destruct (type_sheet_rows _ _ _ _ _ Hgroups Hsheet Hrow)
    as (itemType & item & ? & Hitem & ? & ?).
  apply elem_of_filter_bool in Hitem as [Hitem _].
  by exists itemType, item.
Qed.

Lemma sheetRow_cell itemType item i field :
  type_fields itemType !! i = Some field →
  sheetRow toLocaleDateString itemType item !! (2 + i) =
  Some (js_or (js_get (item_data item) (field_id field)) (JStr "")).
Proof.
  intros Hi. unfold sheetRow. simpl.
  change (List.map ?f ?l) with (f <$> l).
  by rewrite list_lookup_fmap, Hi.
Qed.

Lemma sheetRow_length itemType item :
  length (sheetRow toLocaleDateString itemType item) =
  2 + length (type_fields itemType).
Proof. unfold sheetRow. simpl. by rewrite length_map. Qed.

End ExportRows.

Section ExportCells.

Variable toLocaleDateString : string → string.
Variable book_append_sheet : list Sheet → Sheet → bool.
Variable writeFile : list Sheet → string → bool.

Lemma sheetRow_stored_cells itemType item :
  stored_cells itemType item (sheetRow toLocaleDateString itemType item).
Proof.
  intros i field Hi. rewrite (sheetRow_cell _ _ _ _ _ Hi).
  unfold js_or, js_get. split.
  - by intros ->.
  - by intros ->.
Qed.

Lemma sheetRow_falsy_cells_empty itemType item :
  falsy_cells_empty itemType item (sheetRow toLocaleDateString itemType item).
Proof.
  intros i field Hi Hfalsy. rewrite (sheetRow_cell _ _ _ _ _ Hi).
  unfold js_or. by rewrite Hfalsy.
Qed.

(** C6 (as amended).  Every exported data row opens with the id of a
    record and with the locale date string of its [createdAt], the only
    cell that is rendered as a date.  After them the cell of a field,
    whatever its kind (date included), is the stored value itself when
    that value is truthy, neither reformatted nor turned into a string,
    and the empty string when the record holds no value for the field
    or a falsy one. *)
Theorem exported_cells_are_stored_values :
  (∀ items itemTypes (selectedItems : gset string) nowIso fn wb sheet row,
     exportToExcel toLocaleDateString book_append_sheet writeFile
                   items itemTypes selectedItems nowIso = Written fn wb →
     sheet ∈ wb → row ∈ tail (sheet_data sheet) →
     ∃ itemType item,
       itemType ∈ itemTypes ∧ item ∈ items ∧
       type_name itemType = item_typeName item ∧
       length row = 2 + length (type_fields itemType) ∧
       row !! 0 = Some (JStr (item_id item)) ∧
       row !! 1 = Some (JStr (toLocaleDateString (item_createdAt item))) ∧
       stored_cells itemType item row ∧
       falsy_cells_empty itemType item row) ∧
  (∀ project allItems itemTypes nowIso fn wb sheet row,
     exportProject toLocaleDateString book_append_sheet writeFile
                   project allItems itemTypes nowIso = Written fn wb →
     sheet ∈ tail wb → row ∈ tail (sheet_data sheet) →
     ∃ itemType item,
       itemType ∈ itemTypes ∧ item ∈ allItems ∧
       type_name itemType = item_typeName item ∧
       length row = 2 + length (type_fields itemType) ∧
       row !! 0 = Some (JStr (item_id item)) ∧
       row !! 1 = Some (JStr (toLocaleDateString (item_createdAt item))) ∧
       stored_cells itemType item row ∧
       falsy_cells_empty itemType item row).
Proof.
  split.
  - intros items itemTypes selectedItems nowIso fn wb sheet row Hw Hs Hr.
    destruct (exportToExcel_rows _ _ _ _ _ _ _ _ _ _ _ Hw Hs Hr)
      as (itemType & item & ? & ? & ? & ->).
    exists itemType, item. split_and!; try done.
    + apply sheetRow_length.
    + apply sheetRow_stored_cells.
    + apply sheetRow_falsy_cells_empty.
  - intros project allItems itemTypes nowIso fn wb sheet row Hw Hs Hr.
    destruct (exportProject_rows _ _ _ _ _ _ _ _ _ _ _ Hw Hs Hr)
      as (itemType & item & ? & ? & ? & ->).
    exists itemType, item. split_and!; try done.
    + apply sheetRow_length.
    + apply sheetRow_stored_cells.
    + apply sheetRow_falsy_cells_empty.
Qed.

(** C10.  The falsy values are undefined, null, false, 0, NaN and the
    empty string, and in every exported data row the cell of a field
    whose stored value is falsy or missing is the empty string. *)
Theorem falsy_values_export_as_empty :
  (∀ v, ToBoolean v = false ↔
        v ∈ [JUndefined; JNull; JBool false; JNum 0; JNaN; JStr ""]) ∧
  (∀ items itemTypes (selectedItems : gset string) nowIso fn wb sheet row,
     exportToExcel toLocaleDateString book_append_sheet writeFile
                   items itemTypes selectedItems nowIso =
       Written fn wb →
     sheet ∈ wb → row ∈ tail (sheet_data sheet) →
     ∃ itemType item,
       itemType ∈ itemTypes ∧ item ∈ items ∧
       type_name itemType = item_typeName item ∧
       length row = 2 + length (type_fields itemType) ∧
       falsy_cells_empty itemType item row) ∧
  (∀ project allItems itemTypes nowIso fn wb sheet row,
     exportProject toLocaleDateString book_append_sheet writeFile
                   project allItems itemTypes nowIso =
       Written fn wb →
     sheet ∈ tail wb → row ∈ tail (sheet_data sheet) →
     ∃ itemType item,
       itemType ∈ itemTypes ∧ item ∈ allItems ∧
       type_name itemType = item_typeName item ∧
       length row = 2 + length (type_fields itemType) ∧
       falsy_cells_empty itemType item row).
Proof.
  split_and!.
  - intros v. rewrite !elem_of_cons, elem_of_nil. split.
    + destruct v as [| |[|]|n| |s]; simpl; try done; auto 10.
      * intros Hn. apply negb_false_iff, Z.eqb_eq in Hn as ->. auto 10.
      * intros Hs. apply negb_false_iff, String.eqb_eq in Hs as ->. auto 10.
    + intros [->|[->|[->|[->|[->|[->|[]]]]]]]; reflexivity.
  - intros items itemTypes selectedItems nowIso fn wb sheet row Hw Hs Hr.
    destruct (exportToExcel_rows _ _ _ _ _ _ _ _ _ _ _ Hw Hs Hr)
      as (itemType & item & ? & ? & ? & ->).
    exists itemType, item. split_and!; try done.
    + apply sheetRow_length.
    + apply sheetRow_falsy_cells_empty.
  - intros project allItems itemTypes nowIso fn wb sheet row Hw Hs Hr.
    destruct (exportProject_rows _ _ _ _ _ _ _ _ _ _ _ Hw Hs Hr)
      as (itemType & item & ? & ? & ? & ->).
    exists itemType, item. split_and!; try done.
    + apply sheetRow_length.
    + apply sheetRow_falsy_cells_empty.
Qed.

End ExportCells.

Section ExportOrder.

Variable toLocaleDateString : string → string.
Variable book_append_sheet : list Sheet → Sheet → bool.
Variable writeFile : list Sheet → string → bool.

Lemma omap_typeSheet_entries itemTypes items
    (entries : list (string * list ItemInstance)) :
  (∀ e, e ∈ entries → e.2 = groupOf e.1 items) →
  omap (typeSheet toLocaleDateString itemTypes) entries =
  omap (spec_sheet toLocaleDateString itemTypes items) entries.*1.
Proof.
  induction entries as [|[n v] entries IH]; intros Hall; [done|].
  cbn [fmap list_fmap omap list_omap fst].
  rewrite IH by (intros e He; apply Hall, elem_of_cons; by right).
  pose proof (Hall (n, v) (list_elem_of_here _ _)) as Hv. simpl in Hv.
  by rewrite Hv, typeSheet_spec_sheet.
Qed.

(** X5.  In general the sheets that an item export hands to the xlsx
    library come in the enumeration order of the group names: the names
    that are array indices in ascending numeric order, then the others
    in order of first occurrence; a name that no registered type bears
    gives no sheet.  The document with these sheets is written when the
    library accepts each sheet in turn and the workbook; the export
    throws when it does not. *)
Lemma export_sheets_in_enumeration_order
    items itemTypes (selectedItems : gset string) nowIso :
  size selectedItems ≠ 0 →
  (∀ item, item ∈ items → item_id item ∈ selectedItems →
           item_typeName item ∉ object_prototype_keys) →
  exportToExcel toLocaleDateString book_append_sheet writeFile
                items itemTypes selectedItems nowIso =
  outcome_of_sheets book_append_sheet writeFile
    (omap (spec_sheet toLocaleDateString itemTypes
             (List.filter (fun item =>
                bool_decide (item_id item ∈ selectedItems)) items))
          (js_entries (spec_groups
             (List.filter (fun item =>
                bool_decide (item_id item ∈ selectedItems)) items))).*1)
    ("items_export_" +:+ isoDay nowIso +:+ ".xlsx").
Proof.
  intros Hsel Hall.
  set (selected := List.filter _ items).
  assert (groupedByType selected = Some (spec_groups selected)) as Hg.
  { apply groupedByType_spec. split; [|done]. intros item Hin.
    apply elem_of_filter_bool in Hin as [Hin Hs].
    apply bool_decide_eq_true in Hs. by apply Hall. }
  rewrite (exportToExcel_grouped _ _ _ _ _ _ _ _ Hsel Hg). f_equal.
  apply omap_typeSheet_entries. intros [n v] Hin.
  rewrite js_entries_elem_of in Hin. unfold spec_groups in Hin.
  by apply list_elem_of_fmap in Hin as (m & [= -> ->] & _).
Qed.

End ExportOrder.

(** ** The export on the sample data *)

Ltac by_evaluation :=
  match goal with
  | |- ?P => apply (bool_decide_unpack P); vm_compute; exact I
  end.

Lemma products_export :
  exportToExcel toLocaleDateString_enUS xlsx_book_append_sheet xlsx_writeFile
                [product_1; product_2] [products_type]
                {["item_1"; "item_2"]} export_time =
  Written "items_export_2024-11-03.xlsx" [products_sheet].
Proof. vm_compute. reflexivity. Defined.

Lemma products_project_export :
  exportProject toLocaleDateString_enUS xlsx_book_append_sheet xlsx_writeFile
                products_project [product_1; product_2] [products_type]
                export_time =
  Written "Site_C_export_2024-11-03.xlsx"
          [products_info_sheet; products_sheet].
Proof. vm_compute. reflexivity. Defined.

Lemma products_ordinary item :
  item ∈ [product_1; product_2] → ordinary_key (item_typeName item).
Proof.
  intros Hin. apply elem_of_cons in Hin as [->|Hin];
    [|apply list_elem_of_singleton in Hin as ->]; by_evaluation.
Defined.

Lemma mixed_ordinary item :
  item ∈ [event_1; product_1; product_2] →
  ordinary_key (item_typeName item).
Proof.
  intros Hin. apply elem_of_cons in Hin as [->|Hin]; [by_evaluation|].
  by apply products_ordinary.
Defined.

(** An instance on the sample data: an event and two products, the
    event first, with the products type registered first. *)
Lemma export_sheets_in_first_seen_order_witness :
  exportToExcel toLocaleDateString_enUS xlsx_book_append_sheet xlsx_writeFile
                [event_1; product_1; product_2]
                [products_type; events_type]
                {["item_1"; "item_2"; "item_6"]} export_time =
    Written "items_export_2024-11-03.xlsx" [events_sheet; products_sheet] ∧
  exportProject toLocaleDateString_enUS xlsx_book_append_sheet xlsx_writeFile
                mixed_project [event_1; product_1; product_2]
                [products_type; events_type] export_time =
    Written "Site_E_export_2024-11-03.xlsx"
            [mixed_info_sheet; events_sheet; products_sheet].
Proof.
  destruct (export_sheets_in_first_seen_order toLocaleDateString_enUS
              xlsx_book_append_sheet xlsx_writeFile) as [Hlist Hproject].
  split.
  - etrans.
    + apply Hlist.
      * vm_compute. intros H. discriminate H.
      * intros item Hin _. by apply mixed_ordinary.
    + vm_compute. reflexivity.
  - etrans.
    + apply Hproject.
      * vm_compute. intros H. discriminate H.
      * intros item Hin. apply mixed_ordinary. exact Hin.
    + vm_compute. reflexivity.
Defined.

(** C2 (as stated) fails.  Records of the types "2024" and "2023", met
    in that order, are exported with the sheet "2023" first.  A record
    whose type name no registered type bears gets no sheet.  Records of
    two types whose names share their first 31 characters are not
    exported at all: the library refuses the second sheet and the export
    throws. *)
Lemma numeric_type_names_reordered :
  exportToExcel toLocaleDateString_enUS xlsx_book_append_sheet xlsx_writeFile
                [record_2024; record_2023] [type_2023; type_2024]
                {["item_3"; "item_4"]} export_time =
    Written "items_export_2024-11-03.xlsx"
      [ mkSheet "2023"
          [ [JStr "ID"; JStr "Created At"; JStr "Name"];
            [JStr "item_4"; JStr "3/6/2024"; JStr "old"] ]
          (Some [8; 12; 6]);
        mkSheet "2024"
          [ [JStr "ID"; JStr "Created At"; JStr "Name"];
            [JStr "item_3"; JStr "3/5/2024"; JStr "new"] ]
          (Some [8; 12; 6]) ] ∧
  firstSeen (List.map item_typeName [record_2024; record_2023]) =
    ["2024"; "2023"] ∧
  exportToExcel toLocaleDateString_enUS xlsx_book_append_sheet xlsx_writeFile
                [orphan_item; product_1; product_2] [products_type]
                {["item_1"; "item_2"; "item_5"]} export_time =
    Written "items_export_2024-11-03.xlsx" [products_sheet] ∧
  firstSeen (List.map item_typeName [orphan_item; product_1; product_2]) =
    ["Gone"; "Products"] ∧
  exportToExcel toLocaleDateString_enUS xlsx_book_append_sheet xlsx_writeFile
                [inspection_2023; inspection_2024]
                [inspections_2023; inspections_2024]
                {["item_10"; "item_11"]} export_time = Thrown ∧
  slice0 31 (type_name inspections_2023) =
    slice0 31 (type_name inspections_2024).
Proof. split_and!; vm_compute; reflexivity. Qed.

(** An instance on the sample data. *)
Lemma unresolved_group_skipped_first_match_used_witness :
  (typeSheet toLocaleDateString_enUS [products_type; products_type_v2]
             ("Gone", [orphan_item]) = None ∧
   appendTypeSheet toLocaleDateString_enUS xlsx_book_append_sheet
                   [products_type; products_type_v2] [events_sheet]
                   ("Gone", [orphan_item]) = Some [events_sheet]) ∧
  typeSheet toLocaleDateString_enUS
            ([] ++ products_type :: [products_type_v2])
            ("Products", [product_1]) =
    Some (mkSheet "Products"
       [ [JStr "ID"; JStr "Created At"; JStr "Name"; JStr "Price"];
         [JStr "item_1"; JStr "3/5/2024"; JStr "Lamp"; JStr "12"] ]
       (Some [8; 12; 6; 7])) ∧
  exportToExcel toLocaleDateString_enUS xlsx_book_append_sheet xlsx_writeFile
                [orphan_item; product_1]
                [products_type; products_type_v2] {["item_5"; "item_1"]}
                export_time =
    Written "items_export_2024-11-03.xlsx"
      [mkSheet "Products"
         [ [JStr "ID"; JStr "Created At"; JStr "Name"; JStr "Price"];
           [JStr "item_1"; JStr "3/5/2024"; JStr "Lamp"; JStr "12"] ]
         (Some [8; 12; 6; 7])].
Proof.
  destruct (unresolved_group_skipped_first_match_used
              toLocaleDateString_enUS xlsx_book_append_sheet xlsx_writeFile)
    as (Hskip & Hfirst & Hlist & _).
  split; [|split].
  - apply Hskip. intros type Hin.
    apply elem_of_cons in Hin as [->|Hin];
      [|apply list_elem_of_singleton in Hin as ->];
      vm_compute; intros H; discriminate H.
  - destruct (Hfirst [] products_type [products_type_v2] [] [product_1])
      as (worksheet & -> & Hsheet & _).
    { intros type Hin. by apply elem_of_nil in Hin. }
    etrans; [exact Hsheet|]. vm_compute. reflexivity.
  - destruct (Hlist [orphan_item; product_1]
                    [products_type; products_type_v2]
                    {["item_5"; "item_1"]} export_time
                    [("Gone", [orphan_item]); ("Products", [product_1])])
      as [Hout _].
    { vm_compute. intros H. discriminate H. }
    { vm_compute. reflexivity. }
    etrans; [exact Hout|]. vm_compute. reflexivity.
Defined.

(** C8 (as stated) fails: the export of a record whose type name no
    registered type bears does not end without an error.  The group is
    skipped, no sheet is appended, and the library refuses to write the
    workbook without sheets: the export throws. *)
Lemma export_of_unresolved_groups_only_throws :
  typeSheet toLocaleDateString_enUS [products_type] ("Gone", [orphan_item]) =
    None ∧
  exportToExcel toLocaleDateString_enUS xlsx_book_append_sheet xlsx_writeFile
                [orphan_item] [products_type] {["item_5"]} export_time =
    Thrown.
Proof. split; vm_compute; reflexivity. Qed.

(** An instance on the sample data. *)
Lemma export_of_nothing_is_noop_witness :
  exportToExcel toLocaleDateString_enUS xlsx_book_append_sheet xlsx_writeFile
                [product_1; product_2] [products_type] ∅ export_time =
    NoDocument ∧
  exportProject toLocaleDateString_enUS xlsx_book_append_sheet xlsx_writeFile
                empty_project [product_1; product_2] [products_type]
                export_time =
    NoDocument.
Proof.
  destruct (export_of_nothing_is_noop toLocaleDateString_enUS
              xlsx_book_append_sheet xlsx_writeFile) as [Hlist Hproject].
  split.
  - apply Hlist. vm_compute. reflexivity.
  - apply Hproject. vm_compute. reflexivity.
Defined.

(** An instance on the sample data. *)
Lemma exported_cells_are_stored_values_witness :
  ∃ itemType item,
    itemType ∈ [products_type] ∧ item ∈ [product_1; product_2] ∧
    type_name itemType = item_typeName item ∧
    length [JStr "item_1"; JStr "3/5/2024"; JStr "Lamp"; JStr "12"] =
      2 + length (type_fields itemType) ∧
    [JStr "item_1"; JStr "3/5/2024"; JStr "Lamp"; JStr "12"] !! 0 =
      Some (JStr (item_id item)) ∧
    [JStr "item_1"; JStr "3/5/2024"; JStr "Lamp"; JStr "12"] !! 1 =
      Some (JStr (toLocaleDateString_enUS (item_createdAt item))) ∧
    stored_cells itemType item
      [JStr "item_1"; JStr "3/5/2024"; JStr "Lamp"; JStr "12"] ∧
    falsy_cells_empty itemType item
      [JStr "item_1"; JStr "3/5/2024"; JStr "Lamp"; JStr "12"].
Proof.
  apply (proj1 (exported_cells_are_stored_values toLocaleDateString_enUS
                  xlsx_book_append_sheet xlsx_writeFile)
           _ _ _ _ _ _ products_sheet _ products_export).
  - apply list_elem_of_here.
  - simpl. apply list_elem_of_here.
Defined.

(** An instance on the sample data. *)
Lemma falsy_values_export_as_empty_witness :
  ∃ itemType item,
    itemType ∈ [products_type] ∧ item ∈ [product_1; product_2] ∧
    type_name itemType = item_typeName item ∧
    length [JStr "item_2"; JStr "3/6/2024"; JStr "Desk"; JStr ""] =
      2 + length (type_fields itemType) ∧
    falsy_cells_empty itemType item
      [JStr "item_2"; JStr "3/6/2024"; JStr "Desk"; JStr ""].
Proof.
  apply (proj1 (proj2 (falsy_values_export_as_empty toLocaleDateString_enUS
                         xlsx_book_append_sheet xlsx_writeFile))
           _ _ _ _ _ _ products_sheet _ products_export).
  - apply list_elem_of_here.
  - simpl. apply list_elem_of_further, list_elem_of_here.
Defined.

(** C6 (as stated) fails: a date field holding "2024-01-15" is exported
    as that very text, while its locale date string is "1/15/2024". *)
Lemma date_field_exported_unformatted :
  field_type due_field = date ∧
  exportToExcel toLocaleDateString_enUS xlsx_book_append_sheet xlsx_writeFile
                [event_1] [events_type] {["item_6"]} export_time =
    Written "items_export_2024-11-03.xlsx"
      [ mkSheet "Events"
          [ [JStr "ID"; JStr "Created At"; JStr "Due"];
            [JStr "item_6"; JStr "3/5/2024"; JStr "2024-01-15"] ]
          (Some [8; 12; 12]) ] ∧
  toLocaleDateString_enUS "2024-01-15" = "1/15/2024".
Proof. split_and!; vm_compute; reflexivity. Qed.

(** * Further properties of the components *)

(** ** Shape of the exported sheets *)

Section SheetShape.

Variable toLocaleDateString : string → string.
Variable book_append_sheet : list Sheet → Sheet → bool.
Variable writeFile : list Sheet → string → bool.

(** Every type sheet of an export is the sheet of the specification for
    the type name of some grouped record. *)
Lemma type_sheet_origin itemTypes items groups sheet :
  groupedByType items = Some groups →
  sheet ∈ omap (typeSheet toLocaleDateString itemTypes)
               (js_entries groups) →
  ∃ item, item ∈ items ∧
    spec_sheet toLocaleDateString itemTypes items (item_typeName item) =
      Some sheet.
Proof.
  intros Hgroups Hsheet.
  apply groupedByType_spec in Hgroups as [_ ->].
  apply list_elem_of_omap in Hsheet as ([n v] & Hentry & Hsheet).
  rewrite js_entries_elem_of in Hentry.
  unfold spec_groups in Hentry.
  apply list_elem_of_fmap in Hentry as (m & [= -> ->] & Hm).
  rewrite firstSeen_elem_of in Hm.
  apply list_elem_of_fmap in Hm as (item & -> & Hitem).
  exists item. split; [done|].
  by rewrite typeSheet_spec_sheet in Hsheet.
Qed.

Lemma exportToExcel_sheet_origin items itemTypes
    (selectedItems : gset string) nowIso fn wb sheet :
  exportToExcel toLocaleDateString book_append_sheet writeFile
                items itemTypes selectedItems nowIso =
    Written fn wb →
  sheet ∈ wb →
  ∃ item, item ∈ items ∧ item_id item ∈ selectedItems ∧
    spec_sheet toLocaleDateString itemTypes
      (List.filter (fun item => bool_decide (item_id item ∈ selectedItems))
                   items)
      (item_typeName item) = Some sheet.
Proof.
  intros (_ & groups & Hgroups & _ & ->)%exportToExcel_Written Hsheet.
  destruct (type_sheet_origin _ _ _ _ Hgroups Hsheet) as (item & Hitem & Hs).
  apply elem_of_filter_bool in Hitem as [Hitem Hsel].
  apply bool_decide_eq_true in Hsel. by exists item.
Qed.

Lemma exportProject_sheet_origin project allItems itemTypes nowIso fn wb
    sheet :
  exportProject toLocaleDateString book_append_sheet writeFile
                project allItems itemTypes nowIso =
    Written fn wb →
  sheet ∈ tail wb →
  ∃ item, item ∈ projectItems project allItems ∧
    spec_sheet toLocaleDateString itemTypes (projectItems project allItems)
      (item_typeName item) = Some sheet.
Proof.
  intros (_ & groups & Hgroups & _ & ->)%exportProject_Written Hsheet.
  simpl in Hsheet.
  by apply (type_sheet_origin _ _ _ _ Hgroups Hsheet).
Qed.

Lemma slice0_length n s :
  String.length (slice0 n s) = Nat.min n (String.length s).
Proof.
  unfold slice0. revert n. induction s as [|c s IH]; intros [|n]; simpl;
    try done. by rewrite IH.
Qed.

Lemma slice0_prefix n s : ∃ rest, s = slice0 n s +:+ rest.
Proof.
  unfold slice0. revert n. induction s as [|c s IH]; intros [|n]; simpl.
  - by exists "".
  - by exists "".
  - by exists (String c s).
  - destruct (IH n) as [rest Hrest]. exists rest.
    by rewrite append_cons_l, <- Hrest.
Qed.

(** X1.  The name of every type sheet is the type name of one of the
    exported records cut to its first 31 characters: it is a prefix of
    that name and has [min 31 (length name)] characters. *)
Theorem sheet_names_are_truncated_type_names :
  (∀ items itemTypes (selectedItems : gset string) nowIso fn wb sheet,
     exportToExcel toLocaleDateString book_append_sheet writeFile
                   items itemTypes selectedItems nowIso =
       Written fn wb →
     sheet ∈ wb →
     ∃ item rest, item ∈ items ∧ item_id item ∈ selectedItems ∧
       item_typeName item = sheet_name sheet +:+ rest ∧
       String.length (sheet_name sheet) =
         Nat.min 31 (String.length (item_typeName item))) ∧
  (∀ project allItems itemTypes nowIso fn wb sheet,
     exportProject toLocaleDateString book_append_sheet writeFile
                   project allItems itemTypes nowIso =
       Written fn wb →
     sheet ∈ tail wb →
     ∃ item rest, item ∈ allItems ∧
       item_id item ∈ project_itemIds project ∧
       item_typeName item = sheet_name sheet +:+ rest ∧
       String.length (sheet_name sheet) =
         Nat.min 31 (String.length (item_typeName item))).
Proof.
  split.
  - intros items itemTypes selectedItems nowIso fn wb sheet Hw Hs.
    destruct (exportToExcel_sheet_origin _ _ _ _ _ _ _ Hw Hs)
      as (item & Hitem & Hsel & Hspec).
    unfold spec_sheet in Hspec.
    destruct (List.find _ itemTypes); [|done].
    injection Hspec as <-. simpl.
    destruct (slice0_prefix 31 (item_typeName item)) as [rest Hrest].
    exists item, rest. split_and!; [done..|apply slice0_length].
  - intros project allItems itemTypes nowIso fn wb sheet Hw Hs.
    destruct (exportProject_sheet_origin _ _ _ _ _ _ _ Hw Hs)
      as (item & Hitem & Hspec).
    apply elem_of_filter_bool in Hitem as [Hitem Hmem].
    apply bool_decide_eq_true in Hmem.
    unfold spec_sheet in Hspec.
    destruct (List.find _ itemTypes); [|done].
    injection Hspec as <-. simpl.
    destruct (slice0_prefix 31 (item_typeName item)) as [rest Hrest].
    exists item, rest. split_and!; [done..|apply slice0_length].
Qed.

End SheetShape.

Section ColumnWidths.

Variable toLocaleDateString : string → string.
Variable book_append_sheet : list Sheet → Sheet → bool.
Variable writeFile : list Sheet → string → bool.

Lemma max_list_bounds x xs :
  x ≤ max_list x xs ∧ ∀ y, y ∈ xs → y ≤ max_list x xs.
Proof.
  unfold max_list. revert x. induction xs as [|z xs IH]; intros x; simpl.
  - split; [done|]. intros y Hy. by apply elem_of_nil in Hy.
  - destruct (IH (Nat.max x z)) as [Hx Hys]. split; [lia|].
    intros y Hy. apply elem_of_cons in Hy as [->|Hy]; [lia|by apply Hys].
Qed.

Lemma colWidths_lookup headers rows i w :
  colWidths headers rows !! i = Some w →
  ∃ header, headers !! i = Some header ∧
    w = Nat.min
          (max_list (String.length header)
             (List.map (fun row =>
                String.length
                  (js_String (js_or (default JUndefined (row !! i))
                                    (JStr "")))) rows) + 2) 50.
Proof.
  unfold colWidths. rewrite list_lookup_imap.
  destruct (headers !! i) as [header|]; simpl; [|done].
  intros [= <-]. by exists header.
Qed.

Lemma header_text (h : string) : js_String (js_or (JStr h) (JStr "")) = h.
Proof.
  unfold js_or; simpl. destruct (String.eqb h "") eqn:Hh; [|done].
  by apply String.eqb_eq in Hh as ->.
Qed.

Lemma spec_sheet_columns_fit itemTypes items n sheet :
  spec_sheet toLocaleDateString itemTypes items n = Some sheet →
  ∃ cols, sheet_cols sheet = Some cols ∧ columns_fit sheet cols.
Proof.
  unfold spec_sheet.
  destruct (List.find _ itemTypes) as [itemType|]; [|done].
  intros [= <-]. cbn [sheet_cols]. eexists. split; [reflexivity|].
  set (headers := "ID" :: "Created At" :: _).
  set (rows := List.map _ (groupOf n items)).
  assert (length (colWidths headers rows) = length headers) as Hlen.
  { unfold colWidths. apply length_imap. }
  split; cbn [sheet_data].
  - intros row Hrow. rewrite Hlen.
    apply elem_of_cons in Hrow as [->|Hrow].
    { unfold headers. simpl. by rewrite !length_map. }
    apply list_elem_of_fmap in Hrow as (item & -> & _).
    rewrite sheetRow_length. unfold headers. simpl. by rewrite length_map.
  - intros i w Hw.
    apply colWidths_lookup in Hw as (header & Hheader & ->).
    set (lens := List.map _ rows).
    destruct (max_list_bounds (String.length header) lens) as [Hh Hcells].
    split; [lia|].
    intros row cell Hrow Hcell.
    apply elem_of_cons in Hrow as [->|Hrow].
    + change (_ :: _ :: List.map JStr _) with (JStr <$> headers) in Hcell.
      rewrite list_lookup_fmap, Hheader in Hcell.
      injection Hcell as <-. rewrite header_text. lia.
    + assert (String.length (js_String (js_or cell (JStr ""))) ∈ lens)
        as Hin.
      { unfold lens. apply list_elem_of_fmap. exists row.
        split; [|done]. by rewrite Hcell. }
      apply Hcells in Hin. lia.
Qed.

(** X2.  Every type sheet of an export carries column widths that fit
    it: each row, header included, has one cell per width; each width
    lies between 2 and 50 and is at least the length of the text of each
    cell of its column plus 2, capped at 50. *)
Theorem column_widths_fit_the_sheet :
  (∀ items itemTypes (selectedItems : gset string) nowIso fn wb sheet,
     exportToExcel toLocaleDateString book_append_sheet writeFile
                   items itemTypes selectedItems nowIso =
       Written fn wb →
     sheet ∈ wb →
     ∃ cols, sheet_cols sheet = Some cols ∧ columns_fit sheet cols) ∧
  (∀ project allItems itemTypes nowIso fn wb sheet,
     exportProject toLocaleDateString book_append_sheet writeFile
                   project allItems itemTypes nowIso =
       Written fn wb →
     sheet ∈ tail wb →
     ∃ cols, sheet_cols sheet = Some cols ∧ columns_fit sheet cols).
Proof.
  split.
  - intros items itemTypes selectedItems nowIso fn wb sheet Hw Hs.
    destruct (exportToExcel_sheet_origin _ _ _ _ _ _ _ _ _ _ Hw Hs)
      as (item & _ & _ & Hspec).
    by eapply spec_sheet_columns_fit.
  - intros project allItems itemTypes nowIso fn wb sheet Hw Hs.
    destruct (exportProject_sheet_origin _ _ _ _ _ _ _ _ _ _ Hw Hs)
      as (item & _ & Hspec).
    by eapply spec_sheet_columns_fit.
Qed.

End ColumnWidths.

(** ** No record is lost or repeated by the export *)

Lemma insert_index_perm {V : Type} n (e : string * V) l :
  insert_index n e l ≡ₚ (n, e) :: l.
Proof.
  induction l as [|[m e'] l IH]; simpl; [done|].
  destruct (n <? m)%N; [done|].
  rewrite IH. apply perm_swap.
Qed.

Lemma filter_partition_perm {A : Type} (f : A → bool) (l : list A) :
  List.filter f l ++ List.filter (fun x => negb (f x)) l ≡ₚ l.
Proof.
  induction l as [|x l IH]; simpl; [done|].
  destruct (f x); simpl.
  - by rewrite IH.
  - rewrite <- Permutation_middle. by rewrite IH.
Qed.

Lemma index_entries_perm {V : Type} (own : list (string * V)) :
  (index_entries own).*2 ≡ₚ
  List.filter (fun e => bool_decide (is_Some (array_index e.1))) own.
Proof.
  induction own as [|e own IH]; simpl; [done|].
  destruct (array_index e.1) as [n|] eqn:Hn.
  - rewrite bool_decide_eq_true_2 by eauto.
    rewrite insert_index_perm. simpl. by rewrite IH.
  - rewrite bool_decide_eq_false_2; [done|]. by intros [? ?].
Qed.

(** [Object.entries] enumerates every own property once. *)
Lemma js_entries_perm {V : Type} (own : list (string * V)) :
  js_entries own ≡ₚ own.
Proof.
  unfold js_entries. rewrite index_entries_perm.
  apply filter_partition_perm.
Qed.

Lemma filter_all_true_in {A : Type} (f : A → bool) (l : list A) :
  (∀ x, x ∈ l → f x = true) → List.filter f l = l.
Proof.
  induction l as [|x l IH]; intros Hf; simpl; [done|].
  rewrite Hf by apply list_elem_of_here. f_equal.
  apply IH. intros y Hy. apply Hf, elem_of_cons. by right.
Qed.

Lemma flat_map_split_key (g : string → list ItemInstance) (k : string)
    (names : list string) :
  NoDup names → (k ∉ names → g k = []) →
  flat_map g names ≡ₚ
  g k ++ flat_map g (List.filter (fun m => negb (String.eqb m k)) names).
Proof.
  induction 1 as [|m names Hm Hnames IH]; intros Habsent; simpl.
  - rewrite Habsent; [done|]. apply not_elem_of_nil.
  - destruct (String.eqb m k) eqn:Hmk; simpl.
    + apply String.eqb_eq in Hmk as ->.
      rewrite (filter_all_true_in _ names); [done|].
      intros n Hn. apply negb_true_iff, String.eqb_neq. by intros ->.
    + apply String.eqb_neq in Hmk.
      rewrite IH.
      * by rewrite !app_assoc, (Permutation_app_comm (g m) (g k)).
      * intros Hk. apply Habsent. rewrite not_elem_of_cons. by split.
Qed.

Lemma flat_map_ext_elem {A B : Type} (f g : A → list B) (l : list A) :
  (∀ x, x ∈ l → f x = g x) → flat_map f l = flat_map g l.
Proof.
  induction l as [|x l IH]; intros Hfg; simpl; [done|].
  rewrite Hfg by apply list_elem_of_here. f_equal.
  apply IH. intros y Hy. apply Hfg, elem_of_cons. by right.
Qed.

(** The groups of the specification hold every record once. *)
Lemma groups_hold_every_record items :
  flat_map (fun n => groupOf n items)
           (firstSeen (List.map item_typeName items)) ≡ₚ items.
Proof.
  induction items as [|x items IH]; simpl; [done|].
  rewrite String.eqb_refl. simpl. constructor.
  set (k := item_typeName x).
  set (names := firstSeen (List.map item_typeName items)).
  rewrite <- IH at 2. fold names.
  rewrite (flat_map_split_key (fun n => groupOf n items) k names).
  - apply Permutation_app_head.
    erewrite flat_map_ext_elem; [reflexivity|].
    intros n Hn. apply elem_of_filter_bool in Hn as [_ Hn].
    apply negb_true_iff in Hn. rewrite String.eqb_sym in Hn.
    by rewrite Hn.
  - apply firstSeen_NoDup.
  - intros Hk. apply groupOf_absent. by rewrite <- firstSeen_elem_of.
Qed.

Section NoRecordLost.

Variable toLocaleDateString : string → string.
Variable book_append_sheet : list Sheet → Sheet → bool.
Variable writeFile : list Sheet → string → bool.

Lemma dataRows_flat_map {A : Type} (h : A → list Sheet) (l : list A) :
  dataRows (flat_map h l) = flat_map (fun x => dataRows (h x)) l.
Proof.
  unfold dataRows. induction l as [|x l IH]; simpl; [done|].
  by rewrite flat_map_app, IH.
Qed.

Lemma omap_flat_map {A B : Type} (h : A → option B) (l : list A) :
  omap h l = flat_map (fun x => option_list (h x)) l.
Proof.
  induction l as [|x l IH]; [done|].
  cbn [omap list_omap flat_map]. rewrite <- IH. by destruct (h x).
Qed.

Lemma dataRows_group itemTypes items n :
  dataRows (option_list (typeSheet toLocaleDateString itemTypes
                                   (n, groupOf n items))) =
  flat_map (rowsOwed toLocaleDateString itemTypes) (groupOf n items).
Proof.
  unfold typeSheet, dataRows.
  assert (∀ item, item ∈ groupOf n items → item_typeName item = n) as Hn.
  { intros item Hitem. by apply groupOf_spec in Hitem as [_ ?]. }
  revert Hn. generalize (groupOf n items) as group. intros group Hn.
  destruct (List.find _ itemTypes) as [itemType|] eqn:Hfind; simpl.
  - rewrite app_nil_r.
    induction group as [|item group IH]; simpl; [done|].
    unfold rowsOwed at 1.
    rewrite (Hn item) by apply list_elem_of_here. rewrite Hfind. simpl.
    f_equal. apply IH. intros y Hy. apply Hn, elem_of_cons. by right.
  - induction group as [|item group IH]; simpl; [done|].
    unfold rowsOwed at 1.
    rewrite (Hn item) by apply list_elem_of_here. rewrite Hfind. simpl.
    apply IH. intros y Hy. apply Hn, elem_of_cons. by right.
Qed.

Lemma type_sheets_hold_every_row itemTypes items groups :
  groupedByType items = Some groups →
  dataRows (omap (typeSheet toLocaleDateString itemTypes)
                 (js_entries groups)) ≡ₚ
  flat_map (rowsOwed toLocaleDateString itemTypes) items.
Proof.
  intros Hgroups. apply groupedByType_spec in Hgroups as [_ ->].
  rewrite omap_flat_map, dataRows_flat_map, js_entries_perm.
  rewrite <- (groups_hold_every_record items) at 2.
  unfold spec_groups.
  match goal with |- ?a ≡ₚ ?b => assert (a = b) as ->; [|done] end.
  induction (firstSeen (List.map item_typeName items)) as [|n names IH];
    [done|].
  cbn [List.map flat_map].
  by rewrite dataRows_group, flat_map_app, IH.
Qed.

(** X3.  Whenever the export writes a document, its data rows are, up to
    their order, one row for each exported record whose type name a
    registered item type bears, and none for the others: no such record
    is left out and none is written twice. *)
Theorem export_loses_no_record :
  (∀ items itemTypes (selectedItems : gset string) nowIso fn wb,
     exportToExcel toLocaleDateString book_append_sheet writeFile
                   items itemTypes selectedItems nowIso =
       Written fn wb →
     dataRows wb ≡ₚ
     flat_map (rowsOwed toLocaleDateString itemTypes)
       (List.filter (fun item => bool_decide (item_id item ∈ selectedItems))
                    items)) ∧
  (∀ project allItems itemTypes nowIso fn wb,
     exportProject toLocaleDateString book_append_sheet writeFile
                   project allItems itemTypes nowIso =
       Written fn wb →
     dataRows (tail wb) ≡ₚ
     flat_map (rowsOwed toLocaleDateString itemTypes)
              (projectItems project allItems)).
Proof.
  split.
  - intros items itemTypes selectedItems nowIso fn wb
      (_ & groups & Hgroups & _ & ->)%exportToExcel_Written.
    by apply type_sheets_hold_every_row.
  - intros project allItems itemTypes nowIso fn wb
      (_ & groups & Hgroups & _ & ->)%exportProject_Written.
    simpl. by apply type_sheets_hold_every_row.
Qed.

Lemma groupedByType_throws items :
  groupedByType items = None ↔
  ∃ item, item ∈ items ∧ item_typeName item ∈ object_prototype_keys.
Proof.
  split.
  - intros Hg.
    destruct (decide (Exists (fun item =>
      item_typeName item ∈ object_prototype_keys) items)) as [He|He].
    + by apply Exists_exists in He.
    + exfalso.
      assert (groupedByType items = Some (spec_groups items)) as Hs.
      { apply groupedByType_spec. split; [|done]. intros item Hin Hp.
        apply He, Exists_exists. by exists item. }
      congruence.
  - intros (item & Hin & Hp).
    destruct (groupedByType items) as [groups|] eqn:Hg; [|done].
    apply groupedByType_spec in Hg as [Hall _]. by destruct (Hall item).
Qed.

Lemma accepted_in_turn_always workbook sheets :
  accepted_in_turn (fun _ _ => true) workbook sheets = true.
Proof.
  revert workbook. induction sheets as [|sheet sheets IH]; intros workbook;
    [done|]. simpl. apply IH.
Qed.

Lemma outcome_of_sheets_always sheets filename :
  outcome_of_sheets (fun _ _ => true) (fun _ _ => true) sheets filename =
  Written filename sheets.
Proof. unfold outcome_of_sheets. by rewrite accepted_in_turn_always. Qed.

(** X4.  Whatever the xlsx library does, the item export throws when
    something is selected and some selected record has a type name that
    plain objects inherit from [Object.prototype] (the grouping step
    then calls [push] on the inherited value); likewise the project
    export for the resolved members of the project.  Leaving the library
    aside, that is with a library that accepts whatever it is handed,
    the exports throw in these cases only. *)
Theorem export_throws_on_inherited_type_name :
  (∀ items itemTypes (selectedItems : gset string) nowIso,
     (size selectedItems ≠ 0 ∧
      ∃ item, item ∈ items ∧ item_id item ∈ selectedItems ∧
              item_typeName item ∈ object_prototype_keys) →
     exportToExcel toLocaleDateString book_append_sheet writeFile
                   items itemTypes selectedItems nowIso = Thrown) ∧
  (∀ items itemTypes (selectedItems : gset string) nowIso,
     exportToExcel toLocaleDateString (fun _ _ => true) (fun _ _ => true)
                   items itemTypes selectedItems nowIso =
       Thrown ↔
     size selectedItems ≠ 0 ∧
     ∃ item, item ∈ items ∧ item_id item ∈ selectedItems ∧
             item_typeName item ∈ object_prototype_keys) ∧
  (∀ project allItems itemTypes nowIso,
     (∃ item, item ∈ allItems ∧ item_id item ∈ project_itemIds project ∧
              item_typeName item ∈ object_prototype_keys) →
     exportProject toLocaleDateString book_append_sheet writeFile
                   project allItems itemTypes nowIso = Thrown) ∧
  (∀ project allItems itemTypes nowIso,
     exportProject toLocaleDateString (fun _ _ => true) (fun _ _ => true)
                   project allItems itemTypes nowIso =
       Thrown ↔
     ∃ item, item ∈ allItems ∧ item_id item ∈ project_itemIds project ∧
             item_typeName item ∈ object_prototype_keys).
Proof.
  assert (∀ bas wf items itemTypes (selectedItems : gset string) nowIso,
    (size selectedItems ≠ 0 ∧
     ∃ item, item ∈ items ∧ item_id item ∈ selectedItems ∧
             item_typeName item ∈ object_prototype_keys) →
    exportToExcel toLocaleDateString bas wf
                  items itemTypes selectedItems nowIso = Thrown) as Hlist.
  { intros bas wf items itemTypes selectedItems nowIso
      [Hsize (item & Hin & Hsel & Hp)].
    unfold exportToExcel. rewrite bool_decide_eq_false_2 by done.
    assert (groupedByType (List.filter (fun item =>
              bool_decide (item_id item ∈ selectedItems)) items) = None)
      as ->; [|done].
    apply groupedByType_throws. exists item. split; [|done].
    apply elem_of_filter_bool. split; [done|].
    by apply bool_decide_eq_true. }
  assert (∀ bas wf project allItems itemTypes nowIso,
    (∃ item, item ∈ allItems ∧ item_id item ∈ project_itemIds project ∧
             item_typeName item ∈ object_prototype_keys) →
    exportProject toLocaleDateString bas wf
                  project allItems itemTypes nowIso = Thrown) as Hproject.
  { intros bas wf project allItems itemTypes nowIso
      (item & Hin & Hmem & Hp).
    assert (item ∈ projectItems project allItems) as Hitem.
    { apply elem_of_filter_bool. split; [done|].
      by apply bool_decide_eq_true. }
    unfold exportProject. rewrite bool_decide_eq_false_2.
    2: { destruct (projectItems project allItems); [|done].
         by apply elem_of_nil in Hitem. }
    assert (groupedByType (projectItems project allItems) = None)
      as ->; [|done].
    apply groupedByType_throws. by exists item. }
  split_and!.
  - apply Hlist.
  - intros items itemTypes selectedItems nowIso. split; [|apply Hlist].
    intros Hthrown.
    destruct (decide (size selectedItems = 0)) as [Hsize|Hsize].
    { unfold exportToExcel in Hthrown.
      by rewrite bool_decide_eq_true_2 in Hthrown. }
    split; [done|].
    destruct (groupedByType (List.filter (fun item =>
                bool_decide (item_id item ∈ selectedItems)) items))
      as [groups|] eqn:Hg.
    + rewrite (exportToExcel_grouped _ _ _ _ _ _ _ _ Hsize Hg) in Hthrown.
      by rewrite outcome_of_sheets_always in Hthrown.
    + apply groupedByType_throws in Hg as (item & Hin & Hp).
      apply elem_of_filter_bool in Hin as [Hin Hsel].
      apply bool_decide_eq_true in Hsel. by exists item.
  - apply Hproject.
  - intros project allItems itemTypes nowIso. split; [|apply Hproject].
    intros Hthrown.
    destruct (decide (projectItems project allItems = [])) as [Hnil|Hne].
    { unfold exportProject in Hthrown. by rewrite Hnil in Hthrown. }
    destruct (groupedByType (projectItems project allItems))
      as [groups|] eqn:Hg.
    + rewrite (exportProject_grouped _ _ _ _ _ _ _ _ Hne Hg) in Hthrown.
      by rewrite outcome_of_sheets_always in Hthrown.
    + apply groupedByType_throws in Hg as (item & Hin & Hp).
      apply elem_of_filter_bool in Hin as [Hin Hmem].
      apply bool_decide_eq_true in Hmem. by exists item.
Qed.

End NoRecordLost.

(** ** Members shown, members counted *)

Lemma NoDup_fmap_filter_bool {A B : Type} (f : A → B) (p : A → bool)
    (l : list A) :
  NoDup (f <$> l) → NoDup (f <$> List.filter p l).
Proof.
  induction l as [|x l IH]; simpl; [done|].
  rewrite NoDup_cons. intros [Hx Hl].
  destruct (p x); simpl; [|by apply IH].
  apply NoDup_cons. split; [|by apply IH].
  intros Hin. apply Hx.
  apply list_elem_of_fmap in Hin as (y & Hy & Hin).
  apply elem_of_filter_bool in Hin as [Hin _].
  apply list_elem_of_fmap. by exists y.
Qed.

Lemma filter_partition_length {A : Type} (f : A → bool) (l : list A) :
  length (List.filter f l) + length (List.filter (fun x => negb (f x)) l) =
  length l.
Proof.
  rewrite <- length_app. apply Permutation_length, filter_partition_perm.
Qed.

(** The resolved members of a project are, up to order, the ids of the
    project that some item bears. *)
Lemma projectItems_ids project allItems :
  NoDup (item_id <$> allItems) →
  NoDup (project_itemIds project) →
  item_id <$> projectItems project allItems ≡ₚ
  List.filter (fun id => bool_decide (id ∈ item_id <$> allItems))
              (project_itemIds project).
Proof.
  intros Hitems Hids. apply NoDup_Permutation.
  - by apply NoDup_fmap_filter_bool.
  - by apply NoDup_filter_bool.
  - intros id. rewrite elem_of_filter_bool, bool_decide_eq_true.
    rewrite !list_elem_of_fmap. split.
    + intros (item & -> & Hin).
      apply elem_of_filter_bool in Hin as [Hin Hmem].
      apply bool_decide_eq_true in Hmem. split; [done|]. by exists item.
    + intros [Hmem (item & -> & Hin)]. exists item. split; [done|].
      apply elem_of_filter_bool. split; [done|].
      by apply bool_decide_eq_true.
Qed.

Section TotalItems.

Variable toLocaleDateString : string → string.
Variable book_append_sheet : list Sheet → Sheet → bool.
Variable writeFile : list Sheet → string → bool.

(** X6.  When items have distinct ids and the project lists no id
    twice, a project export opens with the "Project Info" sheet, whose
    last row reports as "Total Items" the number of resolved members;
    that number plus the number of dangling ids of the project is the
    item count that the project list shows. *)
Theorem total_items_counts_resolved_members
    project allItems itemTypes nowIso fn wb :
  NoDup (item_id <$> allItems) →
  NoDup (project_itemIds project) →
  exportProject toLocaleDateString book_append_sheet writeFile
                project allItems itemTypes nowIso =
    Written fn wb →
  ∃ info sheets resolved,
    wb = info :: sheets ∧
    sheet_name info = "Project Info" ∧
    last (sheet_data info) =
      Some [JStr "Total Items"; JNum (Z.of_nat resolved)] ∧
    resolved = length (projectItems project allItems) ∧
    resolved +
    length (List.filter
              (fun id => negb (bool_decide (id ∈ item_id <$> allItems)))
              (project_itemIds project)) =
    ProjectList.getProjectItemCount project.
Proof.
  intros Hitems Hids (_ & groups & _ & _ & ->)%exportProject_Written.
  eexists _, _, _. split_and!; [reflexivity..|].
  unfold ProjectList.getProjectItemCount.
  rewrite <- (filter_partition_length
    (fun id => bool_decide (id ∈ item_id <$> allItems))
    (project_itemIds project)).
  f_equal.
  rewrite <- (Permutation_length (projectItems_ids _ _ Hitems Hids)).
  by rewrite length_fmap.
Qed.

End TotalItems.

(** ** Project membership keeps projects well formed *)

Lemma dialog_toggle_NoDup selectedItems itemId :
  NoDup selectedItems →
  NoDup (AddItemsDialog.toggleItemSelection selectedItems itemId).
Proof.
  intros Hs. unfold AddItemsDialog.toggleItemSelection,
    AddItemsDialog.set_add, AddItemsDialog.set_delete,
    AddItemsDialog.set_has.
  case_bool_decide as Hin.
  - by apply NoDup_filter_bool.
  - apply NoDup_app. split_and!; [done| |apply NoDup_singleton].
    intros x Hx Hx'. apply list_elem_of_singleton in Hx' as ->. done.
Qed.

Lemma dialog_toggle_elem_of selectedItems itemId x :
  x ∈ AddItemsDialog.toggleItemSelection selectedItems itemId →
  x ∈ selectedItems ∨ x = itemId.
Proof.
  unfold AddItemsDialog.toggleItemSelection, AddItemsDialog.set_add,
    AddItemsDialog.set_delete, AddItemsDialog.set_has.
  case_bool_decide as Hin.
  - rewrite elem_of_filter_bool. intros [? _]. by left.
  - rewrite elem_of_app, list_elem_of_singleton. tauto.
Qed.

(** Whatever is clicked in the add dialog, its selection holds each id
    once, and only ids that were clicked. *)
Lemma dialog_selection_inv clicks :
  NoDup (foldl AddItemsDialog.toggleItemSelection [] clicks) ∧
  ∀ id, id ∈ foldl AddItemsDialog.toggleItemSelection [] clicks →
        id ∈ clicks.
Proof.
  assert (∀ sel, NoDup sel →
    NoDup (foldl AddItemsDialog.toggleItemSelection sel clicks) ∧
    ∀ id, id ∈ foldl AddItemsDialog.toggleItemSelection sel clicks →
          id ∈ sel ∨ id ∈ clicks) as Hgen.
  { induction clicks as [|c clicks IH]; intros sel Hsel; simpl.
    - split; [done|]. by left.
    - destruct (IH _ (dialog_toggle_NoDup sel c Hsel)) as [Hnd Hin].
      split; [done|]. intros id Hid.
      destruct (Hin id Hid) as [Hid'|Hid'].
      + apply dialog_toggle_elem_of in Hid' as [? | ->]; [by left|].
        right. apply list_elem_of_here.
      + right. by apply list_elem_of_further. }
  destruct (Hgen [] (NoDup_nil_2)) as [Hnd Hin]. split; [done|].
  intros id Hid. destruct (Hin id Hid) as [Hnil|?]; [|done].
  by apply elem_of_nil in Hnil.
Qed.

Lemma addItemsToProject_wf items project itemIds nowIso :
  project_wf items project →
  NoDup itemIds →
  (∀ id, id ∈ itemIds →
         ∃ item, item ∈ availableItems project items ∧ item_id item = id) →
  project_wf items (addItemsToProject project itemIds nowIso).
Proof.
  intros [Hnd Hres] Hids Havail. split; simpl.
  - apply NoDup_app. split_and!; [done| |done].
    intros id Hin Hin'. apply Havail in Hin' as (item & Hitem & <-).
    by apply availableItems_spec in Hitem as [_ Hnot].
  - intros id Hid. apply elem_of_app in Hid as [Hid|Hid]; [by apply Hres|].
    apply Havail in Hid as (item & Hitem & <-).
    apply availableItems_spec in Hitem as [Hitem _]. by exists item.
Qed.

Lemma removeSelectedItems_wf items project selectedItems confirmed nowIso
    project' :
  removeSelectedItems project selectedItems confirmed nowIso =
    Some project' →
  project_wf items project → project_wf items project'.
Proof.
  unfold removeSelectedItems. case_bool_decide; [done|].
  destruct confirmed; [|done]. intros [= <-] [Hnd Hres]. split; simpl.
  - by apply NoDup_filter_bool.
  - intros id Hid. apply elem_of_filter_bool in Hid as [Hid _].
    by apply Hres.
Qed.

Lemma handleDeleteItems_lookup items projects itemIds clock project' :
  project' ∈ (handleDeleteItems items projects itemIds clock).2 →
  ∃ project, project ∈ projects ∧
    project_itemIds project' =
      List.filter (fun id => negb (bool_decide (id ∈ itemIds)))
                  (project_itemIds project).
Proof.
  unfold handleDeleteItems; simpl. intros Hin.
  apply list_elem_of_lookup in Hin as [i Hi].
  rewrite list_lookup_imap in Hi.
  destruct (projects !! i) as [project|] eqn:Hp; simpl in Hi; [|done].
  injection Hi as <-. exists project. split; [|done].
  by eapply list_elem_of_lookup_2.
Qed.

Lemma handleDeleteItems_wf items projects itemIds clock :
  Forall (project_wf items) projects →
  Forall (project_wf (handleDeleteItems items projects itemIds clock).1)
         (handleDeleteItems items projects itemIds clock).2.
Proof.
  intros Hall. apply Forall_forall. intros project' Hin.
  apply handleDeleteItems_lookup in Hin as (project & Hp & Hids).
  eapply Forall_forall in Hall; [|exact Hp]. destruct Hall as [Hnd Hres].
  split; rewrite Hids.
  - by apply NoDup_filter_bool.
  - intros id Hid. apply elem_of_filter_bool in Hid as [Hid Hkeep].
    destruct (Hres id Hid) as (item & Hitem & <-).
    exists item. split; [|done]. simpl.
    apply elem_of_filter_bool. by split.
Qed.

Lemma handleUpdateProject_Forall (P : Project → Prop) projects updated :
  Forall P projects → P updated →
  Forall P (handleUpdateProject projects updated).
Proof.
  intros Hall Hup. unfold handleUpdateProject.
  apply Forall_forall. intros p Hp.
  apply list_elem_of_fmap in Hp as (q & -> & Hq).
  destruct (String.eqb _ _); [done|]. by eapply Forall_forall in Hall.
Qed.

Lemma project_wf_more_items items items' project :
  (∀ item, item ∈ items → item ∈ items') →
  project_wf items project → project_wf items' project.
Proof.
  intros Hsub [Hnd Hres]. split; [done|]. intros id Hid.
  destruct (Hres id Hid) as (item & Hitem & <-). exists item. auto.
Qed.

(** X7.  The deletion cascade leaves no trace of the deleted ids: no
    remaining item bears one, no project lists one, and projects that
    listed no id twice and no id without an item still do so with
    respect to the remaining items. *)
Theorem deletion_cascade_keeps_references_sound
    items projects itemIds clock :
  Forall (project_wf items) projects →
  (∀ item, item ∈ (handleDeleteItems items projects itemIds clock).1 →
           item ∈ items ∧ item_id item ∉ itemIds) ∧
  (∀ project' id,
     project' ∈ (handleDeleteItems items projects itemIds clock).2 →
     id ∈ project_itemIds project' → id ∉ itemIds) ∧
  Forall (project_wf (handleDeleteItems items projects itemIds clock).1)
         (handleDeleteItems items projects itemIds clock).2.
Proof.
  intros Hall. split_and!.
  - intros item Hin. simpl in Hin.
    apply elem_of_filter_bool in Hin as [Hin Hkeep].
    apply negb_true_iff, bool_decide_eq_false in Hkeep. done.
  - intros project' id Hp Hid.
    apply handleDeleteItems_lookup in Hp as (project & _ & Hids).
    rewrite Hids in Hid. apply elem_of_filter_bool in Hid as [_ Hkeep].
    by apply negb_true_iff, bool_decide_eq_false in Hkeep.
  - by apply handleDeleteItems_wf.
Qed.

(** X8.  However the user toggles available items in the add dialog,
    adding the selection keeps the project well formed: no id twice, no
    id without an item; the added ids are the selected ones, appended in
    the order of their selection, and the dialog's selection is emptied. *)
Theorem add_dialog_keeps_project_well_formed
    items project clicks nowIso :
  project_wf items project →
  (∀ id, id ∈ clicks →
         ∃ item, item ∈ availableItems project items ∧ item_id item = id) →
  project_wf items
    (AddItemsDialog.handleAddItems project
       (foldl AddItemsDialog.toggleItemSelection [] clicks) nowIso).1 ∧
  project_itemIds
    (AddItemsDialog.handleAddItems project
       (foldl AddItemsDialog.toggleItemSelection [] clicks) nowIso).1 =
    project_itemIds project ++
    foldl AddItemsDialog.toggleItemSelection [] clicks ∧
  (AddItemsDialog.handleAddItems project
     (foldl AddItemsDialog.toggleItemSelection [] clicks) nowIso).2 = [].
Proof.
  intros Hwf Hclicks. destruct (dialog_selection_inv clicks) as [Hnd Hin].
  split_and!; [|done..]. simpl.
  apply addItemsToProject_wf; [done..|].
  intros id Hid. by apply Hclicks, Hin.
Qed.

(** X9.  Removing from a project the very ids that were just added to
    it (ids the project did not list) gives back its former [itemIds]. *)
Theorem add_then_remove_restores_itemIds
    project itemIds nowIso nowIso' :
  itemIds ≠ [] →
  (∀ id, id ∈ itemIds → id ∉ project_itemIds project) →
  ∃ project',
    removeSelectedItems (addItemsToProject project itemIds nowIso)
                        (list_to_set itemIds) true nowIso' = Some project' ∧
    project_itemIds project' = project_itemIds project ∧
    project_updatedAt project' = nowIso'.
Proof.
  intros Hne Hfresh. unfold removeSelectedItems.
  rewrite bool_decide_eq_false_2.
  2: { destruct itemIds as [|id itemIds]; [done|].
       intros Hsize. apply size_empty_inv in Hsize.
       assert (id ∈ (list_to_set (id :: itemIds) : gset string)) as Hid.
       { apply elem_of_list_to_set, list_elem_of_here. }
       rewrite (leibniz_equiv _ _ Hsize) in Hid.
       by apply elem_of_empty in Hid. }
  eexists. split; [reflexivity|]. simpl. split; [|done].
  rewrite List.filter_app.
  rewrite (filter_all_true_in _ (project_itemIds project)).
  - assert (List.filter (fun id : string =>
      negb (bool_decide (id ∈ (list_to_set itemIds : gset string))))
      itemIds = []) as ->; [|by rewrite app_nil_r].
    assert (∀ l (X : gset string), (∀ x, x ∈ l → x ∈ X) →
      List.filter (fun id : string => negb (bool_decide (id ∈ X))) l = [])
      as Hgen.
    { induction l as [|x l IHl]; intros X HX; simpl; [done|].
      rewrite bool_decide_eq_true_2 by apply HX, list_elem_of_here.
      simpl. apply IHl. intros y Hy. apply HX, elem_of_cons. by right. }
    apply Hgen. intros x Hx. by apply elem_of_list_to_set.
  - intros id Hid. apply negb_true_iff, bool_decide_eq_false.
    rewrite elem_of_list_to_set. intros Hin. by apply (Hfresh id).
Qed.

(** ** Trimming *)

Lemma append_nil_r s : s +:+ "" = s.
Proof. induction s as [|c s IH]; [done|]. by rewrite append_cons_l, IH. Qed.

Lemma append_assoc s t u : (s +:+ t) +:+ u = s +:+ t +:+ u.
Proof.
  induction s as [|c s IH]; [done|]. by rewrite !append_cons_l, IH.
Qed.

Lemma length_append s t :
  String.length (s +:+ t) = String.length s + String.length t.
Proof.
  induction s as [|c s IH]; [done|].
  rewrite append_cons_l. simpl. by rewrite IH.
Qed.

Lemma rev_app_append s1 s2 t :
  String.rev_app s1 s2 +:+ t = String.rev_app s1 (s2 +:+ t).
Proof. revert s2. induction s1 as [|c s1 IH]; intros s2; simpl; [done|].
  by rewrite IH. Qed.

Lemma rev_cons c s : String.rev (String c s) = String.rev s +:+ String c "".
Proof. unfold String.rev. simpl. by rewrite rev_app_append. Qed.

Lemma rev_append s t : String.rev (s +:+ t) = String.rev t +:+ String.rev s.
Proof.
  induction s as [|c s IH].
  - by rewrite append_nil_l, append_nil_r.
  - by rewrite append_cons_l, !rev_cons, IH, append_assoc.
Qed.

Lemma rev_involutive s : String.rev (String.rev s) = s.
Proof.
  induction s as [|c s IH]; [done|].
  by rewrite rev_cons, rev_append, IH.
Qed.

Lemma trimStart_idemp s : trimStart (trimStart s) = trimStart s.
Proof.
  induction s as [|c s IH]; simpl; [done|].
  destruct (Ascii.is_space c) eqn:Hc; [done|]. simpl. by rewrite Hc.
Qed.

Lemma trimStart_suffix s : ∃ pre, s = pre +:+ trimStart s.
Proof.
  induction s as [|c s [pre IH]]; simpl; [by exists ""|].
  destruct (Ascii.is_space c); [|by exists ""].
  exists (String c pre). by rewrite append_cons_l, <- IH.
Qed.

Lemma trimEnd_prefix s : ∃ suf, s = trimEnd s +:+ suf.
Proof.
  unfold trimEnd. destruct (trimStart_suffix (String.rev s)) as [pre Hpre].
  exists (String.rev pre).
  by rewrite <- rev_append, <- Hpre, rev_involutive.
Qed.

Lemma trimEnd_idemp s : trimEnd (trimEnd s) = trimEnd s.
Proof. unfold trimEnd. by rewrite rev_involutive, trimStart_idemp. Qed.

Lemma trimStart_trimEnd s :
  trimStart s = s → trimStart (trimEnd s) = trimEnd s.
Proof.
  intros Hs. destruct (trimEnd_prefix s) as [suf Hsuf].
  destruct (trimEnd s) as [|c u] eqn:Hu; [done|].
  rewrite Hsuf, append_cons_l in Hs. simpl in *.
  destruct (Ascii.is_space c) eqn:Hc; [|done].
  exfalso. destruct (trimStart_suffix (u +:+ suf)) as [pre Hpre].
  assert (String.length (trimStart (u +:+ suf)) ≤ String.length (u +:+ suf))
    as Hlen.
  { rewrite Hpre at 2. rewrite length_append. lia. }
  rewrite Hs in Hlen. simpl in Hlen. lia.
Qed.

(** A trimmed text is not changed by trimming it again. *)
Lemma trim_idemp s : trim (trim s) = trim s.
Proof.
  unfold trim.
  rewrite (trimStart_trimEnd (trimStart s)) by apply trimStart_idemp.
  apply trimEnd_idemp.
Qed.

(** ** Project creation (ProjectCreator) *)

(** X10.  A project is created exactly when the name and the location
    are not blank (empty or white space only); the error record names
    the blank ones among the two and nothing else.  The created project
    has the trimmed name, description and location, already free of
    surrounding white space, and no item. *)
Theorem project_created_iff_name_and_location
    (formData : ProjectCreator.FormData) (nowMs : Z)
    (createdIso updatedIso : string) :
  (ProjectCreator.handleSave formData nowMs createdIso updatedIso = None ↔
   trim (ProjectCreator.name formData) = "" ∨
   trim (ProjectCreator.location formData) = "") ∧
  (∀ k, is_Some ((ProjectCreator.validateForm formData).1 !! k) ↔
        (k = "name" ∧ trim (ProjectCreator.name formData) = "") ∨
        (k = "location" ∧ trim (ProjectCreator.location formData) = "")) ∧
  (∀ project,
     ProjectCreator.handleSave formData nowMs createdIso updatedIso =
       Some project →
     project_name project = trim (ProjectCreator.name formData) ∧
     project_description project =
       trim (ProjectCreator.description formData) ∧
     project_location project = trim (ProjectCreator.location formData) ∧
     project_name project ≠ "" ∧ project_location project ≠ "" ∧
     trim (project_name project) = project_name project ∧
     trim (project_description project) = project_description project ∧
     trim (project_location project) = project_location project ∧
     project_itemIds project = [] ∧
     project_createdAt project = createdIso ∧
     project_updatedAt project = updatedIso).
Proof.
  assert ((ProjectCreator.validateForm formData).2 = true ↔
          trim (ProjectCreator.name formData) ≠ "" ∧
          trim (ProjectCreator.location formData) ≠ "") as Hok.
  { unfold ProjectCreator.validateForm. cbn [snd].
    rewrite bool_decide_eq_true, map_size_empty_iff.
    destruct (String.eqb (trim (ProjectCreator.name formData)) "") eqn:Hn;
      destruct (String.eqb (trim (ProjectCreator.location formData)) "")
        eqn:Hl;
      rewrite ?String.eqb_eq, ?String.eqb_neq in Hn;
      rewrite ?String.eqb_eq, ?String.eqb_neq in Hl.
    - split; [intros H; by apply insert_non_empty in H|by intros [? _]].
    - split; [intros H; by apply insert_non_empty in H|by intros [? _]].
    - split; [intros H; by apply insert_non_empty in H|by intros [_ ?]].
    - done. }
  split_and!.
  - unfold ProjectCreator.handleSave.
    destruct ((ProjectCreator.validateForm formData).2) eqn:Hv.
    + destruct (proj1 Hok eq_refl) as [? ?].
      split; [done|]. by intros [?|?].
    + split; [|done]. intros _.
      destruct (decide (trim (ProjectCreator.name formData) = ""));
        [by left|].
      destruct (decide (trim (ProjectCreator.location formData) = ""));
        [by right|].
      assert (false = true) as Ht by (by apply Hok).
      discriminate Ht.
  - intros k. unfold ProjectCreator.validateForm. cbn [fst].
    destruct (String.eqb (trim (ProjectCreator.name formData)) "") eqn:Hn;
      destruct (String.eqb (trim (ProjectCreator.location formData)) "")
        eqn:Hl;
      rewrite ?String.eqb_eq, ?String.eqb_neq in Hn;
      rewrite ?String.eqb_eq, ?String.eqb_neq in Hl;
      rewrite ?lookup_insert_is_Some', lookup_empty.
    + split.
      * intros [<-|[<-|[? ?]]]; [by right|by left|done].
      * intros [[-> _]|[-> _]]; auto.
    + split.
      * intros [<-|[? ?]]; [by left|done].
      * intros [[-> _]|[-> ?]]; [auto|done].
    + split.
      * intros [<-|[? ?]]; [by right|done].
      * intros [[-> ?]|[-> _]]; [done|auto].
    + split; [by intros [? ?]|]. by intros [[_ ?]|[_ ?]].
  - intros project. unfold ProjectCreator.handleSave.
    destruct ((ProjectCreator.validateForm formData).2) eqn:Hv; [|done].
    destruct (proj1 Hok eq_refl) as [? ?]. intros [= <-].
    cbn [project_name project_description project_location
         project_itemIds project_createdAt project_updatedAt].
    by rewrite !trim_idemp.
Qed.

(** ** Fields and types built by the type creator *)

Lemma creator_run_Forall (P : FieldDefinition → Prop) actions :
  (∀ st nowMs, Forall P (st_fields st) →
               Forall P (st_fields (addField st nowMs))) →
  Forall P (st_fields (creator_run actions)).
Proof.
  intros Hadd. unfold creator_run.
  assert (∀ st, Forall P (st_fields st) →
    Forall P (st_fields (foldl creator_step st actions))) as Hgen.
  { induction actions as [|a actions IH]; intros st Hst; simpl; [done|].
    apply IH. destruct a as [d|s|nowMs|id]; simpl; try done.
    - by apply Hadd.
    - apply Forall_forall. intros field Hin.
      apply elem_of_filter_bool in Hin as [Hin _].
      by eapply Forall_forall in Hst. }
  apply Hgen. apply Forall_nil_2.
Qed.

Lemma creator_run_names actions :
  Forall (fun field => field_name field ≠ "")
         (st_fields (creator_run actions)).
Proof.
  apply creator_run_Forall. intros st nowMs Hst. unfold addField.
  destruct (draft_name (st_currentField st)) as [[|c name]|]; try done.
  simpl. apply Forall_app. split; [done|]. by apply Forall_singleton.
Qed.

Lemma NoDup_fmap_eq {A B : Type} (f : A → B) (l : list A) x y :
  NoDup (f <$> l) → x ∈ l → y ∈ l → f x = f y → x = y.
Proof.
  induction l as [|z l IH]; simpl; intros Hnd Hx Hy Hf.
  - by apply elem_of_nil in Hx.
  - apply NoDup_cons in Hnd as [Hz Hnd].
    apply elem_of_cons in Hx as [->|Hx]; apply elem_of_cons in Hy as [->|Hy].
    + done.
    + exfalso. apply Hz. rewrite Hf. by apply list_elem_of_fmap_2.
    + exfalso. apply Hz. rewrite <- Hf. by apply list_elem_of_fmap_2.
    + by apply IH.
Qed.

Lemma creator_ids_gen actions st (seen : list Z) :
  NoDup (field_id <$> st_fields st) →
  (∀ field, field ∈ st_fields st →
     ∃ t, t ∈ seen ∧ field_id field = "field_" +:+ pretty t) →
  NoDup (add_times actions) →
  (∀ t, t ∈ seen → t ∉ add_times actions) →
  NoDup (field_id <$> st_fields (foldl creator_step st actions)).
Proof.
  revert st seen.
  induction actions as [|a actions IH]; intros st seen Hnd Hseen Ht Hfresh;
    simpl; [done|].
  destruct a as [d|s|nowMs|id]; simpl in *.
  - by apply (IH _ seen).
  - by apply (IH _ seen).
  - apply NoDup_cons in Ht as [Hnow Ht].
    apply (IH _ (nowMs :: seen)); [| |done|].
    + unfold addField.
      destruct (draft_name (st_currentField st)) as [[|c name]|]; try done.
      simpl. rewrite fmap_app. apply NoDup_app. split_and!; [done| |].
      * intros x Hx Hx'. simpl in Hx'.
        apply list_elem_of_singleton in Hx' as ->.
        apply list_elem_of_fmap in Hx as (field & Hid & Hfield).
        destruct (Hseen field Hfield) as (t & Htseen & Hidt).
        rewrite Hidt in Hid. apply (inj (String.app "field_")) in Hid.
        apply (inj pretty) in Hid as <-.
        apply (Hfresh nowMs Htseen), list_elem_of_here.
      * simpl. apply NoDup_singleton.
    + intros field Hfield. unfold addField in Hfield.
      assert (field ∈ st_fields st ∨
              field_id field = "field_" +:+ pretty nowMs) as [Hold|Hnew].
      { destruct (draft_name (st_currentField st)) as [[|c name]|];
          try (by left).
        simpl in Hfield. apply elem_of_app in Hfield as [?|Hfield];
          [by left|].
        apply list_elem_of_singleton in Hfield as ->. by right. }
      * destruct (Hseen field Hold) as (t & Htseen & Hidt).
        exists t. split; [by apply list_elem_of_further|done].
      * exists nowMs. split; [apply list_elem_of_here|done].
    + intros t Hin. apply elem_of_cons in Hin as [->|Hin]; [done|].
      intros Hin'. apply (Hfresh t Hin). by apply list_elem_of_further.
  - apply (IH _ seen); [|intros field Hfield|done..].
    + by apply NoDup_fmap_filter_bool.
    + apply elem_of_filter_bool in Hfield as [Hfield _]. by apply Hseen.
Qed.

(** X11.  When the "Add Field" presses happen at pairwise distinct
    clock readings, the fields of the type creator have pairwise
    distinct ids, whatever else the user does in between; removing a
    field by its id then removes that field and no other. *)
Theorem field_ids_distinct_when_added_at_distinct_times
    (actions : list CreatorAction) :
  NoDup (add_times actions) →
  NoDup (field_id <$> st_fields (creator_run actions)) ∧
  ∀ field, field ∈ st_fields (creator_run actions) →
    ∀ other,
      other ∈ st_fields (removeField (creator_run actions)
                                     (field_id field)) ↔
      other ∈ st_fields (creator_run actions) ∧ other ≠ field.
Proof.
  intros Ht.
  assert (NoDup (field_id <$> st_fields (creator_run actions))) as Hnd.
  { unfold creator_run. apply (creator_ids_gen actions _ []).
    - simpl. apply NoDup_nil_2.
    - intros field Hfield. by apply elem_of_nil in Hfield.
    - done.
    - intros t Hin. by apply elem_of_nil in Hin. }
  split; [done|]. intros field Hfield other. simpl.
  rewrite elem_of_filter_bool, negb_true_iff, String.eqb_neq. split.
  - intros [Hother Hid]. split; [done|]. by intros ->.
  - intros [Hother Hne]. split; [done|]. intros Hid. apply Hne.
    by apply (NoDup_fmap_eq field_id (st_fields (creator_run actions))).
Qed.

Lemma handleSave_type_wf typeName actions nowMs nowIso newType :
  ItemTypeCreator.handleSave typeName (st_fields (creator_run actions))
                             nowMs nowIso = Some newType →
  type_name newType = typeName ∧
  type_fields newType = st_fields (creator_run actions) ∧
  type_id newType = "type_" +:+ pretty nowMs ∧
  type_wf newType.
Proof.
  unfold ItemTypeCreator.handleSave.
  destruct (String.eqb typeName "") eqn:Hn; [done|].
  apply String.eqb_neq in Hn.
  case_bool_decide as Hlen; simpl; [done|].
  intros [= <-]. simpl. split_and!; try done.
  split_and!; simpl; [done| |].
  - intros Hnil. by rewrite Hnil in Hlen.
  - intros field Hfield. split.
    + pose proof (creator_run_names actions) as Hnames.
      by eapply Forall_forall in Hnames.
    + pose proof (creator_run_inv actions) as Hinv.
      by eapply Forall_forall in Hinv.
Qed.

(** X12.  Saving an item type is refused exactly when the type name is
    empty or no field has been added.  A saved type has that name, the
    fields of the creator in the order in which they were added, and is
    usable: named, with at least one field, every field named, options
    on select fields only. *)
Theorem saved_item_type_is_usable
    (typeName : string) (actions : list CreatorAction)
    (nowMs : Z) (nowIso : string) :
  (ItemTypeCreator.handleSave typeName (st_fields (creator_run actions))
                              nowMs nowIso = None ↔
   typeName = "" ∨ st_fields (creator_run actions) = []) ∧
  (∀ newType,
     ItemTypeCreator.handleSave typeName (st_fields (creator_run actions))
                                nowMs nowIso = Some newType →
     type_name newType = typeName ∧
     type_fields newType = st_fields (creator_run actions) ∧
     type_id newType = "type_" +:+ pretty nowMs ∧
     type_wf newType).
Proof.
  unfold ItemTypeCreator.handleSave.
  destruct (String.eqb typeName "") eqn:Hn.
  { apply String.eqb_eq in Hn. split; [split; auto|done]. }
  apply String.eqb_neq in Hn.
  case_bool_decide as Hlen; simpl.
  { split; [|done]. split; [|done]. intros _. right.
    by destruct (st_fields (creator_run actions)). }
  split.
  - split; [done|]. intros [?|Hnil]; [done|]. by rewrite Hnil in Hlen.
  - intros newType Hsave.
    apply (handleSave_type_wf typeName actions nowMs nowIso).
    unfold ItemTypeCreator.handleSave.
    rewrite (proj2 (String.eqb_neq _ _) Hn).
    by rewrite bool_decide_eq_false_2.
Qed.

(** ** Invariants of the application state (Index) *)

Lemma selectedItemType_app itemTypes newType typeId itemType :
  selectedItemType itemTypes typeId = Some itemType →
  selectedItemType (itemTypes ++ [newType]) typeId = Some itemType.
Proof.
  unfold selectedItemType.
  induction itemTypes as [|t itemTypes IH]; simpl; [done|].
  destruct (String.eqb (type_id t) typeId); [done|apply IH].
Qed.

Lemma item_conforms_more_types itemTypes newType item :
  item_conforms itemTypes item →
  item_conforms (itemTypes ++ [newType]) item.
Proof.
  intros (itemType & Hfind & Hname & Hreq). exists itemType.
  split_and!; [by apply selectedItemType_app|done..].
Qed.

(** What [createItem] appends conforms to the registry. *)
Lemma createItem_conforms itemTypes items selectedTypeId formData nowMs
    nowIso items' :
  createItem itemTypes items selectedTypeId formData nowMs nowIso =
    Some items' →
  ∃ newItem, items' = items ++ [newItem] ∧
    item_typeId newItem = selectedTypeId ∧
    item_data newItem = formData ∧
    item_conforms itemTypes newItem.
Proof.
  unfold createItem.
  destruct (selectedItemType itemTypes selectedTypeId) as [itemType|]
    eqn:Hfind; [|done].
  destruct (handleSave itemType formData nowMs nowIso) as [newItem|]
    eqn:Hsave; [|done].
  intros [= <-]. exists newItem.
  unfold handleSave in Hsave.
  destruct ((validateForm itemType formData).2) eqn:Hok; [|done].
  injection Hsave as <-. simpl.
  assert (type_id itemType = selectedTypeId) as Hid.
  { unfold selectedItemType in Hfind. apply find_some in Hfind as [_ Hid].
    by apply String.eqb_eq in Hid. }
  split_and!; [done..|].
  exists itemType. simpl. split_and!; [by rewrite Hid|done|].
  intros field Hfield Hreq.
  destruct (ToBoolean (js_get formData (field_id field))) eqn:Hv; [done|].
  assert ((validateForm itemType formData).2 = false) as Hno; [|congruence].
  apply validateForm_ok. exists field. split; [done|].
  by apply field_violation_falsy.
Qed.

Lemma projectCreator_handleSave_itemIds formData nowMs createdIso updatedIso
    project :
  ProjectCreator.handleSave formData nowMs createdIso updatedIso =
    Some project →
  project_itemIds project = [].
Proof.
  unfold ProjectCreator.handleSave.
  destruct ((ProjectCreator.validateForm formData).2); [|done].
  by intros [= <-].
Qed.

Lemma app_step_wf st st' : app_wf st → app_step st st' → app_wf st'.
Proof.
  intros (Hprojects & Hitems & Htypes) Hstep.
  destruct Hstep as
    [ st actions typeName nowMs nowIso newType Hsave
    | st selectedTypeId formData nowMs nowIso items' Hcreate
    | st selectedItems clock items' projects' selection' Hdelete
    | st formData nowMs createdIso updatedIso newProject Hsave
    | st projectId
    | st project clicks nowIso Hproject Hclicks
    | st project selectedItems nowIso project' Hproject Hremove ];
    unfold app_wf; simpl.
  - split_and!; [done| |].
    + eapply Forall_impl; [exact Hitems|].
      intros item. apply item_conforms_more_types.
    + apply Forall_app. split; [done|]. apply Forall_singleton.
      by apply handleSave_type_wf in Hsave as (_ & _ & _ & ?).
  - apply createItem_conforms in Hcreate
      as (newItem & -> & _ & _ & Hconf).
    split_and!; [|by apply Forall_app; split; [|apply Forall_singleton]
                 |done].
    eapply Forall_impl; [exact Hprojects|].
    intros p. apply project_wf_more_items.
    intros item Hin. apply elem_of_app. by left.
  - unfold handleDeleteSelected in Hdelete.
    case_bool_decide; [done|].
    remember (handleDeleteItems (app_items st) (app_projects st)
                (elements selectedItems) clock) as r eqn:Hr.
    destruct r as [items0 projects0]. injection Hdelete as <- <- _.
    change items0 with (items0, projects0).1.
    change projects0 with (items0, projects0).2 at 2.
    rewrite Hr. clear Hr.
    split_and!; [by apply handleDeleteItems_wf| |done].
    apply Forall_forall. intros item Hin. simpl in Hin.
    apply elem_of_filter_bool in Hin as [Hin _].
    by eapply Forall_forall in Hitems.
  - split_and!; [|done..].
    apply Forall_app. split; [done|]. apply Forall_singleton.
    apply projectCreator_handleSave_itemIds in Hsave.
    split; rewrite Hsave; [apply NoDup_nil_2|].
    intros id Hid. by apply elem_of_nil in Hid.
  - split_and!; [|done..].
    apply Forall_forall. intros p Hp.
    apply elem_of_filter_bool in Hp as [Hp _].
    by eapply Forall_forall in Hprojects.
  - split_and!; [|done..].
    apply handleUpdateProject_Forall; [done|].
    destruct (dialog_selection_inv clicks) as [Hnd Hin].
    apply addItemsToProject_wf; [|done|].
    + by eapply Forall_forall in Hprojects.
    + intros id Hid. by apply Hclicks, Hin.
  - split_and!; [|done..].
    apply handleUpdateProject_Forall; [done|].
    eapply removeSelectedItems_wf; [exact Hremove|].
    by eapply Forall_forall in Hprojects.
Qed.

Lemma reachable_wf st : reachable st → app_wf st.
Proof.
  unfold reachable. intros Hrtc.
  assert (app_wf initialApp) as Hinit.
  { unfold app_wf. simpl. split_and!; apply Forall_nil_2. }
  induction Hrtc as [x|x y z Hstep _ IH]; [done|].
  apply IH. by eapply app_step_wf.
Qed.

(** X13.  In every state the application can reach, every project lists
    each item id once and only ids of existing items: the add dialog,
    the removal from a project and the deletion cascade together leave
    no duplicate and no dangling reference. *)
Theorem reachable_projects_reference_existing_items (st : AppState) :
  reachable st →
  ∀ project, project ∈ app_projects st →
    NoDup (project_itemIds project) ∧
    ∀ id, id ∈ project_itemIds project →
          ∃ item, item ∈ app_items st ∧ item_id item = id.
Proof.
  intros Hreach project Hproject.
  destruct (reachable_wf st Hreach) as (Hprojects & _ & _).
  by eapply Forall_forall in Hprojects.
Qed.

(** X14.  In every reachable state, every item was created against a
    registered type: the type found under its [typeId] bears the item's
    [typeName], and every required field of that type has a truthy value
    in the item's data. *)
Theorem reachable_items_conform_to_their_type (st : AppState) :
  reachable st →
  ∀ item, item ∈ app_items st →
    ∃ itemType,
      selectedItemType (app_itemTypes st) (item_typeId item) =
        Some itemType ∧
      itemType ∈ app_itemTypes st ∧
      item_typeName item = type_name itemType ∧
      ∀ field, field ∈ type_fields itemType →
        field_required field = true →
        ToBoolean (js_get (item_data item) (field_id field)) = true.
Proof.
  intros Hreach item Hitem.
  destruct (reachable_wf st Hreach) as (_ & Hitems & _).
  eapply Forall_forall in Hitems; [|exact Hitem].
  destruct Hitems as (itemType & Hfind & Hname & Hreq).
  exists itemType. split_and!; [done| |done..].
  unfold selectedItemType in Hfind. apply find_some in Hfind as [Hin _].
  by apply list_elem_of_In.
Qed.

(** X15.  In every reachable state, every registered item type has a
    non-empty name and at least one field, every field has a non-empty
    name, and only select fields carry options. *)
Theorem reachable_types_are_usable (st : AppState) :
  reachable st →
  ∀ itemType, itemType ∈ app_itemTypes st →
    type_name itemType ≠ "" ∧
    type_fields itemType ≠ [] ∧
    ∀ field, field ∈ type_fields itemType →
      field_name field ≠ "" ∧
      (field_type field ≠ select → field_options field = None).
Proof.
  intros Hreach itemType Htype.
  destruct (reachable_wf st Hreach) as (_ & _ & Htypes).
  eapply Forall_forall in Htypes; [|exact Htype].
  destruct Htypes as (Hname & Hfields & Hall).
  split_and!; [done..|]. intros field Hfield.
  destruct (Hall field Hfield) as [Hfname Hinv]. split; [done|].
  intros Hkind. destruct (field_options field) as [opts|] eqn:Ho; [|done].
  by destruct (Hinv opts Ho) as [Hsel _].
Qed.

Section ReachableExport.

Variable toLocaleDateString : string → string.
Variable book_append_sheet : list Sheet → Sheet → bool.
Variable writeFile : list Sheet → string → bool.

Lemma conforming_item_owed_one_row itemTypes item :
  item_conforms itemTypes item →
  length (rowsOwed toLocaleDateString itemTypes item) = 1.
Proof.
  intros (itemType & Hfind & Hname & _). unfold rowsOwed.
  destruct (List.find _ itemTypes) as [t|] eqn:Hbyname; [done|].
  exfalso. unfold selectedItemType in Hfind.
  apply find_some in Hfind as [Hin _].
  eapply find_none in Hbyname; [|exact Hin]. simpl in Hbyname.
  rewrite Hname, String.eqb_refl in Hbyname. done.
Qed.

Lemma flat_map_length_singletons {A B : Type} (f : A → list B) (l : list A) :
  (∀ x, x ∈ l → length (f x) = 1) → length (flat_map f l) = length l.
Proof.
  induction l as [|x l IH]; intros Hf; simpl; [done|].
  rewrite length_app, (Hf x) by apply list_elem_of_here.
  rewrite IH; [done|]. intros y Hy. apply Hf, elem_of_cons. by right.
Qed.

(** X16.  In every reachable state an export that writes a document
    skips no record: the item export has exactly one data row per
    selected item, the project export one per resolved member. *)
Theorem reachable_export_has_a_row_per_record (st : AppState) :
  reachable st →
  (∀ (selectedItems : gset string) nowIso fn wb,
     exportToExcel toLocaleDateString book_append_sheet writeFile
                   (app_items st) (app_itemTypes st)
                   selectedItems nowIso = Written fn wb →
     length (dataRows wb) =
     length (List.filter
               (fun item => bool_decide (item_id item ∈ selectedItems))
               (app_items st))) ∧
  (∀ project nowIso fn wb,
     exportProject toLocaleDateString book_append_sheet writeFile
                   project (app_items st)
                   (app_itemTypes st) nowIso = Written fn wb →
     length (dataRows (tail wb)) =
     length (projectItems project (app_items st))).
Proof.
  intros Hreach. destruct (reachable_wf st Hreach) as (_ & Hitems & _).
  assert (∀ items groups,
    (∀ item, item ∈ items → item ∈ app_items st) →
    groupedByType items = Some groups →
    length (dataRows
      (omap (typeSheet toLocaleDateString (app_itemTypes st))
            (js_entries groups))) = length items) as Hrows.
  { intros items groups Hsub Hgroups.
    rewrite (Permutation_length
               (type_sheets_hold_every_row _ _ _ _ Hgroups)).
    apply flat_map_length_singletons. intros item Hitem.
    apply conforming_item_owed_one_row.
    eapply Forall_forall in Hitems; [done|]. by apply Hsub. }
  split.
  - intros selectedItems nowIso fn wb
      (_ & groups & Hgroups & _ & ->)%exportToExcel_Written.
    apply Hrows; [|done]. intros item Hitem.
    by apply elem_of_filter_bool in Hitem as [? _].
  - intros project nowIso fn wb
      (_ & groups & Hgroups & _ & ->)%exportProject_Written.
    simpl. apply Hrows; [|done]. intros item Hitem.
    by apply elem_of_filter_bool in Hitem as [? _].
Qed.

End ReachableExport.

(** ** More on searching *)

Lemma substring_of_trans a b c :
  substring_of a b → substring_of b c → substring_of a c.
Proof.
  intros (p1 & q1 & ->) (p2 & q2 & ->).
  exists (p2 +:+ p1), (q1 +:+ q2). by rewrite !append_assoc.
Qed.

Lemma substring_of_empty a : substring_of a "" → a = "".
Proof.
  intros (p & q & Hpq). destruct p; [|done]. by destruct a.
Qed.

Lemma spec_matches_refine query query' item :
  substring_of (toLowerCase query) (toLowerCase query') →
  spec_matches query' item → spec_matches query item.
Proof.
  intros Hsub [Hname|(k & v & Hk & Hv)].
  - left. by eapply substring_of_trans.
  - right. exists k, v. split; [done|]. by eapply substring_of_trans.
Qed.

Lemma filteredItems_elem_of items query item :
  item ∈ filteredItems items query ↔ item ∈ items ∧ spec_matches query item.
Proof.
  unfold filteredItems.
  destruct (String.eqb query "") eqn:Hq.
  - apply String.eqb_eq in Hq as ->. split; [|by intros [? _]].
    intros Hin. split; [done|]. apply search_test_spec.
    by rewrite includes_lower_empty.
  - rewrite elem_of_filter_bool. by rewrite search_test_spec.
Qed.

Lemma filter_filter_implied {A : Type} (f g : A → bool) (l : list A) :
  (∀ x, x ∈ l → g x = true → f x = true) →
  List.filter g (List.filter f l) = List.filter g l.
Proof.
  induction l as [|x l IH]; intros Himp; simpl; [done|].
  assert (List.filter g (List.filter f l) = List.filter g l) as IH'.
  { apply IH. intros y Hy. apply Himp, elem_of_cons. by right. }
  destruct (f x) eqn:Hf; simpl.
  - by rewrite IH'.
  - destruct (g x) eqn:Hg; [|done].
    rewrite Himp in Hf; [done|apply list_elem_of_here|done].
Qed.

(** X17.  Refining a query narrows the result: when the lowercased
    query [q] occurs inside the lowercased query [q'], searching [q']
    within the results of [q] gives exactly the results of [q'] on the
    whole list, so every record found for [q'] is also found for [q].
    Nothing but the transitivity of [includes] is used of the
    strings. *)
Theorem refined_query_searches_within_results
    (items : list ItemInstance) (query query' : string) :
  substring_of (toLowerCase query) (toLowerCase query') →
  filteredItems (filteredItems items query) query' =
    filteredItems items query' ∧
  ∀ item, item ∈ filteredItems items query' →
          item ∈ filteredItems items query.
Proof.
  intros Hsub.
  assert (∀ item, item ∈ filteredItems items query' →
                  item ∈ filteredItems items query) as Hnarrow.
  { intros item. rewrite !filteredItems_elem_of. intros [Hin Hm].
    split; [done|]. by eapply spec_matches_refine. }
  split; [|done].
  unfold filteredItems at 1 3.
  destruct (String.eqb query' "") eqn:Hq'.
  - apply String.eqb_eq in Hq' as ->.
    rewrite toLowerCase_empty in Hsub. apply substring_of_empty in Hsub.
    unfold filteredItems. destruct (String.eqb query ""); [done|].
    apply filter_all_true. intros item. simpl.
    by rewrite Hsub, includes_empty.
  - unfold filteredItems. destruct (String.eqb query "") eqn:Hq; [done|].
    apply filter_filter_implied. intros item Hin Hm.
    apply search_test_spec. apply search_test_spec in Hm.
    by eapply spec_matches_refine.
Qed.

(** X18.  The add dialog filters the available items with the same
    search as the item list, for every query. *)
Theorem add_dialog_search_is_item_list_search
    (availableItems : list ItemInstance) (searchTerm : string) :
  AddItemsDialog.filteredItems availableItems searchTerm =
  filteredItems availableItems searchTerm.
Proof.
  unfold AddItemsDialog.filteredItems, filteredItems.
  destruct (String.eqb searchTerm "") eqn:Hq.
  - apply String.eqb_eq in Hq as ->. apply filter_all_true.
    intros item. cbn beta zeta. by rewrite includes_lower_empty.
  - apply filter_ext. intros item. simpl.
    by destruct (includes (toLowerCase (item_typeName item)) _).
Qed.

(** X19.  The project list keeps, in order, the projects whose name,
    description or location contains the query, letter case aside; with
    an empty query it keeps them all. *)
Theorem project_search_matches_name_description_location
    (projects : list Project) (searchTerm : string) :
  (∀ project,
     project ∈ ProjectList.filteredProjects projects searchTerm ↔
     project ∈ projects ∧
     (substring_of (toLowerCase searchTerm)
                   (toLowerCase (project_name project)) ∨
      substring_of (toLowerCase searchTerm)
                   (toLowerCase (project_description project)) ∨
      substring_of (toLowerCase searchTerm)
                   (toLowerCase (project_location project)))) ∧
  ProjectList.filteredProjects projects searchTerm `sublist_of` projects ∧
  ProjectList.filteredProjects projects "" = projects.
Proof.
  split_and!.
  - intros project. unfold ProjectList.filteredProjects.
    rewrite elem_of_filter_bool. simpl.
    rewrite !orb_true_iff, !includes_spec. tauto.
  - unfold ProjectList.filteredProjects.
    induction projects as [|p projects IH]; simpl; [done|].
    destruct (_ || _); [by apply sublist_skip|by apply sublist_cons].
  - unfold ProjectList.filteredProjects. apply filter_all_true.
    intros project. cbn beta zeta. by rewrite includes_lower_empty.
Qed.

(** ** Creating an item *)

(** X20.  The create-item view adds an item exactly when a type with the
    selected id is registered and every required field of the first such
    type has a truthy value.  It then appends one item and leaves the
    earlier ones as they are; the new item bears the selected type id,
    the name of that type and the form data. *)
Theorem item_created_iff_type_found_and_form_valid
    (itemTypes : list ItemType) (items : list ItemInstance)
    (selectedTypeId : string) (formData : gmap string jsval)
    (nowMs : Z) (nowIso : string) :
  (createItem itemTypes items selectedTypeId formData nowMs nowIso = None ↔
   selectedItemType itemTypes selectedTypeId = None ∨
   ∃ itemType field,
     selectedItemType itemTypes selectedTypeId = Some itemType ∧
     field ∈ type_fields itemType ∧ field_required field = true ∧
     ToBoolean (js_get formData (field_id field)) = false) ∧
  (∀ items',
     createItem itemTypes items selectedTypeId formData nowMs nowIso =
       Some items' →
     ∃ itemType,
       selectedItemType itemTypes selectedTypeId = Some itemType ∧
       items' =
         items ++ [mkItem ("item_" +:+ pretty nowMs) selectedTypeId
                          (type_name itemType) formData nowIso]).
Proof.
  unfold createItem.
  destruct (selectedItemType itemTypes selectedTypeId) as [itemType|]
    eqn:Hfind.
  2: { split; [split; auto|done]. }
  assert (type_id itemType = selectedTypeId) as Hid.
  { unfold selectedItemType in Hfind. apply find_some in Hfind as [_ Hid].
    by apply String.eqb_eq in Hid. }
  unfold handleSave.
  destruct ((validateForm itemType formData).2) eqn:Hok.
  - split.
    + split; [done|]. intros [?|(t & field & [= <-] & Hfield & Hreq & Hv)];
        [done|].
      assert ((validateForm itemType formData).2 = false) as Hno;
        [|congruence].
      apply validateForm_ok. exists field. split; [done|].
      by apply field_violation_falsy.
    + intros items' [= <-]. exists itemType. by rewrite Hid.
  - split; [|done]. split; [|done]. intros _. right.
    apply validateForm_ok in Hok as (field & Hfield & Hv).
    apply field_violation_falsy in Hv as [Hreq Hv].
    by exists itemType, field.
Qed.

Lemma edits_formData_lookup
    (edits : list (string * jsval))
    (st : gmap string jsval * gmap string string) (k : string) :
  (∃ v, (k, v) ∈ edits ∧
        (foldl (fun st e => handleInputChange st e.1 e.2) st edits).1 !! k =
          Some v) ∨
  ((∀ v, (k, v) ∉ edits) ∧
   (foldl (fun st e => handleInputChange st e.1 e.2) st edits).1 !! k =
     st.1 !! k).
Proof.
  revert st. induction edits as [|[k' v'] edits IH]; intros st; simpl.
  - right. split; [|done]. intros v Hin. by apply elem_of_nil in Hin.
  - destruct (IH (handleInputChange st k' v')) as [(v & Hin & Hv)|[Hno Hv]].
    + left. exists v. split; [by apply list_elem_of_further|done].
    + rewrite Hv. unfold handleInputChange; simpl.
      destruct (decide (k' = k)) as [->|Hne].
      * left. exists v'. split; [apply list_elem_of_here|].
        by rewrite lookup_insert_eq.
      * right. split; [|by rewrite lookup_insert_ne].
        intros v Hin. apply elem_of_cons in Hin as [[= ? ?]|Hin];
          [done|by apply (Hno v)].
Qed.

Lemma edits_errors_cleared
    (edits : list (string * jsval))
    (st : gmap string jsval * gmap string string) (k : string) :
  (default "" (st.2 !! k) = "" ∨ ∃ v, (k, v) ∈ edits) →
  default ""
    ((foldl (fun st e => handleInputChange st e.1 e.2) st edits).2 !! k) =
  "".
Proof.
  revert st. induction edits as [|[k' v'] edits IH]; intros st Hk; simpl.
  - destruct Hk as [?|(v & Hin)]; [done|]. by apply elem_of_nil in Hin.
  - apply IH. unfold handleInputChange; simpl.
    destruct (decide (k' = k)) as [->|Hne].
    + left. destruct (st.2 !! k) as [msg|] eqn:Hmsg; simpl.
      * destruct (String.eqb msg "") eqn:Hm; simpl.
        -- rewrite Hmsg. simpl. by apply String.eqb_eq.
        -- by rewrite lookup_insert_eq.
      * by rewrite Hmsg.
    + destruct Hk as [Hk|(v & Hin)].
      * left. destruct (st.2 !! k') as [msg|]; [|done].
        destruct (negb _); [by rewrite lookup_insert_ne|done].
      * right. exists v.
        apply elem_of_cons in Hin as [[= ? ?]|Hin]; done.
Qed.

(** X21.  The error record of a failed validation names all that needs
    fixing: once the user has typed a truthy value into every flagged
    field (and possibly into others), no error text remains on the
    edited fields and the save succeeds with the edited data. *)
Theorem fixing_flagged_fields_makes_save_succeed
    (itemType : ItemType) (formData : gmap string jsval)
    (edits : list (string * jsval)) (nowMs : Z) (nowIso : string) :
  (∀ k, is_Some ((validateForm itemType formData).1 !! k) →
        ∃ v, (k, v) ∈ edits) →
  (∀ k v, (k, v) ∈ edits → ToBoolean v = true) →
  ∃ formData' errors',
    foldl (fun st e => handleInputChange st e.1 e.2)
          (formData, (validateForm itemType formData).1) edits =
      (formData', errors') ∧
    (∀ k v, (k, v) ∈ edits → default "" (errors' !! k) = "") ∧
    handleSave itemType formData' nowMs nowIso =
      Some (mkItem ("item_" +:+ pretty nowMs) (type_id itemType)
                   (type_name itemType) formData' nowIso).
Proof.
  intros Hflagged Htruthy.
  set (st0 := (formData, (validateForm itemType formData).1)).
  destruct (foldl _ st0 edits) as [formData' errors'] eqn:Hfold.
  exists formData', errors'. split_and!; [done| |].
  - intros k v Hin.
    pose proof (edits_errors_cleared edits st0 k) as Hc.
    rewrite Hfold in Hc. apply Hc. right. by exists v.
  - unfold handleSave.
    destruct ((validateForm itemType formData').2) eqn:Hok; [done|].
    exfalso. apply validateForm_ok in Hok as (field & Hfield & Hv).
    apply field_violation_falsy in Hv as [Hreq Hv].
    pose proof (edits_formData_lookup edits st0 (field_id field)) as Hl.
    rewrite Hfold in Hl. simpl in Hl. unfold js_get in Hv.
    destruct Hl as [(v & Hin & Hlook)|[Hno Hlook]].
    + rewrite Hlook in Hv. simpl in Hv.
      rewrite (Htruthy _ _ Hin) in Hv. done.
    + rewrite Hlook in Hv.
      destruct (Hflagged (field_id field)) as (v & Hin);
        [|by apply (Hno v)].
      apply validateForm_errors. exists field. split_and!; [done..|].
      by apply field_violation_falsy.
Qed.

(** ** What the cards and tables show *)

Lemma pretty_N_go_length (x : N) (s : string) :
  String.length s ≤ String.length (pretty_N_go x s).
Proof.
  revert s. induction (N.lt_wf_0 x) as [x _ IH]; intros s.
  destruct (decide (x = 0)%N) as [->|Hx]; [by rewrite pretty_N_go_0|].
  rewrite pretty_N_go_step by lia.
  etrans; [|apply IH; apply N.div_lt; lia]. simpl. lia.
Qed.

Lemma pretty_N_nonempty (x : N) : pretty x ≠ "".
Proof.
  unfold pretty, pretty_N. case_decide as Hx; [done|].
  rewrite pretty_N_go_step by lia. intros Hempty.
  pose proof (pretty_N_go_length (x `div` 10)%N
                (String (pretty_N_char (x `mod` 10)%N) "")) as Hlen.
  rewrite Hempty in Hlen. simpl in Hlen. lia.
Qed.

Lemma pretty_Z_nonempty (n : Z) : pretty n ≠ "".
Proof.
  destruct n as [|p|p]; [done| |done].
  apply (pretty_N_nonempty (Npos p)).
Qed.

Lemma js_String_truthy v : ToBoolean v = true → js_String v ≠ "".
Proof.
  destruct v as [| |[|]|n| |s]; simpl; try done.
  - intros _. apply pretty_Z_nonempty.
  - intros Hs. apply negb_true_iff in Hs. by apply String.eqb_neq.
Qed.

Lemma fieldShown_spec value :
  fieldShown value = true ↔ ToBoolean value = true ∨ value = JNum 0.
Proof.
  unfold fieldShown.
  rewrite negb_true_iff, andb_false_iff, !negb_false_iff. split.
  - intros [?|Heq]; [by left|]. right.
    destruct value; simpl in Heq; try done.
    by apply bool_decide_eq_true in Heq.
  - intros [? | ->]; [by left|by right].
Qed.

Lemma shown_labels n (render : jsval → FieldDefinition → string)
    itemType item label :
  label ∈ omap (fun field =>
                  let value := js_get (item_data item) (field_id field) in
                  if fieldShown value
                  then Some (field_name field, render value field)
                  else None)
               (take n (type_fields itemType)) ↔
  labelled n render itemType item label.
Proof.
  rewrite list_elem_of_omap. unfold labelled. split.
  - intros (field & Hin & Hlabel).
    apply list_elem_of_lookup in Hin as [i Hi].
    apply lookup_take_Some in Hi as [Hi Hlt].
    simpl in Hlabel.
    destruct (fieldShown _) eqn:Hshown; [|done].
    injection Hlabel as <-. apply fieldShown_spec in Hshown.
    by exists i, field.
  - intros (i & field & Hlt & Hi & Hshown & ->).
    exists field. split.
    + apply list_elem_of_lookup. exists i. by apply lookup_take_Some.
    + simpl. apply fieldShown_spec in Hshown. by rewrite Hshown.
Qed.

Section DisplayFacts.

Variable localeDateOf : jsval → string.

(** X22.  An item whose type is not found is rendered neither as a card
    of the item list, nor as a row of the project table, nor as an
    entry of the add dialog.  Otherwise the card shows the first six
    fields of the type whose value is truthy or the number 0, the table
    row the first three and the dialog entry the first four, and no
    other field.  On cards and table rows the number 0 is shown as a
    label with an empty text, for a field of any kind; in the dialog it
    is shown as "0".  A truthy value of a field that is not a date is
    shown as its string form, which is not empty. *)
Theorem zero_is_shown_as_empty_text
    (itemTypes : list ItemType) (item : ItemInstance) :
  (getItemTypeById itemTypes (item_typeId item) = None →
   cardFields localeDateOf itemTypes item = None ∧
   rowFields localeDateOf itemTypes item = None ∧
   dialogFields itemTypes item = None) ∧
  (∀ itemType,
     getItemTypeById itemTypes (item_typeId item) = Some itemType →
     ∃ card row entry,
       cardFields localeDateOf itemTypes item = Some card ∧
       rowFields localeDateOf itemTypes item = Some row ∧
       dialogFields itemTypes item = Some entry ∧
       (∀ label, label ∈ card ↔
          labelled 6 (formatFieldValue localeDateOf) itemType item label) ∧
       (∀ label, label ∈ row ↔
          labelled 3 (formatFieldValue localeDateOf) itemType item label) ∧
       (∀ label, label ∈ entry ↔
          labelled 4 (fun value _ => js_String value) itemType item label)) ∧
  (∀ field, formatFieldValue localeDateOf (JNum 0) field = "") ∧
  js_String (JNum 0) = "0" ∧
  (∀ value field,
     field_type field ≠ date → ToBoolean value = true →
     formatFieldValue localeDateOf value field = js_String value ∧
     js_String value ≠ "").
Proof.
  split_and!.
  - intros Hnone. unfold cardFields, rowFields, dialogFields.
    by rewrite Hnone.
  - intros itemType Hfound. unfold cardFields, rowFields, dialogFields.
    rewrite Hfound. eexists _, _, _. split_and!; [reflexivity..| | |].
    + intros label. apply shown_labels.
    + intros label. apply shown_labels.
    + intros label.
      apply (shown_labels 4 (fun value _ => js_String value)).
  - intros field. unfold formatFieldValue. simpl.
    by rewrite andb_false_r.
  - done.
  - intros value field Hkind Ht.
    unfold formatFieldValue, js_or.
    rewrite bool_decide_eq_false_2 by done. simpl. rewrite Ht.
    split; [done|]. by apply js_String_truthy.
Qed.

End DisplayFacts.

(** ** The list of projects (Index) *)

(** X23.  Updating a project replaces, in place, the projects that bear
    its id and leaves the sequence of project ids as it was; deleting a
    project removes the projects that bear the id and keeps the others
    in order; deleting a project right after saving it, when its id was
    not in use, gives back the former list. *)
Theorem project_list_updates_keep_ids
    (projects : list Project) (updated : Project) (projectId : string) :
  project_id <$> handleUpdateProject projects updated =
    project_id <$> projects ∧
  (∀ i p, projects !! i = Some p →
     handleUpdateProject projects updated !! i =
       Some (if String.eqb (project_id p) (project_id updated)
             then updated else p)) ∧
  (∀ p, p ∈ handleDeleteProject projects projectId ↔
        p ∈ projects ∧ project_id p ≠ projectId) ∧
  handleDeleteProject projects projectId `sublist_of` projects ∧
  ((∀ p, p ∈ projects → project_id p ≠ project_id updated) →
   handleDeleteProject (handleSaveProject projects updated)
                       (project_id updated) = projects ∧
   handleUpdateProject projects updated = projects).
Proof.
  split_and!.
  - unfold handleUpdateProject.
    induction projects as [|p projects IH]; [done|].
    cbn [List.map fmap list_fmap]. cbn [fmap list_fmap] in IH.
    rewrite IH. f_equal.
    destruct (String.eqb (project_id p) (project_id updated)) eqn:Hid;
      [|done].
    by apply String.eqb_eq in Hid.
  - intros i p Hi. unfold handleUpdateProject.
    change (List.map ?f ?l) with (f <$> l).
    by rewrite list_lookup_fmap, Hi.
  - intros p. unfold handleDeleteProject.
    by rewrite elem_of_filter_bool, negb_true_iff, String.eqb_neq.
  - unfold handleDeleteProject.
    induction projects as [|p projects IH]; simpl; [done|].
    destruct (negb _); [by apply sublist_skip|by apply sublist_cons].
  - intros Hfresh. split.
    + unfold handleDeleteProject, handleSaveProject.
      rewrite List.filter_app. simpl.
      rewrite String.eqb_refl. simpl. rewrite app_nil_r.
      apply filter_all_true_in. intros p Hp.
      apply negb_true_iff, String.eqb_neq. by apply Hfresh.
    + unfold handleUpdateProject.
      induction projects as [|p projects IH]; simpl; [done|].
      rewrite IH by (intros q Hq; apply Hfresh, elem_of_cons; by right).
      destruct (String.eqb (project_id p) (project_id updated)) eqn:Hid;
        [|done].
      apply String.eqb_eq in Hid. exfalso.
      by apply (Hfresh p (list_elem_of_here _ _)).
Qed.

(** ** The options of a select field *)

Lemma chars_append s t :
  list_ascii_of_string (s +:+ t) =
  list_ascii_of_string s ++ list_ascii_of_string t.
Proof.
  induction s as [|c s IH]; [done|].
  rewrite append_cons_l. simpl. by rewrite IH.
Qed.

Lemma chars_rev s x :
  x ∈ list_ascii_of_string (String.rev s) ↔ x ∈ list_ascii_of_string s.
Proof.
  induction s as [|c s IH]; [done|].
  rewrite rev_cons, chars_append. simpl.
  rewrite elem_of_app, list_elem_of_singleton, elem_of_cons, IH. tauto.
Qed.

Lemma split_go_no_separator c s cur tok x :
  (∀ y, y ∈ list_ascii_of_string cur → y ≠ c) →
  tok ∈ split_go c cur s → x ∈ list_ascii_of_string tok → x ≠ c.
Proof.
  revert cur. induction s as [|a s IH]; intros cur Hcur; simpl.
  - intros Htok Hx. apply list_elem_of_singleton in Htok as ->.
    rewrite chars_rev in Hx. by apply Hcur.
  - destruct (Ascii.eqb a c) eqn:Hac.
    + intros Htok Hx. apply elem_of_cons in Htok as [->|Htok].
      * rewrite chars_rev in Hx. by apply Hcur.
      * apply (IH ""); [|done..]. intros y Hy. by apply elem_of_nil in Hy.
    + apply IH. intros y Hy. simpl in Hy.
      apply elem_of_cons in Hy as [->|Hy]; [|by apply Hcur].
      by apply Ascii.eqb_neq.
Qed.

Lemma trim_chars s x :
  x ∈ list_ascii_of_string (trim s) → x ∈ list_ascii_of_string s.
Proof.
  unfold trim. intros Hx.
  destruct (trimStart_suffix s) as [pre Hpre].
  destruct (trimEnd_prefix (trimStart s)) as [suf Hsuf].
  rewrite Hpre, Hsuf, !chars_append, !elem_of_app. auto.
Qed.

Lemma includes_char s c :
  includes s (String c "") = true → c ∈ list_ascii_of_string s.
Proof.
  intros (pre & post & ->)%includes_spec.
  rewrite !chars_append, !elem_of_app. right. left. simpl.
  apply list_elem_of_here.
Qed.

Lemma parseOptions_tokens raw opt :
  opt ∈ parseOptions raw →
  opt ≠ "" ∧ trim opt = opt ∧ includes opt "," = false.
Proof.
  intros (Hne & tok & Htok & ->)%parseOptions_spec.
  split_and!; [done|apply trim_idemp|].
  destruct (includes (trim tok) ",") eqn:Hinc; [|done]. exfalso.
  apply includes_char, trim_chars in Hinc.
  eapply (split_go_no_separator "," raw "" tok); [|exact Htok|exact Hinc|done].
  intros y Hy. by apply elem_of_nil in Hy.
Qed.

(** X24.  Whatever the user does in the type creator, every option of
    every stored field is a non-empty text without surrounding white
    space and without a comma. *)
Theorem stored_options_are_clean_tokens
    (actions : list CreatorAction) (field : FieldDefinition)
    (opts : list string) (opt : string) :
  field ∈ st_fields (creator_run actions) →
  field_options field = Some opts →
  opt ∈ opts →
  opt ≠ "" ∧ trim opt = opt ∧ includes opt "," = false.
Proof.
  intros Hfield Hopts Hopt.
  pose proof (creator_run_inv actions) as Hinv.
  eapply Forall_forall in Hinv; [|exact Hfield].
  destruct (Hinv opts Hopts) as [_ (raw & _ & ->)].
  by apply (parseOptions_tokens raw).
Qed.

(** ** The file name of a project export *)

Lemma slugify_length s : String.length (slugify s) = String.length s.
Proof. induction s as [|c s IH]; simpl; [done|]. by rewrite IH. Qed.

Lemma slugify_chars s c :
  c ∈ list_ascii_of_string (slugify s) → is_alnum c = true ∨ c = "_"%char.
Proof.
  induction s as [|a s IH]; simpl.
  - intros Hc. by apply elem_of_nil in Hc.
  - intros Hc. apply elem_of_cons in Hc as [->|Hc]; [|by apply IH].
    destruct (is_alnum a) eqn:Ha; [by left|by right].
Qed.

Lemma slugify_idemp s : slugify (slugify s) = slugify s.
Proof.
  induction s as [|a s IH]; simpl; [done|]. rewrite IH. f_equal.
  destruct (is_alnum a) eqn:Ha; [by rewrite Ha|done].
Qed.

Section FileName.

Variable toLocaleDateString : string → string.
Variable book_append_sheet : list Sheet → Sheet → bool.
Variable writeFile : list Sheet → string → bool.

(** X25.  The file of a project export is named
    [<slug>_export_<day>.xlsx], where the slug has as many characters
    as the project name, each of them a letter, a digit or an
    underscore; letters and digits of the name are kept, and a name
    made of them only is its own slug. *)
Theorem project_export_file_name
    project allItems itemTypes nowIso fn wb :
  exportProject toLocaleDateString book_append_sheet writeFile
                project allItems itemTypes nowIso =
    Written fn wb →
  fn = slugify (project_name project) +:+ "_export_" +:+
       isoDay nowIso +:+ ".xlsx" ∧
  String.length (slugify (project_name project)) =
    String.length (project_name project) ∧
  (∀ c, c ∈ list_ascii_of_string (slugify (project_name project)) →
        is_alnum c = true ∨ c = "_"%char) ∧
  slugify (slugify (project_name project)) =
    slugify (project_name project) ∧
  ((∀ c, c ∈ list_ascii_of_string (project_name project) →
         is_alnum c = true) →
   slugify (project_name project) = project_name project).
Proof.
  intros (_ & groups & _ & -> & _)%exportProject_Written.
  split_and!; [done|apply slugify_length|apply slugify_chars
              |apply slugify_idemp|].
  induction (project_name project) as [|a s IH]; simpl; [done|].
  intros Hall. rewrite (Hall a) by apply list_elem_of_here. f_equal.
  apply IH. intros c Hc. apply Hall, elem_of_cons. by right.
Qed.

End FileName.

(** ** Selecting items *)

(** X26.  Toggling an item flips its membership in the selection and
    nothing else, so toggling it twice restores the selection.  "Select
    all" on a list of items with distinct ids selects exactly their ids
    unless the selection already has as many elements as the list, in
    which case it clears the selection; pressing it again after a
    selection of all clears it. *)
Theorem selection_toggles
    (selectedItems : gset string) (itemId : string)
    (filtered : list ItemInstance) :
  (∀ id, id ∈ toggleItemSelection selectedItems itemId ↔
         (id ≠ itemId ∧ id ∈ selectedItems) ∨
         (id = itemId ∧ itemId ∉ selectedItems)) ∧
  toggleItemSelection (toggleItemSelection selectedItems itemId) itemId =
    selectedItems ∧
  (size selectedItems = length filtered →
   toggleSelectAll selectedItems filtered = ∅) ∧
  (size selectedItems ≠ length filtered →
   (∀ id, id ∈ toggleSelectAll selectedItems filtered ↔
          ∃ item, item ∈ filtered ∧ item_id item = id) ∧
   (NoDup (item_id <$> filtered) →
    toggleSelectAll (toggleSelectAll selectedItems filtered) filtered = ∅)).
Proof.
  split_and!.
  - intros id. unfold toggleItemSelection.
    case_bool_decide as Hin.
    + rewrite elem_of_difference, elem_of_singleton.
      split; [intros [? ?]; by left|].
      intros [[? ?]|[_ ?]]; done.
    + rewrite elem_of_union, elem_of_singleton. split.
      * intros [? | ->]; [left; split; [by intros ->|done]|by right].
      * intros [[_ ?]|[-> _]]; auto.
  - unfold toggleItemSelection.
    destruct (decide (itemId ∈ selectedItems)) as [Hin|Hin].
    + rewrite (bool_decide_eq_true_2 _ Hin).
      rewrite bool_decide_eq_false_2.
      2: { intros Hc. apply elem_of_difference in Hc as [_ Hne].
           apply Hne. by apply elem_of_singleton. }
      apply set_eq. intros id.
      rewrite elem_of_union, elem_of_difference, elem_of_singleton.
      destruct (decide (id = itemId)) as [->|?]; tauto.
    + rewrite (bool_decide_eq_false_2 _ Hin).
      rewrite bool_decide_eq_true_2.
      2: { apply elem_of_union. right. by apply elem_of_singleton. }
      apply set_eq. intros id.
      rewrite elem_of_difference, elem_of_union, elem_of_singleton.
      split; [by intros [[?|?] ?]|]. intros Hid. split; [by left|].
      by intros ->.
  - intros Hsize. unfold toggleSelectAll.
    by rewrite bool_decide_eq_true_2.
  - intros Hsize. unfold toggleSelectAll.
    rewrite (bool_decide_eq_false_2 _ Hsize). split.
    + intros id. rewrite elem_of_list_to_set.
      change (List.map item_id filtered) with (item_id <$> filtered).
      rewrite list_elem_of_fmap. split.
      * intros (item & -> & Hin). by exists item.
      * intros (item & Hin & <-). by exists item.
    + intros Hnd. rewrite bool_decide_eq_true_2; [done|].
      change (List.map item_id filtered) with (item_id <$> filtered).
      by rewrite size_list_to_set, length_fmap.
Qed.

(** ** The further properties on the sample data *)

Lemma sample_app_reachable : reachable sample_app.
Proof.
  unfold reachable.
  apply (rtc_l _ _ app_1).
  { apply (step_save_type initialApp select_with_colors "Paints"
             1700000000001 export_time paints_type).
    vm_compute. reflexivity. }
  apply (rtc_l _ _ app_2).
  { apply (step_create_item app_1 "type_1700000000001" red_form
             1700000000002 export_time [paint_1]).
    vm_compute. reflexivity. }
  apply (rtc_l _ _ app_3).
  { apply (step_save_project app_2 shed_form 1700000000003
             export_time export_time shed).
    vm_compute. reflexivity. }
  apply (rtc_l _ _ sample_app); [|apply rtc_refl].
  apply (step_add_items app_3 shed ["item_1700000000002"]
           "2024-11-04T09:00:00.000Z").
  - apply list_elem_of_here.
  - intros id Hid. apply list_elem_of_singleton in Hid as ->.
    exists paint_1. split; [|reflexivity].
    vm_compute. apply list_elem_of_here.
Defined.

(** An instance on the sample data. *)
Lemma sheet_names_are_truncated_type_names_witness :
  ∃ item rest,
    item ∈ [product_1; product_2] ∧
    item_id item ∈ ({["item_1"; "item_2"]} : gset string) ∧
    item_typeName item = sheet_name products_sheet +:+ rest ∧
    String.length (sheet_name products_sheet) =
      Nat.min 31 (String.length (item_typeName item)).
Proof.
  apply (proj1 (sheet_names_are_truncated_type_names
                  toLocaleDateString_enUS
                  xlsx_book_append_sheet xlsx_writeFile)
           _ _ _ _ _ _ products_sheet products_export).
  apply list_elem_of_here.
Defined.

(** An instance on the sample data. *)
Lemma column_widths_fit_the_sheet_witness :
  ∃ cols, sheet_cols products_sheet = Some cols ∧
          columns_fit products_sheet cols.
Proof.
  apply (proj1 (column_widths_fit_the_sheet toLocaleDateString_enUS xlsx_book_append_sheet xlsx_writeFile)
           _ _ _ _ _ _ products_sheet products_export).
  apply list_elem_of_here.
Defined.

(** An instance on the sample data. *)
Lemma export_loses_no_record_witness :
  dataRows [products_sheet] ≡ₚ
  flat_map (rowsOwed toLocaleDateString_enUS [products_type])
    (List.filter
       (fun item =>
          bool_decide (item_id item ∈ ({["item_1"; "item_2"]} : gset string)))
       [product_1; product_2]).
Proof.
  apply (proj1 (export_loses_no_record toLocaleDateString_enUS xlsx_book_append_sheet xlsx_writeFile)
           _ _ _ _ _ _ products_export).
Defined.

(** An instance on the sample data. *)
Lemma export_throws_on_inherited_type_name_witness :
  exportToExcel toLocaleDateString_enUS xlsx_book_append_sheet xlsx_writeFile
                [product_1; inherited_item] [products_type]
                {["item_1"; "item_8"]} export_time = Thrown.
Proof.
  apply (proj1 (export_throws_on_inherited_type_name
                  toLocaleDateString_enUS xlsx_book_append_sheet
                  xlsx_writeFile)).
  split.
  - vm_compute. intros H. discriminate H.
  - exists inherited_item. split_and!.
    + apply list_elem_of_further, list_elem_of_here.
    + by_evaluation.
    + by_evaluation.
Defined.

(** An instance on the sample data. *)
Lemma export_sheets_in_enumeration_order_witness :
  exportToExcel toLocaleDateString_enUS xlsx_book_append_sheet xlsx_writeFile
                [record_2024; record_2023] [type_2023; type_2024]
                {["item_3"; "item_4"]} export_time =
  Written "items_export_2024-11-03.xlsx"
    (omap (spec_sheet toLocaleDateString_enUS [type_2023; type_2024]
                      [record_2024; record_2023])
          ["2023"; "2024"]).
Proof.
  etrans.
  - apply (export_sheets_in_enumeration_order toLocaleDateString_enUS
             xlsx_book_append_sheet xlsx_writeFile).
    + vm_compute. intros H. discriminate H.
    + intros item Hin _. apply elem_of_cons in Hin as [->|Hin];
        [|apply list_elem_of_singleton in Hin as ->]; by_evaluation.
  - vm_compute. reflexivity.
Defined.

(** An instance on the sample data. *)
Lemma total_items_counts_resolved_members_witness :
  ∃ info sheets resolved,
    [mkSheet "Project Info"
       [ [JStr "Project Name"; JStr "Site D"];
         [JStr "Description"; JStr ""];
         [JStr "Location"; JStr "Nice"];
         [JStr "Created At"; JStr "2/1/2024"];
         [JStr "Updated At"; JStr "3/7/2024"];
         [JStr "Total Items"; JNum 1] ]
       None;
     mkSheet "Products"
       [ [JStr "ID"; JStr "Created At"; JStr "Name"; JStr "Price"];
         [JStr "item_1"; JStr "3/5/2024"; JStr "Lamp"; JStr "12"] ]
       (Some [8; 12; 6; 7])] = info :: sheets ∧
    sheet_name info = "Project Info" ∧
    last (sheet_data info) =
      Some [JStr "Total Items"; JNum (Z.of_nat resolved)] ∧
    resolved = length (projectItems dangling_project [product_1; product_2]) ∧
    resolved +
    length (List.filter
              (fun id => negb (bool_decide
                 (id ∈ item_id <$> [product_1; product_2])))
              (project_itemIds dangling_project)) =
    ProjectList.getProjectItemCount dangling_project.
Proof.
  apply (total_items_counts_resolved_members toLocaleDateString_enUS xlsx_book_append_sheet xlsx_writeFile
           dangling_project [product_1; product_2] [products_type]
           export_time "Site_D_export_2024-11-03.xlsx").
  - by_evaluation.
  - by_evaluation.
  - vm_compute. reflexivity.
Defined.

Lemma products_project_wf :
  Forall (project_wf [product_1; product_2]) [products_project].
Proof.
  apply Forall_singleton. split.
  - by_evaluation.
  - intros id Hid. apply elem_of_cons in Hid as [->|Hid];
      [|apply list_elem_of_singleton in Hid as ->].
    + exists product_1. split; [apply list_elem_of_here|reflexivity].
    + exists product_2.
      split; [apply list_elem_of_further, list_elem_of_here|reflexivity].
Defined.

(** An instance on the sample data. *)
Lemma deletion_cascade_keeps_references_sound_witness :
  (∀ item,
     item ∈ (handleDeleteItems [product_1; product_2] [products_project]
               ["item_1"] (fun _ => export_time)).1 →
     item ∈ [product_1; product_2] ∧ item_id item ∉ ["item_1"]) ∧
  (∀ project' id,
     project' ∈ (handleDeleteItems [product_1; product_2]
                   [products_project] ["item_1"]
                   (fun _ => export_time)).2 →
     id ∈ project_itemIds project' → id ∉ ["item_1"]) ∧
  Forall (project_wf
            (handleDeleteItems [product_1; product_2] [products_project]
               ["item_1"] (fun _ => export_time)).1)
         (handleDeleteItems [product_1; product_2] [products_project]
            ["item_1"] (fun _ => export_time)).2.
Proof.
  apply (deletion_cascade_keeps_references_sound
           [product_1; product_2] [products_project] ["item_1"]
           (fun _ => export_time)).
  apply products_project_wf.
Defined.

(** An instance on the sample data. *)
Lemma add_dialog_keeps_project_well_formed_witness :
  project_wf [item_x]
    (AddItemsDialog.handleAddItems empty_project
       (foldl AddItemsDialog.toggleItemSelection [] ["x"; "x"; "x"])
       export_time).1 ∧
  project_itemIds
    (AddItemsDialog.handleAddItems empty_project
       (foldl AddItemsDialog.toggleItemSelection [] ["x"; "x"; "x"])
       export_time).1 =
    project_itemIds empty_project ++
    foldl AddItemsDialog.toggleItemSelection [] ["x"; "x"; "x"] ∧
  (AddItemsDialog.handleAddItems empty_project
     (foldl AddItemsDialog.toggleItemSelection [] ["x"; "x"; "x"])
     export_time).2 = [].
Proof.
  apply (add_dialog_keeps_project_well_formed [item_x] empty_project
           ["x"; "x"; "x"] export_time).
  - split; [by_evaluation|].
    intros id Hid. simpl in Hid. by apply elem_of_nil in Hid.
  - intros id Hid. exists item_x. split.
    + vm_compute. apply list_elem_of_here.
    + repeat (apply elem_of_cons in Hid as [->|Hid]; [reflexivity|]).
      by apply elem_of_nil in Hid.
Defined.

(** An instance on the sample data. *)
Lemma add_then_remove_restores_itemIds_witness :
  ∃ project',
    removeSelectedItems
      (addItemsToProject project_a ["b"; "c"] "2024-06-01")
      (list_to_set ["b"; "c"]) true "2024-06-02" = Some project' ∧
    project_itemIds project' = project_itemIds project_a ∧
    project_updatedAt project' = "2024-06-02".
Proof.
  apply (add_then_remove_restores_itemIds project_a ["b"; "c"]
           "2024-06-01" "2024-06-02").
  - intros H. discriminate H.
  - intros id Hid. apply elem_of_cons in Hid as [->|Hid];
      [|apply list_elem_of_singleton in Hid as ->]; by_evaluation.
Defined.

(** An instance on the sample data. *)
Lemma project_created_iff_name_and_location_witness :
  project_name shed = trim (ProjectCreator.name shed_form) ∧
  project_description shed = trim (ProjectCreator.description shed_form) ∧
  project_location shed = trim (ProjectCreator.location shed_form) ∧
  project_name shed ≠ "" ∧ project_location shed ≠ "" ∧
  trim (project_name shed) = project_name shed ∧
  trim (project_description shed) = project_description shed ∧
  trim (project_location shed) = project_location shed ∧
  project_itemIds shed = [] ∧
  project_createdAt shed = export_time ∧
  project_updatedAt shed = export_time.
Proof.
  apply (proj2 (proj2 (project_created_iff_name_and_location shed_form
                         1700000000003 export_time export_time)) shed).
  vm_compute. reflexivity.
Defined.

(** An instance on the sample data. *)
Lemma field_ids_distinct_when_added_at_distinct_times_witness :
  NoDup (field_id <$> st_fields (creator_run two_fields)) ∧
  ∀ field, field ∈ st_fields (creator_run two_fields) →
    ∀ other,
      other ∈ st_fields (removeField (creator_run two_fields)
                                     (field_id field)) ↔
      other ∈ st_fields (creator_run two_fields) ∧ other ≠ field.
Proof.
  apply (field_ids_distinct_when_added_at_distinct_times two_fields).
  by_evaluation.
Defined.

(** An instance on the sample data. *)
Lemma saved_item_type_is_usable_witness :
  type_name paints_type = "Paints" ∧
  type_fields paints_type = st_fields (creator_run select_with_colors) ∧
  type_id paints_type = "type_" +:+ pretty 1700000000001%Z ∧
  type_wf paints_type.
Proof.
  apply (proj2 (saved_item_type_is_usable "Paints" select_with_colors
                  1700000000001 export_time) paints_type).
  vm_compute. reflexivity.
Defined.

(** An instance on the sample data. *)
Lemma reachable_projects_reference_existing_items_witness :
  NoDup (project_itemIds shed_with_paint) ∧
  ∀ id, id ∈ project_itemIds shed_with_paint →
        ∃ item, item ∈ app_items sample_app ∧ item_id item = id.
Proof.
  apply (reachable_projects_reference_existing_items sample_app
           sample_app_reachable shed_with_paint).
  apply list_elem_of_here.
Defined.

(** An instance on the sample data. *)
Lemma reachable_items_conform_to_their_type_witness :
  ∃ itemType,
    selectedItemType (app_itemTypes sample_app) (item_typeId paint_1) =
      Some itemType ∧
    itemType ∈ app_itemTypes sample_app ∧
    item_typeName paint_1 = type_name itemType ∧
    ∀ field, field ∈ type_fields itemType →
      field_required field = true →
      ToBoolean (js_get (item_data paint_1) (field_id field)) = true.
Proof.
  apply (reachable_items_conform_to_their_type sample_app
           sample_app_reachable paint_1).
  apply list_elem_of_here.
Defined.

(** An instance on the sample data. *)
Lemma reachable_types_are_usable_witness :
  type_name paints_type ≠ "" ∧
  type_fields paints_type ≠ [] ∧
  ∀ field, field ∈ type_fields paints_type →
    field_name field ≠ "" ∧
    (field_type field ≠ select → field_options field = None).
Proof.
  apply (reachable_types_are_usable sample_app sample_app_reachable
           paints_type).
  apply list_elem_of_here.
Defined.

Lemma sample_app_export :
  exportToExcel toLocaleDateString_enUS xlsx_book_append_sheet xlsx_writeFile
                (app_items sample_app)
                (app_itemTypes sample_app) {["item_1700000000002"]}
                export_time =
  Written "items_export_2024-11-03.xlsx"
    [mkSheet "Paints"
       [ [JStr "ID"; JStr "Created At"; JStr "Color"];
         [JStr "item_1700000000002"; JStr "11/3/2024"; JStr "red"] ]
       (Some [20; 12; 7])].
Proof. vm_compute. reflexivity. Defined.

(** An instance on the sample data. *)
Lemma reachable_export_has_a_row_per_record_witness :
  length (dataRows
    [mkSheet "Paints"
       [ [JStr "ID"; JStr "Created At"; JStr "Color"];
         [JStr "item_1700000000002"; JStr "11/3/2024"; JStr "red"] ]
       (Some [20; 12; 7])]) =
  length (List.filter
            (fun item =>
               bool_decide (item_id item ∈
                            ({["item_1700000000002"]} : gset string)))
            (app_items sample_app)).
Proof.
  apply (proj1 (reachable_export_has_a_row_per_record
                  toLocaleDateString_enUS xlsx_book_append_sheet
                  xlsx_writeFile sample_app sample_app_reachable)
           _ _ _ _ sample_app_export).
Defined.

(** An instance on the sample data. *)
Lemma refined_query_searches_within_results_witness :
  filteredItems (filteredItems [product_1; product_2] "AM") "Lamp" =
    filteredItems [product_1; product_2] "Lamp" ∧
  ∀ item, item ∈ filteredItems [product_1; product_2] "Lamp" →
          item ∈ filteredItems [product_1; product_2] "AM".
Proof.
  apply (refined_query_searches_within_results [product_1; product_2]
           "AM" "Lamp").
  exists "l", "p". reflexivity.
Defined.

(** An instance on the sample data. *)
Lemma item_created_iff_type_found_and_form_valid_witness :
  ∃ itemType,
    selectedItemType [paints_type] "type_1700000000001" = Some itemType ∧
    [paint_1] =
      [] ++ [mkItem ("item_" +:+ pretty 1700000000002%Z)
                    "type_1700000000001" (type_name itemType) red_form
                    export_time].
Proof.
  apply (proj2 (item_created_iff_type_found_and_form_valid [paints_type] []
                  "type_1700000000001" red_form 1700000000002 export_time)
           [paint_1]).
  vm_compute. reflexivity.
Defined.

(** An instance on the sample data. *)
Lemma fixing_flagged_fields_makes_save_succeed_witness :
  ∃ formData' errors',
    foldl (fun st e => handleInputChange st e.1 e.2)
          (∅, (validateForm priced_type ∅).1) [("field_1", JStr "12")] =
      (formData', errors') ∧
    (∀ k v, (k, v) ∈ [("field_1", JStr "12")] →
            default "" (errors' !! k) = "") ∧
    handleSave priced_type formData' 1700000000002 export_time =
      Some (mkItem ("item_" +:+ pretty 1700000000002%Z) (type_id priced_type)
                   (type_name priced_type) formData' export_time).
Proof.
  apply (fixing_flagged_fields_makes_save_succeed priced_type ∅
           [("field_1", JStr "12")] 1700000000002 export_time).
  - intros k Hk.
    apply validateForm_errors in Hk as (field & Hfield & <- & _).
    apply list_elem_of_singleton in Hfield as ->.
    exists (JStr "12"). apply list_elem_of_here.
  - intros k v Hin. apply list_elem_of_singleton in Hin as [= -> ->].
    reflexivity.
Defined.

(** An instance on the sample data: a product whose price is 0. *)
Lemma zero_is_shown_as_empty_text_witness :
  ∃ card row entry,
    cardFields (fun v => toLocaleDateString_enUS (js_String v))
               [products_type] product_2 = Some card ∧
    rowFields (fun v => toLocaleDateString_enUS (js_String v))
              [products_type] product_2 = Some row ∧
    dialogFields [products_type] product_2 = Some entry ∧
    (∀ label, label ∈ card ↔
       labelled 6
         (formatFieldValue (fun v => toLocaleDateString_enUS (js_String v)))
         products_type product_2 label) ∧
    (∀ label, label ∈ row ↔
       labelled 3
         (formatFieldValue (fun v => toLocaleDateString_enUS (js_String v)))
         products_type product_2 label) ∧
    (∀ label, label ∈ entry ↔
       labelled 4 (fun value _ => js_String value)
                products_type product_2 label).
Proof.
  apply (proj1 (proj2 (zero_is_shown_as_empty_text
                         (fun v => toLocaleDateString_enUS (js_String v))
                         [products_type] product_2))).
  vm_compute. reflexivity.
Defined.

(** The labels of that product: the price is shown with an empty text
    on the card and in the table, and as "0" in the add dialog. *)
Example product_2_labels :
  cardFields (fun v => toLocaleDateString_enUS (js_String v))
             [products_type] product_2 =
    Some [("Name", "Desk"); ("Price", "")] ∧
  rowFields (fun v => toLocaleDateString_enUS (js_String v))
            [products_type] product_2 =
    Some [("Name", "Desk"); ("Price", "")] ∧
  dialogFields [products_type] product_2 =
    Some [("Name", "Desk"); ("Price", "0")].
Proof. split_and!; vm_compute; reflexivity. Qed.

(** An instance on the sample data. *)
Lemma project_list_updates_keep_ids_witness :
  handleDeleteProject (handleSaveProject [project_a] shed)
                      (project_id shed) = [project_a] ∧
  handleUpdateProject [project_a] shed = [project_a].
Proof.
  apply (proj2 (proj2 (proj2 (proj2
           (project_list_updates_keep_ids [project_a] shed ""))))).
  intros p Hp. apply list_elem_of_singleton in Hp as ->.
  intros H. discriminate H.
Defined.

(** An instance on the sample data. *)
Lemma stored_options_are_clean_tokens_witness :
  "green" ≠ "" ∧ trim "green" = "green" ∧ includes "green" "," = false.
Proof.
  apply (stored_options_are_clean_tokens select_with_colors color_field
           ["red"; "green"; "blue"] "green").
  - vm_compute. apply list_elem_of_here.
  - reflexivity.
  - apply list_elem_of_further, list_elem_of_here.
Defined.

(** An instance on the sample data. *)
Lemma project_export_file_name_witness :
  "Site_C_export_2024-11-03.xlsx" =
  slugify (project_name products_project) +:+ "_export_" +:+
  isoDay export_time +:+ ".xlsx".
Proof.
  apply (proj1 (project_export_file_name toLocaleDateString_enUS xlsx_book_append_sheet xlsx_writeFile
                  _ _ _ _ _ _ products_project_export)).
Defined.

(** An instance on the sample data. *)
Lemma selection_toggles_witness :
  toggleSelectAll (toggleSelectAll ∅ [product_1; product_2])
                  [product_1; product_2] = ∅.
Proof.
  assert (size (∅ : gset string) ≠ length [product_1; product_2]) as Hsize
    by by_evaluation.
  destruct (proj2 (proj2 (proj2
              (selection_toggles ∅ "item_1" [product_1; product_2]))) Hsize)
    as [_ Hall].
  apply Hall. by_evaluation.
Defined.
